(** * Multiplayer IPC layer of fallout1-re: a shallow embedding

    The development follows [src/game/multiplayer.c] and
    [src/game/multiplayer.h].  C strings are lists of characters (the
    characters before the terminator), fixed-size [char] arrays are lists of
    their declared length that may hold NUL characters, [int] values are
    integers in [Z], and the module's static variables are the fields of one
    record that every operation takes and returns.  Calls into the platform
    (pipe operations, debug output) and into the registered callbacks are
    recorded as a list of events; what the platform answers is an argument
    of the operation that asks. *)

From Stdlib Require Import ZArith Ascii String List Bool Lia.
From stdpp Require Import base tactics list.
Import ListNotations.
Local Open Scope Z_scope.

(** ** The C library functions the file calls *)

Module CLib.

Definition NUL : ascii := "000"%char.
Definition quote : ascii := "034"%char.
Definition newline : ascii := "010"%char.
Definition space : ascii := " "%char.

(** A string literal of the source.  The source's escaped double quote is
    written as an apostrophe here (no literal of the file holds one). *)
Definition lit (s : string) : list ascii :=
  map (fun c => if Ascii.eqb c "'"%char then quote else c)
      (list_ascii_of_string s).

(** The C string held by a [char] array: the characters before the first
    NUL.  An array without a NUL is not a string in C; the model then
    reads the whole array. *)
Fixpoint cstr (buf : list ascii) : list ascii :=
  match buf with
  | [] => []
  | c :: buf' => if Ascii.eqb c NUL then [] else c :: cstr buf'
  end.

Definition strlen (s : list ascii) : Z := Z.of_nat (length s).

(** [strcmp]: only the sign of the result is specified by C. *)
Fixpoint strcmp (a b : list ascii) : Z :=
  match a, b with
  | [], [] => 0
  | [], _ :: _ => -1
  | _ :: _, [] => 1
  | x :: a', y :: b' =>
      if Ascii.eqb x y then strcmp a' b'
      else if (N_of_ascii x <? N_of_ascii y)%N then -1 else 1
  end.

Fixpoint strncmp (a b : list ascii) (n : nat) : Z :=
  match n with
  | O => 0
  | S n' =>
      match a, b with
      | [], [] => 0
      | [], _ :: _ => -1
      | _ :: _, [] => 1
      | x :: a', y :: b' =>
          if Ascii.eqb x y then strncmp a' b' n'
          else if (N_of_ascii x <? N_of_ascii y)%N then -1 else 1
      end
  end.

(** [strchr s c] for a character [c] other than NUL: the suffix of [s]
    that starts at the first [c], or [None] for a null pointer. *)
Fixpoint strchr (s : list ascii) (c : ascii) : option (list ascii) :=
  match s with
  | [] => None
  | x :: s' => if Ascii.eqb x c then Some s else strchr s' c
  end.

Fixpoint is_prefix (p s : list ascii) : bool :=
  match p, s with
  | [], _ => true
  | _ :: _, [] => false
  | x :: p', y :: s' => Ascii.eqb x y && is_prefix p' s'
  end.

(** [strstr s p]: the suffix of [s] that starts at the first occurrence
    of [p], or [None] for a null pointer. *)
Fixpoint strstr (s p : list ascii) : option (list ascii) :=
  if is_prefix p s then Some s
  else match s with
       | [] => None
       | _ :: s' => strstr s' p
       end.

(** [strncpy dst src n] for [n] within the array [dst]: [n] characters are
    written, the string [src] and then NUL padding; the rest of [dst] is
    kept.  Every call in the file passes [sizeof dst - 1] or less. *)
Definition strncpy (dst src : list ascii) (n : nat) : list ascii :=
  take n src ++ replicate (n - length src) NUL ++ drop n dst.

(** [snprintf buf size fmt ...] with the formatted text [s]: the string left
    in [buf] (at most [size - 1] characters) and the returned count (the
    length of the whole formatted text). *)
Definition snprintf (size : nat) (s : list ascii) : list ascii * Z :=
  (take (size - 1) s, Z.of_nat (length s)).

(** *** Decimal conversion: [%d] and [atoi] *)

Definition INT_MAX : Z := 2147483647.
Definition INT_MIN : Z := -2147483648.
Definition int_range (n : Z) : Prop := INT_MIN <= n <= INT_MAX.

Definition digit_char (d : Z) : ascii := ascii_of_N (48 + Z.to_N d).
Definition is_digit (c : ascii) : bool :=
  ((48 <=? N_of_ascii c) && (N_of_ascii c <=? 57))%N.
Definition digit_val (c : ascii) : Z := Z.of_N (N_of_ascii c) - 48.

(** The decimal digits of [n >= 0], most significant first, in front of
    [acc]; ten rounds cover every 32-bit magnitude. *)
Fixpoint utoa (fuel : nat) (n : Z) (acc : list ascii) : list ascii :=
  match fuel with
  | O => acc
  | S fuel' =>
      let acc' := digit_char (n mod 10) :: acc in
      if n <? 10 then acc' else utoa fuel' (n / 10) acc'
  end.

(** What [%d] prints for an [int]. *)
Definition fmt_d (n : Z) : list ascii :=
  if n <? 0 then "-"%char :: utoa 10 (- n) [] else utoa 10 n [].

(** [isspace] in the C locale. *)
Definition is_space (c : ascii) : bool :=
  let k := N_of_ascii c in ((k =? 32) || ((9 <=? k) && (k <=? 13)))%N.

Fixpoint skip_space (s : list ascii) : list ascii :=
  match s with
  | c :: s' => if is_space c then skip_space s' else s
  | [] => []
  end.

Fixpoint atoi_digits (s : list ascii) (acc : Z) : Z :=
  match s with
  | c :: s' => if is_digit c then atoi_digits s' (acc * 10 + digit_val c) else acc
  | [] => acc
  end.

(** [atoi]: leading white space, an optional sign, then the longest run of
    digits; no digits give 0.  A value outside [int] is undefined in
    standard C; the Microsoft runtime this file is written for returns
    [INT_MAX] or [INT_MIN], which the model follows. *)
Definition atoi (s : list ascii) : Z :=
  let s := skip_space s in
  let v :=
    match s with
    | c :: s' =>
        if Ascii.eqb c "-"%char then - atoi_digits s' 0
        else if Ascii.eqb c "+"%char then atoi_digits s' 0
        else atoi_digits s 0
    | [] => 0
    end in
  Z.max INT_MIN (Z.min INT_MAX v).

End CLib.
Import CLib.

(** ** The data of multiplayer.h *)

(** [MultiplayerSession]: three [char] arrays of 64, 64 and 256 characters
    and the host flag. *)
Module Sess.
Record t := mk {
  session_id : list ascii;
  participant_id : list ascii;
  pipe_name : list ascii;
  is_host : bool }.
End Sess.
Definition MultiplayerSession := Sess.t.

(** [PlayerState]: [participant_id] is a [char[64]]. *)
Module PS.
Record t := mk {
  participant_id : list ascii;
  tile_index : Z;
  elevation : Z;
  rotation : Z;
  current_hp : Z;
  max_hp : Z;
  current_ap : Z;
  max_ap : Z;
  is_dead : bool }.
End PS.
Definition PlayerState := PS.t.

(** [PlayerAction]: [type] is a [char[32]], [target_id] a [char[64]],
    [weapon_mode] and [aimed_location] are [char[16]], [item_id] a
    [char[32]]. *)
Module PA.
Record t := mk {
  type : list ascii;
  target_tile : Z;
  target_id : list ascii;
  weapon_mode : list ascii;
  aimed_location : list ascii;
  item_id : list ascii }.
End PA.
Definition PlayerAction := PA.t.

(** A zero-initialised [char] array of [n] characters. *)
Definition zeros (n : nat) : list ascii := replicate n NUL.

(** ** The static variables of multiplayer.c *)

Definition HANDLE := Z.
Definition INVALID_HANDLE_VALUE : HANDLE := -1.
Definition MSG_BUFFER_SIZE : Z := 4096.

(** A registered callback is identified by a number; [None] is the null
    function pointer. *)
Definition callback := nat.

Record mp_state := mk_state {
  mp_active : bool;
  mp_session : MultiplayerSession;
  pipe_handle : HANDLE;
  current_turn_player : list ascii;
  is_my_turn : bool;
  on_turn_start : option callback;
  on_remote_action : option callback;
  on_player_state : option callback;
  msg_buffer : list ascii;
  msg_buffer_pos : Z }.

(** The state a fresh process starts in: the initialisers of lines 9-23,
    static storage being zero-filled. *)
Definition initial_state : mp_state :=
  {| mp_active := false;
     mp_session := Sess.mk (zeros 64) (zeros 64) (zeros 256) false;
     pipe_handle := INVALID_HANDLE_VALUE;
     current_turn_player := zeros 64;
     is_my_turn := false;
     on_turn_start := None;
     on_remote_action := None;
     on_player_state := None;
     msg_buffer := zeros (Z.to_nat MSG_BUFFER_SIZE);
     msg_buffer_pos := 0 |}.

(** What the module does to the outside world, in program order;
    [EProcessMessage json] marks a call of [process_message] by the
    receive loop, so that the frames it extracts can be read off a run. *)
Inductive event :=
  | EDebug (msg : list ascii)
  | EWaitNamedPipe (name : list ascii) (timeout : Z)
  | ECreateFile (name : list ascii)
  | ESetPipeMode (h : HANDLE)
  | ECloseHandle (h : HANDLE)
  | EWriteFile (h : HANDLE) (bytes : list ascii)
  | EPeek (h : HANDLE)
  | EReadFile (h : HANDLE) (max : Z)
  | EProcessMessage (json : list ascii)
  | ECallTurnStart (cb : callback) (player_id : list ascii) (time_limit : Z)
  | ECallRemoteAction (cb : callback) (action : PlayerAction)
  | ECallPlayerState (cb : callback) (state : PlayerState).

(** Field updates of the state record. *)
Definition set_active (b : bool) (s : mp_state) : mp_state :=
  mk_state b (mp_session s) (pipe_handle s) (current_turn_player s)
    (is_my_turn s) (on_turn_start s) (on_remote_action s) (on_player_state s)
    (msg_buffer s) (msg_buffer_pos s).
Definition set_session (x : MultiplayerSession) (s : mp_state) : mp_state :=
  mk_state (mp_active s) x (pipe_handle s) (current_turn_player s)
    (is_my_turn s) (on_turn_start s) (on_remote_action s) (on_player_state s)
    (msg_buffer s) (msg_buffer_pos s).
Definition set_handle (h : HANDLE) (s : mp_state) : mp_state :=
  mk_state (mp_active s) (mp_session s) h (current_turn_player s)
    (is_my_turn s) (on_turn_start s) (on_remote_action s) (on_player_state s)
    (msg_buffer s) (msg_buffer_pos s).
Definition set_turn (p : list ascii) (mine : bool) (s : mp_state) : mp_state :=
  mk_state (mp_active s) (mp_session s) (pipe_handle s) p mine
    (on_turn_start s) (on_remote_action s) (on_player_state s)
    (msg_buffer s) (msg_buffer_pos s).
Definition set_buffer (b : list ascii) (pos : Z) (s : mp_state) : mp_state :=
  mk_state (mp_active s) (mp_session s) (pipe_handle s) (current_turn_player s)
    (is_my_turn s) (on_turn_start s) (on_remote_action s) (on_player_state s)
    b pos.

(** ** The JSON helpers (lines 258-295) *)

(** [json_get_string json key out out_size]: [None] is the null pointer
    (then [out] is not touched), [Some out'] the array [out] after the copy
    and the terminator.  [out_size] is at least 1 at every call site
    ([sizeof] of the destination). *)
Definition json_get_string (json key out : list ascii) (out_size : Z)
  : option (list ascii) :=
  let search := fst (snprintf 64 (lit "'" ++ key ++ lit "':'")) in
  match strstr json search with
  | None => None
  | Some start =>
      let start := drop (Z.to_nat (strlen search)) start in
      match strchr start quote with
      | None => None
      | Some end_ =>
          let len := strlen start - strlen end_ in
          let len := if len >=? out_size then out_size - 1 else len in
          let out := strncpy out start (Z.to_nat len) in
          Some (<[Z.to_nat len := NUL]> out)
      end
  end.

Definition json_get_int (json key : list ascii) (default_val : Z) : Z :=
  let search := fst (snprintf 64 (lit "'" ++ key ++ lit "':")) in
  match strstr json search with
  | None => default_val
  | Some start =>
      let start := drop (Z.to_nat (strlen search)) start in
      atoi start
  end.

(** The loop [while ( *start == ' ') start++]. *)
Fixpoint skip_blanks (s : list ascii) : list ascii :=
  match s with
  | c :: s' => if Ascii.eqb c space then skip_blanks s' else s
  | [] => []
  end.

Definition json_get_bool (json key : list ascii) (default_val : bool) : bool :=
  let search := fst (snprintf 64 (lit "'" ++ key ++ lit "':")) in
  match strstr json search with
  | None => default_val
  | Some start =>
      let start := drop (Z.to_nat (strlen search)) start in
      let start := skip_blanks start in
      strncmp start (lit "true") 4 =? 0
  end.

(** A call of [json_get_string] whose result is ignored: the destination
    array afterwards. *)
Definition get_string_into (json key out : list ascii) (out_size : Z)
  : list ascii :=
  match json_get_string json key out out_size with
  | Some out' => out'
  | None => out
  end.

(** ** Decoding and dispatch (lines 297-340) *)

(** The local [type] array after line 299. *)
Definition message_type (json : list ascii) : list ascii :=
  get_string_into json (lit "type") (zeros 32) 32.

(** The [PlayerAction] built by the remote-action branch. *)
Definition decode_remote_action (json : list ascii) : PlayerAction :=
  {| PA.type := get_string_into json (lit "action") (zeros 32) 32;
     PA.target_tile := json_get_int json (lit "targetTile") 0;
     PA.target_id := get_string_into json (lit "targetId") (zeros 64) 64;
     PA.weapon_mode := get_string_into json (lit "weaponMode") (zeros 16) 16;
     PA.aimed_location :=
       get_string_into json (lit "aimedLocation") (zeros 16) 16;
     PA.item_id := get_string_into json (lit "itemId") (zeros 32) 32 |}.

(** The [PlayerState] built by the player-state branch. *)
Definition decode_player_state (json : list ascii) : PlayerState :=
  {| PS.participant_id :=
       get_string_into json (lit "participantId") (zeros 64) 64;
     PS.tile_index := json_get_int json (lit "tileIndex") 0;
     PS.elevation := json_get_int json (lit "elevation") 0;
     PS.rotation := json_get_int json (lit "rotation") 0;
     PS.current_hp := json_get_int json (lit "currentHp") 0;
     PS.max_hp := json_get_int json (lit "maxHp") 0;
     PS.current_ap := json_get_int json (lit "currentAp") 0;
     PS.max_ap := json_get_int json (lit "maxAp") 0;
     PS.is_dead := json_get_bool json (lit "isDead") false |}.

(** A call through a callback slot: nothing when the slot is null.  The
    callback itself is outside the module; the model records the call and
    assumes the callback does not re-enter the module. *)
Definition call_slot (slot : option callback) (ev : callback -> event)
  : list event :=
  match slot with
  | Some cb => [ev cb]
  | None => []
  end.

(** [process_message].  [stack] is what the uninitialised local array
    [player_id] (64 characters) happens to hold on entry. *)
Definition process_message (stack : list ascii) (s : mp_state)
  (json : list ascii) : mp_state * list event :=
  let type := message_type json in
  if strcmp (cstr type) (lit "turn-start") =? 0 then
    let player_id := get_string_into json (lit "participantId") stack 64 in
    let time_limit := json_get_int json (lit "timeLimit") 30 in
    let s' :=
      set_turn (strncpy (current_turn_player s) (cstr player_id) 63)
        (strcmp (cstr player_id) (cstr (Sess.participant_id (mp_session s)))
           =? 0) s in
    (s', call_slot (on_turn_start s)
           (fun cb => ECallTurnStart cb (cstr player_id) time_limit))
  else if strcmp (cstr type) (lit "remote-action") =? 0 then
    (s, call_slot (on_remote_action s)
          (fun cb => ECallRemoteAction cb (decode_remote_action json)))
  else if strcmp (cstr type) (lit "player-state") =? 0 then
    (s, call_slot (on_player_state s)
          (fun cb => ECallPlayerState cb (decode_player_state json)))
  else (s, []).

(** ** The pipe (lines 181-256) *)

(** [connect_to_pipe]: the platform says whether the wait succeeded and
    which handle the open returned. *)
Definition connect_to_pipe (wait_ok : bool) (opened : HANDLE) (s : mp_state)
  (pipe_name : list ascii) : bool * mp_state * list event :=
  if negb wait_ok then (false, s, [EWaitNamedPipe pipe_name 5000])
  else
    let s' := set_handle opened s in
    let evs := [EWaitNamedPipe pipe_name 5000; ECreateFile pipe_name] in
    if pipe_handle s' =? INVALID_HANDLE_VALUE then (false, s', evs)
    else (true, s', evs ++ [ESetPipeMode (pipe_handle s')]).

Definition disconnect_pipe (s : mp_state) : mp_state * list event :=
  if negb (pipe_handle s =? INVALID_HANDLE_VALUE) then
    (set_handle INVALID_HANDLE_VALUE s, [ECloseHandle (pipe_handle s)])
  else (s, []).

(** What [WriteFile] answers: its result and the count it stored in
    [written]. *)
Record write_result := mk_write { write_ok : bool; written : Z }.

(** [send_message].  The bytes handed to [WriteFile] are the first [len]
    characters of [buffer]; [len] is within the string for every caller
    (their texts are at most 511 characters). *)
Definition send_message (w : write_result) (s : mp_state) (json : list ascii)
  : bool * list event :=
  if pipe_handle s =? INVALID_HANDLE_VALUE then (false, [])
  else
    let (buffer, len) :=
      snprintf (Z.to_nat MSG_BUFFER_SIZE) (json ++ [newline]) in
    (write_ok w && (written w =? len),
     [EWriteFile (pipe_handle s) (take (Z.to_nat len) (buffer ++ [NUL]))]).

(** One round of the loop of lines 243-253 on the character [c]. *)
Definition receive_char (stack : list ascii) (acc : mp_state * list event)
  (c : ascii) : mp_state * list event :=
  let (s, evs) := acc in
  if Ascii.eqb c newline then
    let s1 :=
      set_buffer (<[Z.to_nat (msg_buffer_pos s) := NUL]> (msg_buffer s))
        (msg_buffer_pos s) s in
    let (s2, evs') :=
      if msg_buffer_pos s1 >? 0
      then
        let (s2, evs') := process_message stack s1 (cstr (msg_buffer s1)) in
        (s2, EProcessMessage (cstr (msg_buffer s1)) :: evs')
      else (s1, []) in
    (set_buffer (msg_buffer s2) 0 s2, evs ++ evs')
  else if msg_buffer_pos s <? MSG_BUFFER_SIZE - 1 then
    (set_buffer (<[Z.to_nat (msg_buffer_pos s) := c]> (msg_buffer s))
       (msg_buffer_pos s + 1) s, evs)
  else (s, evs).

(** The whole loop on the characters [ReadFile] delivered. *)
Definition receive_bytes (stack : list ascii) (s : mp_state)
  (bytes : list ascii) : mp_state * list event :=
  fold_left (receive_char stack) bytes (s, []).

(** What the platform answers to [PeekNamedPipe] and [ReadFile]: the peek
    result and the available count, the read result and the characters
    read (the call asks for at most 1023, [sizeof temp - 1]). *)
Record read_result := mk_read {
  peek_ok : bool; available : Z; read_ok : bool; read_bytes : list ascii }.

Definition receive_messages (stack : list ascii) (r : read_result)
  (s : mp_state) : bool * mp_state * list event :=
  if pipe_handle s =? INVALID_HANDLE_VALUE then (false, s, [])
  else if negb (peek_ok r) || (available r =? 0) then
    (false, s, [EPeek (pipe_handle s)])
  else if negb (read_ok r) then
    (false, s, [EPeek (pipe_handle s); EReadFile (pipe_handle s) 1023])
  else
    let (s', evs) := receive_bytes stack s (take 1023 (read_bytes r)) in
    (true, s', [EPeek (pipe_handle s); EReadFile (pipe_handle s) 1023] ++ evs).

(** ** The public interface (lines 32-177) *)

(** The four locals the argument loop of [mp_init] fills. *)
Record init_args := mk_args {
  has_multiplayer_flag : bool;
  arg_pipe_name : option (list ascii);
  arg_session_id : option (list ascii);
  arg_participant_id : option (list ascii) }.

(** The loop of lines 39-49 on [argv[i..]]: an option that needs a value
    and is the last argument matches no branch. *)
Fixpoint parse_args (argv : list (list ascii)) (a : init_args) : init_args :=
  match argv with
  | [] => a
  | x :: rest =>
      if strcmp x (lit "-multiplayer") =? 0 then
        parse_args rest
          (mk_args true (arg_pipe_name a) (arg_session_id a)
             (arg_participant_id a))
      else
        match rest with
        | v :: rest' =>
            if strcmp x (lit "-pipe") =? 0 then
              parse_args rest'
                (mk_args (has_multiplayer_flag a) (Some v) (arg_session_id a)
                   (arg_participant_id a))
            else if strcmp x (lit "-session") =? 0 then
              parse_args rest'
                (mk_args (has_multiplayer_flag a) (arg_pipe_name a) (Some v)
                   (arg_participant_id a))
            else if strcmp x (lit "-player") =? 0 then
              parse_args rest'
                (mk_args (has_multiplayer_flag a) (arg_pipe_name a)
                   (arg_session_id a) (Some v))
            else parse_args rest a
        | [] => a
        end
  end.

(** The format of the ready message with its [%s] argument. *)
Definition ready_format (pid : list ascii) : list ascii :=
  lit "{'type':'ready','participantId':'" ++ pid ++ lit "'}".

Definition ready_message (s : mp_state) : list ascii :=
  fst (snprintf 256
         (ready_format (cstr (Sess.participant_id (mp_session s))))).

Definition mp_init (argv : list (list ascii)) (wait_ok : bool)
  (opened : HANDLE) (w : write_result) (s : mp_state)
  : bool * mp_state * list event :=
  let a := parse_args (tail argv) (mk_args false None None None) in
  if negb (has_multiplayer_flag a) then
    (false, s,
     [EDebug (lit "Multiplayer: Not running in multiplayer mode" ++ [newline])])
  else
    match arg_pipe_name a, arg_session_id a, arg_participant_id a with
    | Some pipe_name, Some session_id, Some participant_id =>
        let ses := mp_session s in
        let s1 :=
          set_session
            (Sess.mk (strncpy (Sess.session_id ses) session_id 63)
               (strncpy (Sess.participant_id ses) participant_id 63)
               (strncpy (Sess.pipe_name ses) pipe_name 255)
               (Sess.is_host ses)) s in
        let '(ok, s2, evs) := connect_to_pipe wait_ok opened s1 pipe_name in
        if negb ok then
          (false, s2,
           evs ++ [EDebug (lit "Multiplayer: Failed to connect to launcher"
                           ++ [newline])])
        else
          let s3 := set_active true s2 in
          let (_, evs') := send_message w s3 (ready_message s3) in
          (true, s3,
           evs ++ evs'
           ++ [EDebug (lit "Multiplayer: Initialized successfully"
                       ++ [newline])])
    | _, _, _ =>
        (false, s,
         [EDebug (lit "Multiplayer: Missing required arguments" ++ [newline])])
    end.

Definition mp_exit (s : mp_state) : mp_state * list event :=
  if mp_active s then
    let (s', evs) := disconnect_pipe s in
    (set_active false s', evs)
  else (s, []).

Definition mp_is_active (s : mp_state) : bool := mp_active s.

Definition mp_is_my_turn (s : mp_state) : bool := mp_active s && is_my_turn s.

Definition mp_get_session (s : mp_state) : option MultiplayerSession :=
  if mp_active s then Some (mp_session s) else None.

(** The format of [mp_send_state] with the texts of its one [%s], seven
    [%d] and final [%s] arguments. *)
Definition state_format (pid tile elev rot chp mhp cap mxap dead : list ascii)
  : list ascii :=
  lit "{'type':'state-update',"
  ++ lit "'participantId':'" ++ pid ++ lit "',"
  ++ lit "'tileIndex':" ++ tile ++ lit ","
  ++ lit "'elevation':" ++ elev ++ lit ","
  ++ lit "'rotation':" ++ rot ++ lit ","
  ++ lit "'currentHp':" ++ chp ++ lit ","
  ++ lit "'maxHp':" ++ mhp ++ lit ","
  ++ lit "'currentAp':" ++ cap ++ lit ","
  ++ lit "'maxAp':" ++ mxap ++ lit ","
  ++ lit "'isDead':" ++ dead ++ lit "}".

(** The text [mp_send_state] formats into its 512-character array. *)
Definition state_message (state : PlayerState) : list ascii :=
  fst (snprintf 512
         (state_format (cstr (PS.participant_id state))
            (fmt_d (PS.tile_index state)) (fmt_d (PS.elevation state))
            (fmt_d (PS.rotation state)) (fmt_d (PS.current_hp state))
            (fmt_d (PS.max_hp state)) (fmt_d (PS.current_ap state))
            (fmt_d (PS.max_ap state))
            (if PS.is_dead state then lit "true" else lit "false"))).

(** [mp_send_state] returns [void]: the outcome is the state and the
    events only.  [state] is [None] for a null pointer. *)
Definition mp_send_state (w : write_result) (s : mp_state)
  (state : option PlayerState) : mp_state * list event :=
  match state with
  | Some state =>
      if negb (mp_active s) then (s, [])
      else (s, snd (send_message w s (state_message state)))
  | None => (s, [])
  end.

(** The formats of [mp_send_action] with the texts of their arguments. *)
Definition move_format (tile : list ascii) : list ascii :=
  lit "{'type':'action','action':'move','targetTile':" ++ tile ++ lit "}".

Definition attack_format (target mode aimed : list ascii) : list ascii :=
  lit "{'type':'action','action':'attack',"
  ++ lit "'targetId':'" ++ target ++ lit "','weaponMode':'" ++ mode
  ++ lit "','aimedLocation':'" ++ aimed ++ lit "'}".

Definition use_item_format (item target : list ascii) : list ascii :=
  lit "{'type':'action','action':'use-item',"
  ++ lit "'itemId':'" ++ item ++ lit "','targetId':'" ++ target ++ lit "'}".

Definition end_turn_format : list ascii :=
  lit "{'type':'action','action':'end-turn'}".

(** The text [mp_send_action] leaves in its 512-character array; [stack]
    is the string the uninitialised array holds when no branch writes
    it. *)
Definition action_message (stack : list ascii) (action : PlayerAction)
  : list ascii :=
  let type := cstr (PA.type action) in
  if strcmp type (lit "move") =? 0 then
    fst (snprintf 512 (move_format (fmt_d (PA.target_tile action))))
  else if strcmp type (lit "attack") =? 0 then
    fst (snprintf 512
           (attack_format (cstr (PA.target_id action))
              (cstr (PA.weapon_mode action))
              (cstr (PA.aimed_location action))))
  else if strcmp type (lit "use-item") =? 0 then
    fst (snprintf 512
           (use_item_format (cstr (PA.item_id action))
              (cstr (PA.target_id action))))
  else if strcmp type (lit "end-turn") =? 0 then
    fst (snprintf 512 end_turn_format)
  else stack.

(** [mp_send_action] returns [void] as well. *)
Definition mp_send_action (stack : list ascii) (w : write_result)
  (s : mp_state) (action : option PlayerAction) : mp_state * list event :=
  match action with
  | Some action =>
      if negb (mp_active s) then (s, [])
      else (s, snd (send_message w s (action_message stack action)))
  | None => (s, [])
  end.

Definition mp_poll_message (stack : list ascii) (r : read_result)
  (s : mp_state) : bool * mp_state * list event :=
  if negb (mp_active s) then (false, s, [])
  else receive_messages stack r s.

(** [None] is the null pointer. *)
Definition mp_get_current_turn_player (s : mp_state) : option (list ascii) :=
  match current_turn_player s with
  | c :: _ =>
      if Ascii.eqb c NUL then None else Some (cstr (current_turn_player s))
  | [] => None
  end.

Definition mp_set_turn_start_callback (cb : option callback) (s : mp_state)
  : mp_state :=
  mk_state (mp_active s) (mp_session s) (pipe_handle s) (current_turn_player s)
    (is_my_turn s) cb (on_remote_action s) (on_player_state s)
    (msg_buffer s) (msg_buffer_pos s).


Definition mp_set_player_state_callback (cb : option callback) (s : mp_state)
  : mp_state :=
  mk_state (mp_active s) (mp_session s) (pipe_handle s) (current_turn_player s)
    (is_my_turn s) (on_turn_start s) (on_remote_action s) cb
    (msg_buffer s) (msg_buffer_pos s).

(** ** The mask helper of plib/gnw/svga.c (lines 240-272) *)

(** The value an [int] variable holds after it is assigned the unsigned
    32-bit value [x] (two's complement, as on the compilers the file is
    built with). *)
Definition to_int (x : Z) : Z := (x + 2 ^ 31) mod 2 ^ 32 - 2 ^ 31.

(** [ffs]: the comparisons and the masking are done on the 32-bit pattern
    of [bits]; every mask is an unsigned constant, so [Z.land] on the
    signed value gives the unsigned result. *)
Definition ffs (bits : Z) : Z :=
  let shift := 0 in
  let '(shift, bits) :=
    if negb (Z.land bits 0xFFFF0000 =? 0)
    then (Z.lor shift 16, to_int (Z.land bits 0xFFFF0000))
    else (shift, bits) in
  let '(shift, bits) :=
    if negb (Z.land bits 0xFF00FF00 =? 0)
    then (Z.lor shift 8, to_int (Z.land bits 0xFF00FF00))
    else (shift, bits) in
  let '(shift, bits) :=
    if negb (Z.land bits 0xF0F0F0F0 =? 0)
    then (Z.lor shift 4, to_int (Z.land bits 0xF0F0F0F0))
    else (shift, bits) in
  let '(shift, bits) :=
    if negb (Z.land bits 0xCCCCCCCC =? 0)
    then (Z.lor shift 2, to_int (Z.land bits 0xCCCCCCCC))
    else (shift, bits) in
  if negb (Z.land bits 0xAAAAAAAA =? 0) then Z.lor shift 1 else shift.

(** One of the five rounds of [ffs], on the pair of [shift] and [bits]. *)
Definition ffs_round (d mask : Z) (st : Z * Z) : Z * Z :=
  let (shift, bits) := st in
  if negb (Z.land bits mask =? 0)
  then (Z.lor shift d, to_int (Z.land bits mask))
  else (shift, bits).

(** The 32-bit pattern of an [int]. *)
Definition pattern (bits : Z) : Z := bits mod 2 ^ 32.

(** The mask of level [e] holds exactly the bit positions below 32 whose
    own bit [e] is set. *)
Definition level_mask (e mask : Z) : Prop :=
  0 <= mask /\
  (forall j, 0 <= j < 32 -> Z.testbit mask j = Z.testbit j e) /\
  (forall j, 32 <= j -> Z.testbit mask j = false).

(** What the rounds of [ffs] keep, [k] being the highest set bit of the
    argument: before the round of level [e], bit [k] is still set, every
    set bit agrees with [k] above level [e], and [shift] holds the levels
    of [k] above [e]. *)
Definition ffs_inv (k e : Z) (st : Z * Z) : Prop :=
  let (shift, bits) := st in
  Z.testbit bits k = true /\
  (forall j, 0 <= j < 32 -> Z.testbit bits j = true ->
             j <= k /\ j / 2 ^ e = k / 2 ^ e) /\
  shift = k / 2 ^ e * 2 ^ e.

(** ** The palette of plib/gnw/svga.c (lines 448-638) *)

Module Svga.

(** [RGBQUAD] and [PALETTEENTRY] of the platform headers; every field is a
    byte. *)
Record RGBQUAD := mk_rgb {
  rgbBlue : Z; rgbGreen : Z; rgbRed : Z; rgbReserved : Z }.

Record PALETTEENTRY := mk_pe {
  peRed : Z; peGreen : Z; peBlue : Z; peFlags : Z }.

Definition PC_NOCOLLAPSE : Z := 4.

(** The static variables the palette functions use.  [GNW95_WindowBMI] is
    the colour table [bmiColors] of the allocated [BITMAPINFO], [None] for
    the null pointer; [GNW95_DDPrimaryPalette] is the palette object,
    [None] for the null pointer; [cmap] is the static array of
    [GNW95_GetPalette]. *)
Record state := mk_state {
  GNW95_WindowBMI : option (list RGBQUAD);
  GNW95_DDPrimaryPalette : option Z;
  GNW95_Pal16 : list Z;
  w95rmask : Z; w95gmask : Z; w95bmask : Z;
  w95rshift : Z; w95gshift : Z; w95bshift : Z;
  update_palette_func : option nat;
  cmap : list Z }.

(** Calls that leave the module. *)
Inductive event :=
  | ESetEntries (pal : Z) (start count : Z) (entries : list PALETTEENTRY)
  | EGetEntries (pal : Z)
  | EWinRefreshAll
  | EUpdatePalette (f : nat).

Definition set_bmi (c : option (list RGBQUAD)) (s : state) : state :=
  mk_state c (GNW95_DDPrimaryPalette s) (GNW95_Pal16 s) (w95rmask s)
    (w95gmask s) (w95bmask s) (w95rshift s) (w95gshift s) (w95bshift s)
    (update_palette_func s) (cmap s).

Definition set_pal16 (l : list Z) (s : state) : state :=
  mk_state (GNW95_WindowBMI s) (GNW95_DDPrimaryPalette s) l (w95rmask s)
    (w95gmask s) (w95bmask s) (w95rshift s) (w95gshift s) (w95bshift s)
    (update_palette_func s) (cmap s).

Definition set_cmap (l : list Z) (s : state) : state :=
  mk_state (GNW95_WindowBMI s) (GNW95_DDPrimaryPalette s) (GNW95_Pal16 s)
    (w95rmask s) (w95gmask s) (w95bmask s) (w95rshift s) (w95gshift s)
    (w95bshift s) (update_palette_func s) l.

(** Conversions on assignment to [unsigned char] and [unsigned short]. *)
Definition u8 (x : Z) : Z := x mod 256.
Definition u16 (x : Z) : Z := x mod 65536.

(** [a[i]] read from the caller's array; an index outside it is not
    modelled (0 is read). *)
Definition rd (a : list Z) (i : Z) : Z := nth (Z.to_nat i) a 0.

(** [a[i] = x] for [i] inside the array (outside it the C code writes out
    of bounds, which the model leaves out). *)
Definition wr {A} (a : list A) (i : Z) (f : A -> A) : list A :=
  if (0 <=? i) && (i <? Z.of_nat (length a)) then alter f (Z.to_nat i) a
  else a.

Definition set_rgb (r g b : Z) (q : RGBQUAD) : RGBQUAD :=
  mk_rgb b g r (rgbReserved q).

(** [x > 0 ? (v << x) : (v >> -x)]. *)
Definition shift_by (v x : Z) : Z :=
  if x >? 0 then Z.shiftl v x else Z.shiftr v (- x).

(** The call of [update_palette_func] that ends the three setters. *)
Definition notify (s : state) : list event :=
  match update_palette_func s with
  | Some f => [EUpdatePalette f]
  | None => []
  end.

(** The counter values of [for (index = 0; index < count; index++)]. *)
Definition upto (count : Z) : list Z :=
  map Z.of_nat (seq 0 (Z.to_nat count)).

Definition GNW95_SetPaletteEntry (entry r g b : Z) (s : state)
  : state * list event :=
  let r := u8 (Z.shiftl r 2) in
  let g := u8 (Z.shiftl g 2) in
  let b := u8 (Z.shiftl b 2) in
  let (s', evs) :=
    match GNW95_WindowBMI s with
    | Some colors => (set_bmi (Some (wr colors entry (set_rgb r g b))) s, [])
    | None =>
        match GNW95_DDPrimaryPalette s with
        | Some pal =>
            (s, [ESetEntries pal entry 1 [mk_pe r g b PC_NOCOLLAPSE]])
        | None =>
            let v :=
              Z.lor
                (Z.lor (Z.land (shift_by r (w95rshift s)) (w95rmask s))
                   (Z.land
                      (if w95gshift s >? 0 then Z.shiftl g (w95gshift s)
                       else Z.shiftr r (- w95gshift s))
                      (w95gmask s)))
                (Z.land
                   (if w95bshift s >? 0 then Z.shiftl b (w95bshift s)
                    else Z.shiftr r (- w95bshift s))
                   (w95bmask s)) in
            (set_pal16 (wr (GNW95_Pal16 s) entry (fun _ => u16 v)) s,
             [EWinRefreshAll])
        end
    end in
  (s', evs ++ notify s').

(** The 16-bit value of one palette triple (the last branch of
    [GNW95_SetPaletteEntries] and of [GNW95_SetPalette]). *)
Definition pack16 (s : state) (pr pg pb : Z) : Z :=
  let r := u16 (Z.shiftl pr 2) in
  let g := u16 (Z.shiftl pg 2) in
  let b := u16 (Z.shiftl pb 2) in
  let r := u16 (Z.land (u16 (shift_by r (w95rshift s))) (w95rmask s)) in
  let g := u16 (Z.land (u16 (shift_by g (w95gshift s))) (w95gmask s)) in
  let b := u16 (Z.land (u16 (shift_by b (w95bshift s))) (w95bmask s)) in
  u16 (Z.lor (Z.lor r g) b).

Definition GNW95_SetPaletteEntries (palette : list Z) (start count : Z)
  (s : state) : state * list event :=
  let (s', evs) :=
    match GNW95_WindowBMI s with
    | Some colors =>
        (set_bmi
           (Some
              (fold_left
                 (fun colors index =>
                    wr colors (start + index)
                      (set_rgb (u8 (Z.shiftl (rd palette (index * 3)) 2))
                         (u8 (Z.shiftl (rd palette (index * 3 + 1)) 2))
                         (u8 (Z.shiftl (rd palette (index * 3 + 2)) 2))))
                 (upto count) colors)) s, [])
    | None =>
        match GNW95_DDPrimaryPalette s with
        | Some pal =>
            (s, [ESetEntries pal start count
                   (map (fun index =>
                           mk_pe (u8 (Z.shiftl (rd palette (index * 3)) 2))
                             (u8 (Z.shiftl (rd palette (index * 3 + 1)) 2))
                             (u8 (Z.shiftl (rd palette (index * 3 + 2)) 2))
                             PC_NOCOLLAPSE)
                      (upto count))])
        | None =>
            (set_pal16
               (fold_left
                  (fun pal16 k =>
                     wr pal16 (start + k)
                       (fun _ => pack16 s (rd palette (k * 3))
                                   (rd palette (k * 3 + 1))
                                   (rd palette (k * 3 + 2))))
                  (upto count) (GNW95_Pal16 s)) s,
             [EWinRefreshAll])
        end
    end in
  (s', evs ++ notify s').

Definition GNW95_SetPalette (palette : list Z) (s : state)
  : state * list event :=
  let (s', evs) :=
    match GNW95_WindowBMI s with
    | Some colors =>
        (set_bmi
           (Some
              (fold_left
                 (fun colors index =>
                    wr colors index
                      (set_rgb (u8 (Z.shiftl (rd palette (index * 3)) 2))
                         (u8 (Z.shiftl (rd palette (index * 3 + 1)) 2))
                         (u8 (Z.shiftl (rd palette (index * 3 + 2)) 2))))
                 (upto 256) colors)) s, [])
    | None =>
        match GNW95_DDPrimaryPalette s with
        | Some pal =>
            (s, [ESetEntries pal 0 256
                   (map (fun index =>
                           mk_pe (u8 (Z.shiftl (rd palette (index * 3)) 2))
                             (u8 (Z.shiftl (rd palette (index * 3 + 1)) 2))
                             (u8 (Z.shiftl (rd palette (index * 3 + 2)) 2))
                             PC_NOCOLLAPSE)
                      (upto 256))])
        | None =>
            (set_pal16
               (fold_left
                  (fun pal16 index =>
                     wr pal16 index
                       (fun _ => pack16 s (rd palette (index * 3))
                                   (rd palette (index * 3 + 1))
                                   (rd palette (index * 3 + 2))))
                  (upto 256) (GNW95_Pal16 s)) s,
             [EWinRefreshAll])
        end
    end in
  (s', evs ++ notify s').

(** One round of a loop of [GNW95_GetPalette]: the three components of
    entry [index] go to [cmap]. *)
Definition store3 (cmap : list Z) (index r g b : Z) : list Z :=
  wr (wr (wr cmap (index * 3) (fun _ => u8 r)) (index * 3 + 1)
        (fun _ => u8 g)) (index * 3 + 2) (fun _ => u8 b).

(** [shift > 0 ? ((rgb & mask) >> shift) : ((rgb & mask) << -shift)],
    assigned to an [unsigned short]. *)
Definition part16 (rgb mask shift : Z) : Z :=
  u16 (if shift >? 0 then Z.shiftr (Z.land rgb mask) shift
       else Z.shiftl (Z.land rgb mask) (- shift)).

(** [GNW95_GetPalette]: [got] is what [IDirectDrawPalette_GetEntries]
    delivers, [None] for a failure.  The result is [cmap], [None] for the
    null pointer. *)
Definition GNW95_GetPalette (got : option (list PALETTEENTRY)) (s : state)
  : option (list Z) * state * list event :=
  match GNW95_WindowBMI s with
  | Some colors =>
      let cmap' :=
        fold_left
          (fun cmap index =>
             let q := nth (Z.to_nat index) colors (mk_rgb 0 0 0 0) in
             store3 cmap index (Z.shiftr (rgbRed q) 2)
               (Z.shiftr (rgbGreen q) 2) (Z.shiftr (rgbBlue q) 2))
          (upto 256) (cmap s) in
      (Some cmap', set_cmap cmap' s, [])
  | None =>
      match GNW95_DDPrimaryPalette s with
      | Some pal =>
          match got with
          | None => (None, s, [EGetEntries pal])
          | Some entries =>
              let cmap' :=
                fold_left
                  (fun cmap index =>
                     let e := nth (Z.to_nat index) entries (mk_pe 0 0 0 0) in
                     store3 cmap index (Z.shiftr (peRed e) 2)
                       (Z.shiftr (peGreen e) 2) (Z.shiftr (peBlue e) 2))
                  (upto 256) (cmap s) in
              (Some cmap', set_cmap cmap' s, [EGetEntries pal])
          end
      | None =>
          let redShift := w95rshift s + 2 in
          let greenShift := w95gshift s + 2 in
          let blueShift := w95bshift s + 2 in
          let cmap' :=
            fold_left
              (fun cmap index =>
                 let rgb := rd (GNW95_Pal16 s) index in
                 let r := part16 rgb (w95rmask s) redShift in
                 let g := part16 rgb (w95gmask s) greenShift in
                 let b := part16 rgb (w95bmask s) blueShift in
                 store3 cmap index (Z.land (Z.shiftr r 2) 255)
                   (Z.land (Z.shiftr g 2) 255) (Z.land (Z.shiftr b 2) 255))
              (upto 256) (cmap s) in
          (Some cmap', set_cmap cmap' s, [])
      end
  end.

(** The end of [GNW95_init_DirectDraw] in 16-bit mode (lines 391-397):
    the masks of the pixel format are stored, each shift is [ffs] of its
    mask (converted to [int]) less 7. *)
Definition set_pixel_format (rmask gmask bmask : Z) (s : state) : state :=
  mk_state (GNW95_WindowBMI s) (GNW95_DDPrimaryPalette s) (GNW95_Pal16 s)
    rmask gmask bmask (ffs (to_int rmask) - 7) (ffs (to_int gmask) - 7)
    (ffs (to_int bmask) - 7) (update_palette_func s) (cmap s).

(** The component of index [z] of a palette whose entry [k] is
    ([R k], [G k], [B k]). *)
Definition component (R G B : Z -> Z) (z : Z) : Z :=
  if z mod 3 =? 0 then R (z / 3)
  else if z mod 3 =? 1 then G (z / 3) else B (z / 3).

(** What [GNW95_GetPalette] makes of one 16-bit value. *)
Definition unpack16 (s : state) (rgb : Z) : Z * Z * Z :=
  (Z.land (Z.shiftr (part16 rgb (w95rmask s) (w95rshift s + 2)) 2) 255,
   Z.land (Z.shiftr (part16 rgb (w95gmask s) (w95gshift s + 2)) 2) 255,
   Z.land (Z.shiftr (part16 rgb (w95bmask s) (w95bshift s + 2)) 2) 255).

(** A state without window, palette object and hook. *)
Definition bare : state := mk_state None None [] 0 0 0 0 0 0 None [].

(** Every triple of 6-bit components is read back divided by four after
    packing with the masks [rmask], [gmask] and [bmask]. *)
Definition quarters (rmask gmask bmask : Z) : bool :=
  let s := set_pixel_format rmask gmask bmask bare in
  forallb (fun r =>
    forallb (fun g =>
      forallb (fun b =>
        match unpack16 s (pack16 s r g b) with
        | (r', g', b') =>
            (r' =? r / 4) && (g' =? g / 4) && (b' =? b / 4)
        end) (upto 64)) (upto 64)) (upto 64).

(** Running examples: the colour table as the window setup leaves it
    (lines 326-331: entry [index] is the grey [index], reserved byte 0),
    a windowed state, a 16-bit state before the masks are known, and a
    palette of 6-bit components. *)
Definition window_colors : list RGBQUAD :=
  map (fun index => mk_rgb index index index 0) (upto 256).

Definition windowed : state :=
  mk_state (Some window_colors) None (repeat 0 256%nat) 0 0 0 0 0 0 None
    (repeat 0 768%nat).

Definition hicolor : state :=
  mk_state None None (repeat 0 256%nat) 0 0 0 0 0 0 None (repeat 0 768%nat).

Definition ramp : list Z := map (fun i => i mod 64) (upto 768).

End Svga.

(** ** Vocabulary of the properties *)

#[global] Instance ascii_eq_decision : EqDecision ascii := ascii_dec.

(** An occurrence of the text [p] in [s], and the first one: [pre] is
    what precedes it and [rest] what follows. *)
Definition occurs (p s : list ascii) : Prop :=
  exists pre rest, s = pre ++ p ++ rest.

Definition first_at (p s pre rest : list ascii) : Prop :=
  s = pre ++ p ++ rest /\
  forall pre' rest', s = pre' ++ p ++ rest' -> (length pre <= length pre')%nat.

(** The texts the helpers search for: the key between quotes, a colon
    and, for a string field, the opening quote, cut to the 63 characters
    the 64-character [search] array holds. *)
Definition string_search (key : list ascii) : list ascii :=
  take 63 (quote :: key ++ [quote; ":"%char; quote]).

Definition value_search (key : list ascii) : list ascii :=
  take 63 (quote :: key ++ [quote; ":"%char]).

(** The frame [json] carries the string field [key] with value [v]: the
    first occurrence of the search text is followed by [v] and a closing
    quote. *)
Definition has_string (json key v : list ascii) : Prop :=
  exists pre rest,
    first_at (string_search key) json pre (v ++ quote :: rest) /\ quote ∉ v.

(** The character after the first quote of a search text. *)
Fixpoint quote_then (p : list ascii) : option ascii :=
  match p with
  | [] => None
  | x :: p' => if Ascii.eqb x quote then hd_error p' else quote_then p'
  end.

(** The message types [process_message] dispatches on. *)
Definition recognised : list (list ascii) :=
  [lit "turn-start"; lit "remote-action"; lit "player-state"].

(** The action types [mp_send_action] formats. *)
Definition action_types : list (list ascii) :=
  [lit "move"; lit "attack"; lit "use-item"; lit "end-turn"].

(** The array [buf] of [n] characters holds a terminated string. *)
Definition fits (n : nat) (buf : list ascii) : Prop :=
  (length (cstr buf) < n)%nat.

(** A character [%d] can print: a digit or the minus sign. *)
Definition is_num_char (c : ascii) : Prop :=
  is_digit c = true \/ c = "-"%char.

(** The frames handed to [process_message] during a run. *)
Definition frames_of (evs : list event) : list (list ascii) :=
  omap (fun e => match e with EProcessMessage j => Some j | _ => None end) evs.

(** Several reads in a row, each delivering one chunk to the receive
    loop. *)
Fixpoint receive_chunks (stack : list ascii) (s : mp_state)
  (chunks : list (list ascii)) : mp_state * list event :=
  match chunks with
  | [] => (s, [])
  | chunk :: chunks' =>
      let (s1, evs1) := receive_bytes stack s chunk in
      let (s2, evs2) := receive_chunks stack s1 chunks' in
      (s2, evs1 ++ evs2)
  end.

(** The characters accumulated for the frame in progress. *)
Definition pending (s : mp_state) : list ascii :=
  take (Z.to_nat (msg_buffer_pos s)) (msg_buffer s).

(** The frame buffer is the 4096-character array and the write position
    leaves room for the terminator. *)
Definition buffer_ok (s : mp_state) : Prop :=
  length (msg_buffer s) = Z.to_nat MSG_BUFFER_SIZE /\
  0 <= msg_buffer_pos s <= MSG_BUFFER_SIZE - 1.

(** The turn array is the 64-character array and its last character, which
    no write reaches, is still the NUL of the initialiser. *)
Definition turn_ok (s : mp_state) : Prop :=
  length (current_turn_player s) = 64%nat /\
  current_turn_player s !! 63%nat = Some NUL.

(** A line the receive loop can hand over unchanged: within the buffer,
    free of the delimiter and of NUL. *)
Definition frame_ok (f : list ascii) : Prop :=
  (length f <= 4095)%nat /\ (newline ∉ f) /\ (NUL ∉ f).

(** The byte stream of a sequence of lines, each followed by the
    delimiter. *)
Definition wire (frames : list (list ascii)) : list ascii :=
  concat (map (fun f => f ++ [newline]) frames).

(** The lines that are not empty. *)
Definition non_empty (frames : list (list ascii)) : list (list ascii) :=
  filter (fun f => f <> []) frames.

(** The three session arrays have their declared sizes and their last
    characters, which no write reaches, are still NUL. *)
Definition session_ok (s : mp_state) : Prop :=
  let ses := mp_session s in
  (length (Sess.session_id ses) = 64%nat /\
   Sess.session_id ses !! 63%nat = Some NUL) /\
  (length (Sess.participant_id ses) = 64%nat /\
   Sess.participant_id ses !! 63%nat = Some NUL) /\
  (length (Sess.pipe_name ses) = 256%nat /\
   Sess.pipe_name ses !! 255%nat = Some NUL).


(** The bytes handed to [WriteFile] during a run. *)
Definition written_bytes (evs : list event) : list ascii :=
  concat (omap (fun e => match e with
                         | EWriteFile _ bytes => Some bytes
                         | _ => None
                         end) evs).

(** The frame [json] carries the key [key] followed by the text [rest]
    (first occurrence of the search text). *)
Definition has_value (json key rest : list ascii) : Prop :=
  exists pre, first_at (value_search key) json pre rest.




(** The keys of the player-state and of the remote-action decoders. *)
Definition player_state_keys : list (list ascii) :=
  [lit "participantId"; lit "tileIndex"; lit "elevation"; lit "rotation";
   lit "currentHp"; lit "maxHp"; lit "currentAp"; lit "maxAp"; lit "isDead"].

Definition remote_action_keys : list (list ascii) :=
  [lit "action"; lit "targetTile"; lit "targetId"; lit "weaponMode";
   lit "aimedLocation"; lit "itemId"].

(** The arguments of the launcher in their usual order. *)
Definition launcher_argv (pipe session player : list ascii)
  : list (list ascii) :=
  [lit "game"; lit "-multiplayer"; lit "-pipe"; pipe; lit "-session"; session;
   lit "-player"; player].

(** ** Running examples *)

(** What the uninitialised locals hold in the examples. *)
Definition stack0 : list ascii := zeros 64.

(** The session of the example scenario: participant p1, connected. *)
Definition active_p1 : mp_state :=
  snd (fst (mp_init [lit "game"; lit "-multiplayer"; lit "-pipe"; lit "pipe0";
                     lit "-session"; lit "s1"; lit "-player"; lit "p1"]
              true 7 (mk_write true 38) initial_state)).

(** A session whose participant id fills its array: 63 characters. *)
Definition active_a63 : mp_state :=
  snd (fst (mp_init [lit "game"; lit "-multiplayer"; lit "-pipe"; lit "pipe0";
                     lit "-session"; lit "s1"; lit "-player";
                     replicate 63 "a"%char]
              true 7 (mk_write true 99) initial_state)).

(** A state as the game would send it. *)
Definition sample_state : PlayerState :=
  PS.mk (lit "p1" ++ zeros 62) 5 0 3 20 30 7 8 false.

(** A state with an empty id and boundary integers, a state whose id
    holds a double quote, and an attack. *)
Definition boundary_state : PlayerState :=
  PS.mk (zeros 64) 0 (-1) INT_MIN INT_MAX 0 (-7) 8 true.

Definition quoted_state : PlayerState :=
  PS.mk (lit "a'b" ++ zeros 61) 5 0 3 20 30 7 8 false.

Definition sample_attack : PlayerAction :=
  PA.mk (lit "attack" ++ zeros 26) 0 (lit "p2" ++ zeros 62)
    (lit "burst" ++ zeros 11) (zeros 16) (zeros 32).

(** ** Proof tactics *)

(** Evaluates the literal parts of the two arguments of a [strstr] call. *)
Ltac strstr_norm :=
  match goal with
  | |- context [strstr ?f ?p] =>
      let f' := eval simpl in f in
      let p' := eval vm_compute in p in
      change (strstr f p) with (strstr f' p')
  end.

(** Evaluates a [drop] of a literal count from a text with a literal
    front. *)
Ltac drop_norm :=
  match goal with
  | |- context [drop ?n ?l] =>
      let n' := eval vm_compute in n in
      let l' := eval cbn [drop skipn] in (drop n' l) in
      change (drop n l) with l'
  end.

(** Membership in a list that is written out. *)
Ltac in_list :=
  repeat first [apply list_elem_of_here | apply list_elem_of_further].

(** Closes a decidable goal on concrete data by evaluation. *)
Ltac by_decide :=
  match goal with
  | |- ?P => apply (bool_decide_unpack P); vm_compute; exact I
  end.

(** * Properties *)

(** ** Facts about the C library model *)

Section CLibFacts.

Implicit Types (s p v pre rest key json out : list ascii) (c : ascii).

Lemma eqb_false_ne c c' : Ascii.eqb c c' = false <-> c <> c'.
Proof. apply Ascii.eqb_neq. Qed.

Lemma strcmp_refl s : strcmp s s = 0.
Proof. induction s as [|c s IH]; simpl; [done|]. by rewrite Ascii.eqb_refl. Qed.

Lemma strcmp_zero a b : strcmp a b = 0 <-> a = b.
Proof.
  split; [|intros ->; apply strcmp_refl].
  revert b; induction a as [|x a IH]; intros [|y b]; simpl; try done.
  destruct (Ascii.eqb x y) eqn:E.
  - apply Ascii.eqb_eq in E. intros H%IH. by subst.
  - by destruct (N_of_ascii x <? N_of_ascii y)%N.
Qed.

Lemma strcmp_eqb a b : (strcmp a b =? 0) = bool_decide (a = b).
Proof.
  destruct (strcmp a b =? 0) eqn:E; symmetry.
  - apply bool_decide_eq_true, strcmp_zero. lia.
  - apply bool_decide_eq_false. intros H%strcmp_zero. lia.
Qed.

Lemma is_prefix_app p rest : is_prefix p (p ++ rest) = true.
Proof. induction p as [|c p IH]; simpl; [done|]. by rewrite Ascii.eqb_refl. Qed.

Lemma is_prefix_true p s : is_prefix p s = true <-> exists rest, s = p ++ rest.
Proof.
  split; [|intros [rest ->]; apply is_prefix_app].
  revert s; induction p as [|c p IH]; intros s; simpl.
  - by exists s.
  - destruct s as [|y s]; [done|].
    intros [E H]%andb_true_iff. apply Ascii.eqb_eq in E. subst y.
    destruct (IH _ H) as [rest ->]. by exists rest.
Qed.

Lemma strstr_Some s p suf :
  strstr s p = Some suf ->
  exists pre rest, suf = p ++ rest /\ first_at p s pre rest.
Proof.
  revert suf; induction s as [|c s IH]; intros suf; simpl.
  - destruct (is_prefix p []) eqn:E; [|done]. intros [= <-].
    apply is_prefix_true in E as [rest E]. exists [], rest.
    split; [done|]. split; [done|]. intros; simpl; lia.
  - destruct (is_prefix p (c :: s)) eqn:E.
    + intros [= <-]. apply is_prefix_true in E as [rest E].
      exists [], rest. split; [done|]. split; [done|]. intros; simpl; lia.
    + intros H. destruct (IH _ H) as (pre & rest & -> & Hs & Hfirst).
      exists (c :: pre), rest. split; [done|]. split; [by rewrite Hs|].
      intros [|c' pre'] rest' Heq; simpl in *.
      * rewrite Heq, is_prefix_app in E. done.
      * injection Heq as -> Heq. apply Hfirst in Heq. lia.
Qed.

Lemma strstr_None s p : strstr s p = None -> ~ occurs p s.
Proof.
  induction s as [|c s IH]; simpl.
  - destruct (is_prefix p []) eqn:E; [done|]. intros _ (pre & rest & Heq).
    destruct pre; simpl in Heq; [|done].
    rewrite Heq, is_prefix_app in E. done.
  - destruct (is_prefix p (c :: s)) eqn:E; [done|].
    intros H%IH (pre & rest & Heq). destruct pre as [|c' pre]; simpl in Heq.
    + rewrite Heq, is_prefix_app in E. done.
    + injection Heq as -> Heq. apply H. by exists pre, rest.
Qed.

Lemma strstr_first p s pre rest :
  first_at p s pre rest -> strstr s p = Some (p ++ rest).
Proof.
  intros [Hs Hfirst]. destruct (strstr s p) as [suf|] eqn:E.
  - apply strstr_Some in E as (pre0 & rest0 & -> & Hs0 & Hfirst0).
    pose proof (Hfirst _ _ Hs0). pose proof (Hfirst0 _ _ Hs).
    rewrite Hs0 in Hs. apply app_inj_1 in Hs as [_ Hs]; [|lia].
    by rewrite Hs.
  - apply strstr_None in E. destruct E. by exists pre, rest.
Qed.

Lemma strstr_first_at p s pre rest :
  strstr s p = Some (p ++ rest) -> s = pre ++ p ++ rest ->
  first_at p s pre rest.
Proof.
  intros E Hs. apply strstr_Some in E as (pre0 & rest0 & E & Hfirst).
  apply app_inv_head in E. subst rest0.
  destruct Hfirst as [Hs0 Hfirst]. rewrite Hs0 in Hs.
  apply app_inv_tail in Hs. subst pre0. by split.
Qed.

Lemma strstr_absent p s : ~ occurs p s -> strstr s p = None.
Proof.
  intros H. destruct (strstr s p) as [suf|] eqn:E; [|done].
  apply strstr_Some in E as (pre & rest & _ & Hs & _).
  destruct H. by exists pre, rest.
Qed.

Lemma strchr_app v c rest :
  c ∉ v -> strchr (v ++ c :: rest) c = Some (c :: rest).
Proof.
  induction v as [|x v IH]; simpl; intros Hv.
  - by rewrite Ascii.eqb_refl.
  - apply not_elem_of_cons in Hv as [Hx Hv].
    destruct (Ascii.eqb x c) eqn:E; [|by apply IH].
    apply Ascii.eqb_eq in E. congruence.
Qed.

Lemma strchr_None s c : c ∉ s -> strchr s c = None.
Proof.
  induction s as [|x s IH]; simpl; intros Hs; [done|].
  apply not_elem_of_cons in Hs as [Hx Hs].
  destruct (Ascii.eqb x c) eqn:E; [|by apply IH].
  apply Ascii.eqb_eq in E. congruence.
Qed.

Lemma strchr_Some s c e :
  strchr s c = Some e -> exists v rest, s = v ++ c :: rest /\ e = c :: rest /\ c ∉ v.
Proof.
  induction s as [|x s IH]; simpl; [done|].
  destruct (Ascii.eqb x c) eqn:E.
  - apply Ascii.eqb_eq in E. subst x. intros [= <-].
    exists [], s. split; [done|]. split; [done|]. apply not_elem_of_nil.
  - intros H. destruct (IH H) as (v & rest & -> & -> & Hv).
    exists (x :: v), rest. split; [done|]. split; [done|].
    apply not_elem_of_cons. split; [|done].
    apply Ascii.eqb_neq in E. congruence.
Qed.

Lemma cstr_app v rest : NUL ∉ v -> cstr (v ++ NUL :: rest) = v.
Proof.
  induction v as [|x v IH]; simpl; intros Hv; [done|].
  apply not_elem_of_cons in Hv as [Hx Hv].
  destruct (Ascii.eqb x NUL) eqn:E.
  - apply Ascii.eqb_eq in E. congruence.
  - by rewrite IH.
Qed.

Lemma cstr_id v : NUL ∉ v -> cstr v = v.
Proof.
  induction v as [|x v IH]; simpl; intros Hv; [done|].
  apply not_elem_of_cons in Hv as [Hx Hv].
  destruct (Ascii.eqb x NUL) eqn:E.
  - apply Ascii.eqb_eq in E. congruence.
  - by rewrite IH.
Qed.

Lemma cstr_no_NUL buf : NUL ∉ cstr buf.
Proof.
  induction buf as [|x buf IH]; simpl; [apply not_elem_of_nil|].
  destruct (Ascii.eqb x NUL) eqn:E; [apply not_elem_of_nil|].
  apply not_elem_of_cons. split; [|done].
  apply Ascii.eqb_neq in E. congruence.
Qed.

Lemma cstr_length buf : (length (cstr buf) <= length buf)%nat.
Proof.
  induction buf as [|x buf IH]; simpl; [lia|].
  destruct (Ascii.eqb x NUL); simpl; lia.
Qed.

Lemma cstr_take n buf : cstr (take n buf) = take n (cstr buf).
Proof.
  revert n; induction buf as [|x buf IH]; intros [|n]; simpl; try done.
  destruct (Ascii.eqb x NUL); simpl; [done|]. by rewrite IH.
Qed.

Lemma not_elem_of_take c n s : c ∉ s -> c ∉ take n s.
Proof.
  intros H (i & Hi & _)%elem_of_take. apply H.
  by eapply list_elem_of_lookup_2.
Qed.

Lemma not_elem_of_drop c n s : c ∉ s -> c ∉ drop n s.
Proof.
  intros H Hd. apply H. rewrite <- (take_drop n s).
  apply elem_of_app. by right.
Qed.

(** The array after [strncpy out src n; out[n] = 0] when [src] has at least
    [n] characters and [n] is inside [out]. *)
Lemma strncpy_terminate out src n :
  (n <= length src)%nat -> (n < length out)%nat ->
  <[n := NUL]> (strncpy out src n) = take n src ++ NUL :: drop (S n) out.
Proof.
  intros Hsrc Hout. unfold strncpy.
  replace (n - length src)%nat with 0%nat by lia. simpl.
  assert (Hlen : length (take n src) = n) by (rewrite length_take; lia).
  rewrite insert_app_r_alt by lia. rewrite Hlen, Nat.sub_diag.
  destruct (drop n out) as [|x l] eqn:E.
  - apply (f_equal length) in E. rewrite length_drop in E. simpl in E. lia.
  - simpl. do 2 f_equal.
    replace (S n) with (n + 1)%nat by lia. by rewrite <- drop_drop, E.
Qed.

End CLibFacts.

(** ** The lookups against their search texts *)

Section Lookups.

Implicit Types (json key out v pre rest : list ascii).

Lemma json_get_string_unfold json key out n :
  json_get_string json key out n =
  match strstr json (string_search key) with
  | None => None
  | Some start =>
      let start := drop (length (string_search key)) start in
      match strchr start quote with
      | None => None
      | Some end_ =>
          let len := strlen start - strlen end_ in
          let len := if len >=? n then n - 1 else len in
          Some (<[Z.to_nat len := NUL]> (strncpy out start (Z.to_nat len)))
      end
  end.
Proof.
  unfold json_get_string.
  change (fst (snprintf 64 (lit "'" ++ key ++ lit "':'")))
    with (string_search key).
  by replace (Z.to_nat (strlen (string_search key)))
    with (length (string_search key)) by (unfold strlen; lia).
Qed.

Lemma json_get_int_unfold json key d :
  json_get_int json key d =
  match strstr json (value_search key) with
  | None => d
  | Some start => atoi (drop (length (value_search key)) start)
  end.
Proof.
  unfold json_get_int.
  change (fst (snprintf 64 (lit "'" ++ key ++ lit "':")))
    with (value_search key).
  by replace (Z.to_nat (strlen (value_search key)))
    with (length (value_search key)) by (unfold strlen; lia).
Qed.

Lemma json_get_bool_unfold json key d :
  json_get_bool json key d =
  match strstr json (value_search key) with
  | None => d
  | Some start =>
      strncmp (skip_blanks (drop (length (value_search key)) start))
        (lit "true") 4 =? 0
  end.
Proof.
  unfold json_get_bool.
  change (fst (snprintf 64 (lit "'" ++ key ++ lit "':")))
    with (value_search key).
  by replace (Z.to_nat (strlen (value_search key)))
    with (length (value_search key)) by (unfold strlen; lia).
Qed.

(** The value found: the first [out_size - 1] characters of it are copied
    and terminated, the rest of the destination is not touched. *)
Lemma json_get_string_value json key out n pre v rest :
  first_at (string_search key) json pre (v ++ quote :: rest) ->
  quote ∉ v -> 1 <= n -> Z.of_nat (length out) = n ->
  json_get_string json key out n =
  Some (take (length v `min` Z.to_nat (n - 1)) v ++ NUL
        :: drop (S (length v `min` Z.to_nat (n - 1))) out).
Proof.
  intros Hfirst Hv Hn Hout. rewrite json_get_string_unfold.
  rewrite (strstr_first _ _ _ _ Hfirst). cbv zeta.
  rewrite drop_app_length, (strchr_app _ _ _ Hv).
  assert (Hlen : strlen (v ++ quote :: rest) - strlen (quote :: rest)
                 = Z.of_nat (length v)).
  { unfold strlen. rewrite length_app. lia. }
  rewrite Hlen.
  set (m := (length v `min` Z.to_nat (n - 1))%nat).
  assert (Hm : Z.to_nat (if Z.of_nat (length v) >=? n then n - 1
                         else Z.of_nat (length v)) = m).
  { unfold m. destruct (Z.of_nat (length v) >=? n) eqn:E; lia. }
  rewrite Hm. rewrite strncpy_terminate.
  - rewrite take_app_le by lia. done.
  - rewrite length_app. lia.
  - lia.
Qed.

Lemma json_get_string_absent json key out n :
  ~ occurs (string_search key) json -> json_get_string json key out n = None.
Proof.
  intros H. rewrite json_get_string_unfold. by rewrite (strstr_absent _ _ H).
Qed.

(** Conversely, a successful lookup found a value. *)
Lemma json_get_string_Some json key out n out' :
  json_get_string json key out n = Some out' ->
  exists v, has_string json key v.
Proof.
  rewrite json_get_string_unfold.
  destruct (strstr json (string_search key)) as [start|] eqn:E; [|done].
  apply strstr_Some in E as (pre & rest & -> & Hfirst). cbv zeta.
  rewrite drop_app_length.
  destruct (strchr rest quote) as [e|] eqn:E'; [|done].
  apply strchr_Some in E' as (v & rest' & -> & _ & Hv). intros _.
  exists v, pre, rest'. done.
Qed.

(** The value of a field is unique. *)
Lemma has_string_inj json key v v' :
  has_string json key v -> has_string json key v' -> v = v'.
Proof.
  intros (pre & rest & H & Hv) (pre' & rest' & H' & Hv').
  pose proof (strstr_first _ _ _ _ H) as E.
  rewrite (strstr_first _ _ _ _ H') in E.
  injection E as E. apply app_inv_head in E. clear H H'.
  revert v' Hv' E. induction v as [|c v IH]; intros [|c' v'] Hv' E;
    simpl in *; try done.
  - injection E as E1 _. apply not_elem_of_cons in Hv' as [? _]. congruence.
  - injection E as E1 _. apply not_elem_of_cons in Hv as [? _]. congruence.
  - injection E as E1 E. apply not_elem_of_cons in Hv as [_ Hv].
    apply not_elem_of_cons in Hv' as [_ Hv']. subst c'. f_equal. by apply IH.
Qed.

Lemma has_string_sub json key v c : has_string json key v -> c ∉ json -> c ∉ v.
Proof.
  intros (pre & rest & [-> _] & _) Hc Hv. apply Hc.
  rewrite !elem_of_app. right. right. by left.
Qed.

(** The string left in the destination by a lookup whose result is
    ignored. *)
Lemma get_string_into_value json key out n v :
  has_string json key v -> NUL ∉ v -> 1 <= n -> Z.of_nat (length out) = n ->
  cstr (get_string_into json key out n) = take (Z.to_nat (n - 1)) v.
Proof.
  intros (pre & rest & Hfirst & Hv) Hnul Hn Hout. unfold get_string_into.
  rewrite (json_get_string_value _ _ _ _ _ _ _ Hfirst Hv Hn Hout).
  rewrite cstr_app.
  - destruct (decide (length v <= Z.to_nat (n - 1))%nat).
    + rewrite Nat.min_l by lia. by rewrite !take_ge by lia.
    + rewrite Nat.min_r by lia. done.
  - by apply not_elem_of_take.
Qed.

Lemma get_string_into_missing json key n k :
  (forall v, ~ has_string json key v) ->
  get_string_into json key (zeros k) n = zeros k.
Proof.
  intros H. unfold get_string_into.
  destruct (json_get_string json key (zeros k) n) as [out'|] eqn:E; [|done].
  apply json_get_string_Some in E as [v Hv]. by destruct (H v).
Qed.

End Lookups.

(** ** Dispatch *)

Section Dispatch.

Implicit Types (json stack v : list ascii) (s : mp_state).

Lemma cstr_zeros k : cstr (zeros k) = [].
Proof. destruct k; simpl; done. Qed.

Lemma message_type_value json v :
  NUL ∉ json -> has_string json (lit "type") v ->
  cstr (message_type json) = take 31 v.
Proof.
  intros Hnul Hv. unfold message_type.
  rewrite (get_string_into_value _ _ _ _ v); try done.
  by eapply has_string_sub.
Qed.

Lemma message_type_missing json :
  (forall v, ~ has_string json (lit "type") v) -> cstr (message_type json) = [].
Proof.
  intros H. unfold message_type.
  rewrite get_string_into_missing by done. apply cstr_zeros.
Qed.

(** Whatever the frame, its type string has at most 31 characters and is
    either empty (no type value) or the cut value. *)
Lemma message_type_cases json :
  NUL ∉ json ->
  cstr (message_type json) = [] \/
  exists v, has_string json (lit "type") v /\
            cstr (message_type json) = take 31 v.
Proof.
  intros Hnul. unfold message_type, get_string_into.
  destruct (json_get_string json (lit "type") (zeros 32) 32) as [out|] eqn:E.
  - right. destruct (json_get_string_Some _ _ _ _ _ E) as [v Hv].
    exists v. split; [done|]. rewrite <- (message_type_value _ _ Hnul Hv).
    unfold message_type, get_string_into. by rewrite E.
  - left. apply cstr_zeros.
Qed.

Lemma take_31_recognised v t :
  t ∈ recognised -> take 31 v = t -> v = t.
Proof.
  intros Ht E. destruct (decide (length v <= 31)%nat) as [Hl|Hl].
  - by rewrite take_ge in E by lia.
  - apply (f_equal length) in E. rewrite length_take in E.
    assert (length t <= 13)%nat; [|lia].
    unfold recognised in Ht. rewrite !elem_of_cons in Ht.
    destruct Ht as [->|[->|[->|Ht]]]; [vm_compute; lia..|].
    by apply elem_of_nil in Ht.
Qed.

Lemma process_message_unknown stack s json :
  NUL ∉ json ->
  (forall v, has_string json (lit "type") v -> v ∉ recognised) ->
  process_message stack s json = (s, []).
Proof.
  intros Hnul Hun.
  assert (Hty : cstr (message_type json) ∉ recognised).
  { destruct (message_type_cases json Hnul) as [->|(v & Hv & ->)].
    - intros Hin. unfold recognised in Hin.
      repeat (apply elem_of_cons in Hin as [Hin|Hin]; [discriminate|]).
      by apply elem_of_nil in Hin.
    - intros Hin. apply (Hun v Hv).
      by rewrite (take_31_recognised v _ Hin eq_refl) at 1. }
  unfold process_message. rewrite !strcmp_eqb.
  unfold recognised in Hty. rewrite !not_elem_of_cons in Hty.
  destruct Hty as (H1 & H2 & H3 & _).
  by rewrite !bool_decide_eq_false_2.
Qed.

Lemma process_message_turn_start stack s json v :
  NUL ∉ json -> length stack = 64%nat ->
  has_string json (lit "type") (lit "turn-start") ->
  has_string json (lit "participantId") v ->
  process_message stack s json =
  (set_turn (strncpy (current_turn_player s) (take 63 v) 63)
     (bool_decide (take 63 v = cstr (Sess.participant_id (mp_session s)))) s,
   call_slot (on_turn_start s)
     (fun cb => ECallTurnStart cb (take 63 v)
                  (json_get_int json (lit "timeLimit") 30))).
Proof.
  intros Hnul Hstack Hty Hv. unfold process_message.
  rewrite (message_type_value _ _ Hnul Hty).
  change (strcmp (take 31 (lit "turn-start")) (lit "turn-start") =? 0)
    with true. cbv iota zeta.
  rewrite (get_string_into_value _ _ _ _ v); try done.
  - by rewrite strcmp_eqb.
  - by eapply has_string_sub.
  - by rewrite Hstack.
Qed.

Lemma process_message_remote_action stack s json :
  NUL ∉ json -> has_string json (lit "type") (lit "remote-action") ->
  process_message stack s json =
  (s, call_slot (on_remote_action s)
        (fun cb => ECallRemoteAction cb (decode_remote_action json))).
Proof.
  intros Hnul Hty. unfold process_message.
  rewrite (message_type_value _ _ Hnul Hty).
  change (strcmp (take 31 (lit "remote-action")) (lit "turn-start") =? 0)
    with false.
  change (strcmp (take 31 (lit "remote-action")) (lit "remote-action") =? 0)
    with true. done.
Qed.

Lemma process_message_player_state stack s json :
  NUL ∉ json -> has_string json (lit "type") (lit "player-state") ->
  process_message stack s json =
  (s, call_slot (on_player_state s)
        (fun cb => ECallPlayerState cb (decode_player_state json))).
Proof.
  intros Hnul Hty. unfold process_message.
  rewrite (message_type_value _ _ Hnul Hty).
  change (strcmp (take 31 (lit "player-state")) (lit "turn-start") =? 0)
    with false.
  change (strcmp (take 31 (lit "player-state")) (lit "remote-action") =? 0)
    with false.
  change (strcmp (take 31 (lit "player-state")) (lit "player-state") =? 0)
    with true. done.
Qed.

(** [process_message] never touches the frame buffer, the session, the
    handle, the active flag or the callback slots. *)
Lemma process_message_frame stack s json :
  exists p mine, fst (process_message stack s json) = set_turn p mine s /\
    (length (current_turn_player s) = 64%nat -> length p = 64%nat) /\
    (turn_ok s -> p !! 63%nat = Some NUL).
Proof.
  unfold process_message.
  destruct (_ =? 0); [|destruct (_ =? 0); [|destruct (_ =? 0)]];
    simpl; try by (exists (current_turn_player s), (is_my_turn s);
                   destruct s; split; [done|]; split; [done|]; intros []).
  eexists _, _. split; [done|]. unfold strncpy.
  set (src := cstr _).
  assert (Hk : length (take 63 src ++ replicate (63 - length src) NUL)
               = 63%nat).
  { rewrite length_app, length_take, length_replicate. lia. }
  split.
  - intros Hl. rewrite app_assoc, length_app, Hk, length_drop. lia.
  - intros [Hl H63]. rewrite app_assoc, lookup_app_r by lia.
    rewrite Hk, Nat.sub_diag, lookup_drop. by rewrite Nat.add_0_r.
Qed.

End Dispatch.

(** ** The receive loop *)

Section ReceiveLoop.

Implicit Types (stack bytes f : list ascii) (s : mp_state) (c : ascii).

Lemma cstr_app_NUL a r : cstr (a ++ NUL :: r) = cstr a.
Proof.
  induction a as [|x a IH]; simpl; [done|].
  destruct (Ascii.eqb x NUL); [done|]. by rewrite IH.
Qed.

Lemma cstr_terminated buf n :
  (n < length buf)%nat -> cstr (<[n := NUL]> buf) = cstr (take n buf).
Proof.
  intros Hn. rewrite <- (take_drop n buf) at 1.
  assert (Hlen : length (take n buf) = n) by (rewrite length_take; lia).
  rewrite insert_app_r_alt by lia. rewrite Hlen, Nat.sub_diag.
  destruct (drop n buf) as [|x l] eqn:E.
  - apply (f_equal length) in E. rewrite length_drop in E. simpl in E. lia.
  - simpl. apply cstr_app_NUL.
Qed.

Lemma take_insert_next buf n c :
  (n < length buf)%nat -> take (S n) (<[n := c]> buf) = take n buf ++ [c].
Proof.
  revert n; induction buf as [|x buf IH]; intros [|n] Hn; simpl in *;
    try lia; [done|].
  f_equal. apply IH. lia.
Qed.

Lemma take_take_app n (a b : list ascii) :
  take n (take n a ++ b) = take n (a ++ b).
Proof.
  destruct (decide (length a <= n)%nat).
  - by rewrite (take_ge a) by lia.
  - rewrite !take_app_le; [|lia|rewrite length_take; lia].
    rewrite take_take. f_equal. lia.
Qed.

Lemma set_buffer_twice b p b' p' s :
  set_buffer b' p' (set_buffer b p s) = set_buffer b' p' s.
Proof. done. Qed.

Lemma process_message_set_buffer stack s b p json :
  process_message stack (set_buffer b p s) json =
  (set_buffer b p (fst (process_message stack s json)),
   snd (process_message stack s json)).
Proof.
  unfold process_message.
  destruct (_ =? 0); [|destruct (_ =? 0); [|destruct (_ =? 0)]]; done.
Qed.

Lemma process_message_buffer stack s json :
  msg_buffer (fst (process_message stack s json)) = msg_buffer s /\
  msg_buffer_pos (fst (process_message stack s json)) = msg_buffer_pos s.
Proof.
  destruct (process_message_frame stack s json) as (p & mine & -> & _). done.
Qed.

Lemma receive_char_acc stack s evs c :
  receive_char stack (s, evs) c =
  (fst (receive_char stack (s, []) c),
   evs ++ snd (receive_char stack (s, []) c)).
Proof.
  unfold receive_char. destruct (Ascii.eqb c newline).
  - destruct (_ >? 0); [destruct (process_message _ _ _)|]; simpl; done.
  - destruct (_ <? _); simpl; by rewrite app_nil_r.
Qed.

Lemma receive_fold_acc stack bytes s evs :
  fold_left (receive_char stack) bytes (s, evs) =
  (fst (receive_bytes stack s bytes), evs ++ snd (receive_bytes stack s bytes)).
Proof.
  unfold receive_bytes. revert s evs.
  induction bytes as [|c bytes IH]; intros s evs; cbn [fold_left].
  - simpl. by rewrite app_nil_r.
  - rewrite (receive_char_acc stack s evs c).
    destruct (receive_char stack (s, []) c) as [s1 e1]. cbn [fst snd].
    rewrite (IH s1 (evs ++ e1)), (IH s1 e1). cbn [fst snd].
    by rewrite app_assoc.
Qed.

Lemma receive_bytes_cons stack s c bytes :
  receive_bytes stack s (c :: bytes) =
  (fst (receive_bytes stack (fst (receive_char stack (s, []) c)) bytes),
   snd (receive_char stack (s, []) c)
   ++ snd (receive_bytes stack (fst (receive_char stack (s, []) c)) bytes)).
Proof.
  unfold receive_bytes at 1. cbn [fold_left].
  destruct (receive_char stack (s, []) c) as [s1 e1].
  by rewrite receive_fold_acc.
Qed.

(** Chunk boundaries do not matter: the loop on [a ++ b] is the loop on
    [a] followed by the loop on [b]. *)
Lemma receive_bytes_app stack s a b :
  receive_bytes stack s (a ++ b) =
  (fst (receive_bytes stack (fst (receive_bytes stack s a)) b),
   snd (receive_bytes stack s a)
   ++ snd (receive_bytes stack (fst (receive_bytes stack s a)) b)).
Proof.
  unfold receive_bytes at 1. rewrite fold_left_app.
  fold (receive_bytes stack s a).
  destruct (receive_bytes stack s a) as [s1 e1].
  by rewrite receive_fold_acc.
Qed.

Lemma receive_chunks_concat stack s chunks :
  receive_chunks stack s chunks = receive_bytes stack s (concat chunks).
Proof.
  revert s; induction chunks as [|ch chunks IH]; intros s; simpl; [done|].
  rewrite receive_bytes_app. destruct (receive_bytes stack s ch) as [s1 e1].
  simpl. rewrite IH. by destruct (receive_bytes stack s1 (concat chunks)).
Qed.

Lemma pending_length s :
  buffer_ok s -> length (pending s) = Z.to_nat (msg_buffer_pos s).
Proof.
  intros [Hl Hp]. unfold pending. rewrite length_take, Hl.
  unfold MSG_BUFFER_SIZE in *. lia.
Qed.

(** A character other than the delimiter: stored while there is room,
    dropped otherwise. *)
Lemma receive_char_other stack s c :
  c <> newline -> buffer_ok s ->
  exists b p,
    receive_char stack (s, []) c = (set_buffer b p s, []) /\
    buffer_ok (set_buffer b p s) /\
    take (Z.to_nat p) b = take 4095 (pending s ++ [c]).
Proof.
  intros Hc Hok. pose proof (pending_length s Hok) as Hpl.
  destruct Hok as [Hl Hp]. unfold MSG_BUFFER_SIZE in *.
  unfold receive_char. apply Ascii.eqb_neq in Hc. rewrite Hc.
  unfold MSG_BUFFER_SIZE. destruct (msg_buffer_pos s <? 4096 - 1) eqn:E.
  - eexists _, _. split; [done|]. split.
    + split; simpl; [by rewrite length_insert|]. unfold MSG_BUFFER_SIZE. lia.
    + replace (Z.to_nat (msg_buffer_pos s + 1))
        with (S (Z.to_nat (msg_buffer_pos s))) by lia.
      rewrite take_insert_next by lia. fold (pending s).
      rewrite take_ge; [done|]. rewrite length_app. simpl. lia.
  - exists (msg_buffer s), (msg_buffer_pos s). split; [by destruct s|].
    split; [split; simpl; [done|unfold MSG_BUFFER_SIZE; lia]|].
    fold (pending s). rewrite take_app_le by lia.
    rewrite take_ge by lia. done.
Qed.

(** Characters without a delimiter are accumulated up to 4095 of them and
    nothing is handed over. *)
Lemma receive_bytes_no_newline stack bytes s :
  newline ∉ bytes -> buffer_ok s ->
  exists b p,
    receive_bytes stack s bytes = (set_buffer b p s, []) /\
    buffer_ok (set_buffer b p s) /\
    take (Z.to_nat p) b = take 4095 (pending s ++ bytes).
Proof.
  revert s; induction bytes as [|c bytes IH]; intros s Hnl Hok.
  - exists (msg_buffer s), (msg_buffer_pos s).
    split; [by destruct s|]. split; [by destruct s|].
    rewrite app_nil_r. fold (pending s). rewrite take_ge; [done|].
    rewrite pending_length by done. destruct Hok as [_ Hp].
    unfold MSG_BUFFER_SIZE in Hp. lia.
  - apply not_elem_of_cons in Hnl as [Hc Hnl].
    destruct (receive_char_other stack s c) as (b1 & p1 & E1 & Hok1 & Ht1);
      [done..|].
    destruct (IH _ Hnl Hok1) as (b & p & E & Hok' & Ht).
    exists b, p. rewrite receive_bytes_cons, E1. simpl. rewrite E. simpl.
    split; [done|]. split; [done|]. rewrite Ht. unfold pending at 1. simpl.
    rewrite Ht1.
    rewrite take_take_app. by rewrite <- app_assoc.
Qed.

Lemma receive_char_newline stack s :
  buffer_ok s ->
  receive_char stack (s, []) newline =
  let b := <[Z.to_nat (msg_buffer_pos s) := NUL]> (msg_buffer s) in
  let fr := cstr (pending s) in
  if msg_buffer_pos s >? 0
  then (set_buffer b 0 (fst (process_message stack s fr)),
        EProcessMessage fr :: snd (process_message stack s fr))
  else (set_buffer b 0 s, []).
Proof.
  intros [Hl Hp]. unfold MSG_BUFFER_SIZE in *. unfold receive_char.
  rewrite Ascii.eqb_refl. simpl.
  rewrite cstr_terminated by lia. fold (pending s).
  destruct (msg_buffer_pos s >? 0); [|done].
  rewrite process_message_set_buffer. simpl. done.
Qed.

(** A line: what accumulated, cut to 4095 characters, is handed over
    unless nothing accumulated, and the buffer is empty afterwards. *)
Lemma receive_line stack s f :
  newline ∉ f -> buffer_ok s ->
  exists b,
    length b = Z.to_nat MSG_BUFFER_SIZE /\
    receive_bytes stack s (f ++ [newline]) =
    let fr := cstr (take 4095 (pending s ++ f)) in
    if decide (pending s ++ f = [])
    then (set_buffer b 0 s, [])
    else (set_buffer b 0 (fst (process_message stack s fr)),
          [EProcessMessage fr] ++ snd (process_message stack s fr)).
Proof.
  intros Hnl Hok.
  destruct (receive_bytes_no_newline stack f s Hnl Hok)
    as (b1 & p1 & E1 & Hok1 & Ht1).
  rewrite receive_bytes_app, E1. cbn [fst snd app].
  rewrite <- surjective_pairing.
  change (receive_bytes stack (set_buffer b1 p1 s) [newline])
    with (receive_char stack (set_buffer b1 p1 s, []) newline).
  rewrite (receive_char_newline _ _ Hok1). cbv zeta.
  pose proof (pending_length _ Hok1) as Hpl.
  assert (Hpend : pending (set_buffer b1 p1 s) = take 4095 (pending s ++ f))
    by exact Ht1.
  rewrite Hpend in Hpl |- *. cbn [msg_buffer msg_buffer_pos set_buffer] in *.
  destruct Hok1 as [Hl1 Hp1]. simpl in Hl1, Hp1.
  exists (<[Z.to_nat p1 := NUL]> b1). split; [by rewrite length_insert|].
  destruct (decide (pending s ++ f = [])) as [Hempty|Hne].
  - rewrite Hempty in Hpl. simpl in Hpl.
    destruct (p1 >? 0) eqn:E; [lia|done].
  - assert (0 < p1).
    { destruct (pending s ++ f); [done|]. simpl in Hpl. lia. }
    destruct (p1 >? 0) eqn:E; [|lia].
    rewrite process_message_set_buffer. done.
Qed.

End ReceiveLoop.

(** ** Frame extraction (C3, C4) *)

Section Frames.

Implicit Types (stack bytes f : list ascii) (s : mp_state) (c : ascii).

Lemma frames_of_app e1 e2 : frames_of (e1 ++ e2) = frames_of e1 ++ frames_of e2.
Proof. apply omap_app. Qed.

Lemma frames_of_cons_frame j evs :
  frames_of (EProcessMessage j :: evs) = j :: frames_of evs.
Proof. done. Qed.

Lemma frames_of_process_message stack s json :
  frames_of (snd (process_message stack s json)) = [].
Proof.
  unfold process_message.
  destruct (_ =? 0); [|destruct (_ =? 0); [|destruct (_ =? 0)]]; simpl;
    try done.
  - by destruct (on_turn_start s).
  - by destruct (on_remote_action s).
  - by destruct (on_player_state s).
Qed.

Lemma buffer_ok_process_message stack s json b :
  length b = Z.to_nat MSG_BUFFER_SIZE ->
  buffer_ok (set_buffer b 0 (fst (process_message stack s json))).
Proof. intros Hb. split; simpl; [done|]. unfold MSG_BUFFER_SIZE. lia. Qed.

(** One character keeps the buffer within its array, and a frame handed
    over has at most 4095 characters. *)
Lemma receive_char_ok stack s c :
  buffer_ok s ->
  buffer_ok (fst (receive_char stack (s, []) c)) /\
  Forall (fun f => (length f <= 4095)%nat)
    (frames_of (snd (receive_char stack (s, []) c))).
Proof.
  intros Hok. destruct (decide (c = newline)) as [->|Hc].
  - rewrite receive_char_newline by done. cbv zeta.
    pose proof (pending_length s Hok) as Hpl. destruct Hok as [Hl Hp].
    unfold MSG_BUFFER_SIZE in *.
    destruct (msg_buffer_pos s >? 0); simpl.
    + split.
      * apply buffer_ok_process_message. by rewrite length_insert.
      * rewrite frames_of_process_message. constructor; [|constructor].
        pose proof (cstr_length (pending s)). lia.
    + split; [|constructor]. split; simpl; [by rewrite length_insert|].
      unfold MSG_BUFFER_SIZE. lia.
  - destruct (receive_char_other stack s c Hc Hok) as (b & p & -> & Hok' & _).
    split; [done|constructor].
Qed.

Lemma receive_bytes_ok stack bytes s :
  buffer_ok s ->
  buffer_ok (fst (receive_bytes stack s bytes)) /\
  Forall (fun f => (length f <= 4095)%nat)
    (frames_of (snd (receive_bytes stack s bytes))).
Proof.
  revert s; induction bytes as [|c bytes IH]; intros s Hok.
  - split; [done|constructor].
  - rewrite receive_bytes_cons. cbn [fst snd].
    destruct (receive_char_ok stack s c Hok) as [Hok1 Hf1].
    destruct (IH _ Hok1) as [Hok2 Hf2]. split; [done|].
    rewrite frames_of_app. by apply Forall_app.
Qed.

Lemma receive_bytes_full stack bytes s :
  newline ∉ bytes -> msg_buffer_pos s = MSG_BUFFER_SIZE - 1 ->
  receive_bytes stack s bytes = (s, []).
Proof.
  intros Hnl Hfull. induction bytes as [|c bytes IH]; [done|].
  apply not_elem_of_cons in Hnl as [Hc Hnl].
  rewrite receive_bytes_cons.
  assert (E : receive_char stack (s, []) c = (s, [])).
  { unfold receive_char. apply not_eq_sym, Ascii.eqb_neq in Hc. rewrite Hc.
    rewrite Hfull, Z.ltb_irrefl. done. }
  rewrite E. cbn [fst snd]. by rewrite (IH Hnl).
Qed.

(** A line on an empty buffer. *)
Lemma receive_frame stack s f :
  newline ∉ f -> NUL ∉ f -> buffer_ok s -> msg_buffer_pos s = 0 ->
  exists s',
    buffer_ok s' /\ msg_buffer_pos s' = 0 /\
    fst (receive_bytes stack s (f ++ [newline])) = s' /\
    frames_of (snd (receive_bytes stack s (f ++ [newline]))) =
    if decide (f = []) then [] else [take 4095 f].
Proof.
  intros Hnl Hnul Hok Hpos.
  destruct (receive_line stack s f Hnl Hok) as (b & Hb & ->). cbv zeta.
  assert (Hpend : pending s = []) by (unfold pending; by rewrite Hpos).
  rewrite Hpend. cbn [app].
  destruct (decide (f = [])) as [->|Hf].
  - eexists. split; [|split; [|split; reflexivity]]; [|done].
    split; simpl; [done|]. unfold MSG_BUFFER_SIZE. lia.
  - eexists. split; [|split; [|split; [reflexivity|]]].
    + by apply buffer_ok_process_message.
    + done.
    + cbn [snd app]. rewrite frames_of_cons_frame, frames_of_process_message.
      rewrite cstr_id; [done|]. by apply not_elem_of_take.
Qed.

(** Lines are handed over in stream order, empty ones skipped. *)
Lemma receive_wire stack frames s :
  Forall frame_ok frames -> buffer_ok s -> msg_buffer_pos s = 0 ->
  frames_of (snd (receive_bytes stack s (wire frames))) = non_empty frames /\
  msg_buffer_pos (fst (receive_bytes stack s (wire frames))) = 0 /\
  buffer_ok (fst (receive_bytes stack s (wire frames))).
Proof.
  intros Hfr. revert s. induction Hfr as [|f frames (Hlen & Hnl & Hnul) _ IH];
    intros s Hok Hpos.
  - done.
  - unfold wire. cbn [map concat]. fold (wire frames).
    rewrite receive_bytes_app. cbn [fst snd].
    destruct (receive_frame stack s f Hnl Hnul Hok Hpos)
      as (s' & Hok' & Hpos' & -> & Hfrs).
    destruct (IH s' Hok' Hpos') as (IH1 & IH2 & IH3).
    split; [|done]. rewrite frames_of_app, Hfrs, IH1.
    unfold non_empty. rewrite filter_cons.
    destruct (decide (f = [])) as [->|Hf].
    + by rewrite decide_False by (intros H; by apply H).
    + rewrite decide_True by done. by rewrite take_ge by lia.
Qed.

(** C3: Frame extraction keeps the stream order and does not depend on
    where the reads cut the stream: feeding chunks one after the other does
    what feeding their concatenation does.  The lines of a stream (each
    within the buffer, free of NUL) are handed to [process_message] in
    order, with empty lines skipped, whether the stream arrives in one read
    or in any number of chunks; [A\nB\nC\n] in one read gives A, B, C; [A\nB\n], [C],
    [\n] give A, B on the first read, nothing on the second and C on the
    third; bytes without a delimiter are kept for the next read. *)
Theorem frame_extraction_order_and_chunking :
  (forall stack s chunks,
     receive_chunks stack s chunks = receive_bytes stack s (concat chunks)) /\
  (forall stack s frames, buffer_ok s -> msg_buffer_pos s = 0 ->
     Forall frame_ok frames ->
     frames_of (snd (receive_bytes stack s (wire frames)))
     = non_empty frames) /\
  (forall stack s chunks frames, buffer_ok s -> msg_buffer_pos s = 0 ->
     Forall frame_ok frames -> concat chunks = wire frames ->
     frames_of (snd (receive_chunks stack s chunks)) = non_empty frames /\
     msg_buffer_pos (fst (receive_chunks stack s chunks)) = 0) /\
  (forall stack s chunks f, buffer_ok s -> msg_buffer_pos s = 0 ->
     frame_ok f -> f <> [] -> concat chunks = f ++ [newline] ->
     frames_of (snd (receive_chunks stack s chunks)) = [f]) /\
  (forall stack,
     frames_of (snd (receive_bytes stack initial_state
                       (lit "A" ++ [newline] ++ lit "B" ++ [newline]
                        ++ lit "C" ++ [newline])))
     = [lit "A"; lit "B"; lit "C"]) /\
  (forall stack,
     let (s1, e1) :=
       receive_bytes stack initial_state
         (lit "A" ++ [newline] ++ lit "B" ++ [newline]) in
     let (s2, e2) := receive_bytes stack s1 (lit "C") in
     let (s3, e3) := receive_bytes stack s2 [newline] in
     frames_of e1 = [lit "A"; lit "B"] /\ frames_of e2 = [] /\
     frames_of e3 = [lit "C"]) /\
  (forall stack s bytes, buffer_ok s -> newline ∉ bytes ->
     (length (pending s ++ bytes) <= 4095)%nat ->
     snd (receive_bytes stack s bytes) = [] /\
     pending (fst (receive_bytes stack s bytes)) = pending s ++ bytes).
Proof.
  split; [exact receive_chunks_concat|].
  split; [|split; [|split; [|split; [|split]]]].
  - intros stack s frames Hok Hpos Hfr.
    by destruct (receive_wire stack frames s Hfr Hok Hpos) as [? _].
  - intros stack s chunks frames Hok Hpos Hfr Hcat.
    rewrite receive_chunks_concat, Hcat.
    by destruct (receive_wire stack frames s Hfr Hok Hpos) as (? & ? & _).
  - intros stack s chunks f Hok Hpos Hf Hne Hcat.
    rewrite receive_chunks_concat, Hcat.
    destruct (receive_wire stack [f] s) as [E _]; [by constructor|done..|].
    unfold wire in E. cbn [map concat] in E. rewrite app_nil_r in E.
    rewrite E. unfold non_empty. rewrite filter_cons.
    by rewrite decide_True by done.
  - intros stack. vm_compute. reflexivity.
  - intros stack. vm_compute. repeat split.
  - intros stack s bytes Hok Hnl Hlen.
    destruct (receive_bytes_no_newline stack bytes s Hnl Hok)
      as (b & p & -> & Hok' & Ht).
    split; [done|]. unfold pending at 1. cbn [fst set_buffer msg_buffer
      msg_buffer_pos]. rewrite Ht. by rewrite take_ge by lia.
Qed.

Lemma frame_extraction_order_and_chunking_witness :
  frames_of (snd (receive_chunks stack0 initial_state
                    [lit "{'ty"; lit "pe':'x"; lit "'}" ++ [newline]]))
  = [lit "{'type':'x'}"].
Proof.
  apply (proj1 (proj2 (proj2 (proj2 frame_extraction_order_and_chunking)))).
  - split; [reflexivity|]. vm_compute. split; discriminate.
  - reflexivity.
  - split; [vm_compute; lia|]. split; by_decide.
  - discriminate.
  - reflexivity.
Defined.

End Frames.

(** C4: The frame buffer never exceeds its capacity of 4096 characters.
    Whatever is fed, the array keeps its 4096 characters and the write
    position stays below 4096; once 4095 characters are stored, further
    characters before a delimiter are dropped without any other effect;
    every frame handed over has at most 4095 characters; and after an
    over-long line, cut to its first 4095 characters, the next line is
    handed over whole. *)
Theorem frame_buffer_bounded :
  (forall stack s bytes, buffer_ok s ->
     length (msg_buffer (fst (receive_bytes stack s bytes)))
       = Z.to_nat MSG_BUFFER_SIZE /\
     0 <= msg_buffer_pos (fst (receive_bytes stack s bytes))
       < MSG_BUFFER_SIZE) /\
  (forall stack s bytes, newline ∉ bytes ->
     msg_buffer_pos s = MSG_BUFFER_SIZE - 1 ->
     receive_bytes stack s bytes = (s, [])) /\
  (forall stack s bytes f, buffer_ok s ->
     f ∈ frames_of (snd (receive_bytes stack s bytes)) ->
     Z.of_nat (length f) <= MSG_BUFFER_SIZE - 1) /\
  (forall stack s f g, buffer_ok s -> msg_buffer_pos s = 0 ->
     newline ∉ f -> NUL ∉ f -> (4095 < length f)%nat ->
     frame_ok g -> g <> [] ->
     frames_of (snd (receive_bytes stack s
                       ((f ++ [newline]) ++ (g ++ [newline]))))
     = [take 4095 f; g]).
Proof.
  split; [|split; [|split]].
  - intros stack s bytes Hok.
    destruct (receive_bytes_ok stack bytes s Hok) as [[Hl Hp] _].
    split; [done|lia].
  - intros stack s bytes. apply receive_bytes_full.
  - intros stack s bytes f Hok Hin.
    destruct (receive_bytes_ok stack bytes s Hok) as [_ Hall].
    rewrite Forall_forall in Hall. apply Hall in Hin.
    unfold MSG_BUFFER_SIZE. lia.
  - intros stack s f g Hok Hpos Hnl Hnul Hlen (Hglen & Hgnl & Hgnul) Hg.
    rewrite receive_bytes_app. cbn [fst snd]. rewrite frames_of_app.
    destruct (receive_frame stack s f Hnl Hnul Hok Hpos)
      as (s' & Hok' & Hpos' & -> & ->).
    destruct (receive_frame stack s' g Hgnl Hgnul Hok' Hpos')
      as (s'' & _ & _ & _ & ->).
    rewrite decide_False by (intros ->; simpl in Hlen; lia).
    rewrite decide_False by done. by rewrite (take_ge g) by lia.
Qed.

Lemma frame_buffer_bounded_witness :
  frames_of (snd (receive_bytes stack0 initial_state
                    ((replicate 5000 "x"%char ++ [newline])
                     ++ (lit "ok" ++ [newline]))))
  = [take 4095 (replicate 5000 "x"%char); lit "ok"].
Proof.
  apply (proj2 (proj2 (proj2 frame_buffer_bounded))).
  - split; [reflexivity|]. vm_compute. split; discriminate.
  - reflexivity.
  - by_decide.
  - by_decide.
  - rewrite length_replicate. lia.
  - split; [vm_compute; lia|]. split; by_decide.
  - discriminate.
Defined.

(** ** Unrecognised frames (C5) *)

(** C5: A frame whose type value is absent or outside turn-start,
    remote-action and player-state is dropped: [process_message] returns
    the state it was given (turn participant and turn flag included) and
    calls no handler; in the receive loop the characters after such a
    frame are processed as usual. *)
Theorem unknown_type_ignored :
  (forall stack s json, NUL ∉ json ->
     (forall v, has_string json (lit "type") v -> v ∉ recognised) ->
     process_message stack s json = (s, [])) /\
  (forall stack s more, buffer_ok s -> 0 < msg_buffer_pos s ->
     (forall v, has_string (cstr (pending s)) (lit "type") v ->
                v ∉ recognised) ->
     exists b,
       receive_bytes stack s (newline :: more) =
       (fst (receive_bytes stack (set_buffer b 0 s) more),
        EProcessMessage (cstr (pending s))
        :: snd (receive_bytes stack (set_buffer b 0 s) more))).
Proof.
  split.
  - intros stack s json. apply process_message_unknown.
  - intros stack s more Hok Hpos Hun.
    exists (<[Z.to_nat (msg_buffer_pos s) := NUL]> (msg_buffer s)).
    rewrite receive_bytes_cons, receive_char_newline by done. cbv zeta.
    destruct (msg_buffer_pos s >? 0) eqn:E; [|lia].
    rewrite process_message_unknown; [done| |done]. apply cstr_no_NUL.
Qed.

Lemma strstr_has_string json key v rest :
  strstr json (string_search key)
    = Some (string_search key ++ v ++ quote :: rest) ->
  quote ∉ v -> has_string json key v.
Proof.
  intros E Hv. apply strstr_Some in E as (pre & rest0 & E & Hfirst).
  apply app_inv_head in E. subst rest0. by exists pre, rest.
Qed.

Lemma unknown_type_ignored_witness :
  process_message stack0 active_p1 (lit "{'type':'bogus','participantId':'p1'}")
  = (active_p1, []).
Proof.
  apply (proj1 unknown_type_ignored).
  - by_decide.
  - intros v Hv.
    assert (Hb : has_string (lit "{'type':'bogus','participantId':'p1'}")
                   (lit "type") (lit "bogus")).
    { apply (strstr_has_string _ _ _ (lit ",'participantId':'p1'}"));
        [vm_compute; reflexivity|by_decide]. }
    rewrite (has_string_inj _ _ _ _ Hv Hb). by_decide.
Defined.

(** ** Turn ownership (C1) and truncation (C10) *)

Lemma strncpy_cstr (dst src : list ascii) n :
  (length src <= n)%nat -> NUL ∉ src ->
  length dst = S n -> dst !! n = Some NUL ->
  cstr (strncpy dst src n) = src.
Proof.
  intros Hlen Hnul Hdst Hlast. unfold strncpy.
  rewrite take_ge by lia. rewrite (drop_S _ _ _ Hlast).
  destruct (n - length src)%nat; simpl; by apply cstr_app.
Qed.

Lemma mp_get_current_turn_player_cstr s :
  mp_get_current_turn_player s =
  match cstr (current_turn_player s) with
  | [] => None
  | v => Some v
  end.
Proof.
  unfold mp_get_current_turn_player.
  destruct (current_turn_player s) as [|c l]; simpl; [done|].
  by destruct (Ascii.eqb c NUL).
Qed.

Lemma turn_ok_process_message stack s json :
  turn_ok s -> turn_ok (fst (process_message stack s json)).
Proof.
  intros Hok. destruct (process_message_frame stack s json)
    as (p & mine & -> & Hl & Hn).
  destruct Hok as [H1 H2]. split; simpl; [by apply Hl|by apply Hn].
Qed.

(** C1 (amended): For a turn-start frame whose participantId value has at
    most 63 characters, processing it stores that value as the current-turn
    participant and sets the turn flag exactly when the value equals the
    session's participant id; while the session is active [mp_is_my_turn]
    returns that flag; [mp_get_current_turn_player] returns the value, or
    the null pointer when the value is empty. *)
Theorem turn_start_sets_turn_owner :
  forall stack s json v,
    NUL ∉ json -> length stack = 64%nat -> turn_ok s ->
    has_string json (lit "type") (lit "turn-start") ->
    has_string json (lit "participantId") v -> (length v <= 63)%nat ->
    let s' := fst (process_message stack s json) in
    cstr (current_turn_player s') = v /\
    (is_my_turn s' = true <-> v = cstr (Sess.participant_id (mp_session s))) /\
    (mp_active s = true ->
     (mp_is_my_turn s' = true <->
      v = cstr (Sess.participant_id (mp_session s)))) /\
    mp_get_current_turn_player s' = (if decide (v = []) then None else Some v)
    /\ turn_ok s'.
Proof.
  intros stack s json v Hnul Hstack Hok Hty Hv Hlen s'.
  assert (Hvn : NUL ∉ v) by (by eapply has_string_sub).
  assert (Hs' : s' = set_turn (strncpy (current_turn_player s) v 63)
                       (bool_decide (v = cstr (Sess.participant_id
                                                 (mp_session s)))) s).
  { unfold s'. rewrite (process_message_turn_start _ _ _ v) by done.
    by rewrite take_ge by lia. }
  assert (Hc : cstr (current_turn_player s') = v).
  { rewrite Hs'. simpl. destruct Hok as [H1 H2]. by apply strncpy_cstr. }
  split; [done|]. split; [|split; [|split]].
  - rewrite Hs'. simpl. apply bool_decide_eq_true.
  - intros Hact. unfold mp_is_my_turn. rewrite Hs'. simpl. rewrite Hact.
    simpl. apply bool_decide_eq_true.
  - rewrite mp_get_current_turn_player_cstr, Hc. by destruct v.
  - by apply turn_ok_process_message.
Qed.

Lemma turn_ok_active_p1 : turn_ok active_p1.
Proof. split; reflexivity. Qed.

Lemma turn_start_sets_turn_owner_witness :
  let s' := fst (process_message stack0 active_p1
                   (lit "{'type':'turn-start','participantId':'p1','timeLimit':30}")) in
  cstr (current_turn_player s') = lit "p1" /\
  (is_my_turn s' = true <->
   lit "p1" = cstr (Sess.participant_id (mp_session active_p1))) /\
  (mp_active active_p1 = true ->
   (mp_is_my_turn s' = true <->
    lit "p1" = cstr (Sess.participant_id (mp_session active_p1)))) /\
  mp_get_current_turn_player s'
    = (if decide (lit "p1" = []) then None else Some (lit "p1")) /\
  turn_ok s'.
Proof.
  apply (turn_start_sets_turn_owner stack0 active_p1
           (lit "{'type':'turn-start','participantId':'p1','timeLimit':30}")
           (lit "p1")).
  - by_decide.
  - reflexivity.
  - exact turn_ok_active_p1.
  - apply (strstr_has_string _ _ _ (lit ",'participantId':'p1','timeLimit':30}"));
      [vm_compute; reflexivity|by_decide].
  - apply (strstr_has_string _ _ _ (lit ",'timeLimit':30}"));
      [vm_compute; reflexivity|by_decide].
  - vm_compute. lia.
Defined.

(** The two turn-start frames of the claim, with local id p1. *)
Example turn_start_p1_p2 :
  mp_is_my_turn
    (fst (process_message stack0 active_p1
            (lit "{'type':'turn-start','participantId':'p1','timeLimit':30}")))
  = true /\
  mp_is_my_turn
    (fst (process_message stack0 active_p1
            (lit "{'type':'turn-start','participantId':'p2','timeLimit':30}")))
  = false /\
  mp_get_current_turn_player
    (fst (process_message stack0 active_p1
            (lit "{'type':'turn-start','participantId':'p2','timeLimit':30}")))
  = Some (lit "p2").
Proof. vm_compute. done. Qed.

(** C1 as stated fails: a participantId of 64 characters is stored cut to
    63, and the turn flag is set although the value differs from the
    session's participant id; and after an empty participantId the accessor
    returns the null pointer, not the empty id. *)
Lemma turn_start_long_id_counterexample :
  let v := replicate 64 "a"%char in
  let json :=
    lit "{'type':'turn-start','participantId':'" ++ v ++ lit "','timeLimit':30}" in
  let s' := fst (process_message stack0 active_a63 json) in
  let json0 := lit "{'type':'turn-start','participantId':''}" in
  has_string json (lit "type") (lit "turn-start") /\
  has_string json (lit "participantId") v /\
  cstr (current_turn_player s') <> v /\
  is_my_turn s' = true /\
  v <> cstr (Sess.participant_id (mp_session active_a63)) /\
  has_string json0 (lit "participantId") [] /\
  mp_get_current_turn_player (fst (process_message stack0 active_p1 json0))
  = None.
Proof.
  cbv zeta. split; [|split; [|split; [|split; [|split; [|split]]]]].
  - apply (strstr_has_string _ _ _
             (lit ",'participantId':'" ++ replicate 64 "a"%char
              ++ lit "','timeLimit':30}"));
      [vm_compute; reflexivity|by_decide].
  - apply (strstr_has_string _ _ _ (lit ",'timeLimit':30}"));
      [vm_compute; reflexivity|by_decide].
  - vm_compute. discriminate.
  - vm_compute. reflexivity.
  - vm_compute. discriminate.
  - apply (strstr_has_string _ _ _ (lit "}"));
      [vm_compute; reflexivity|by_decide].
  - vm_compute. reflexivity.
Qed.

(** C10: Every string field taken from an inbound frame is cut to its
    destination.  A successful lookup copies the first
    [min (length v) (out_size - 1)] characters of the value, writes the
    terminator right after them and leaves the rest of the array, whose
    length is unchanged, as it was; so the turn-ownership comparison, the
    stored turn participant and the turn-start handler see the first 63
    characters of the participant id, and the remote-action handler gets an
    action type of at most 31 and a weapon mode of at most 15
    characters. *)
Theorem string_fields_truncated :
  (forall json key out out_size out',
     1 <= out_size -> Z.of_nat (length out) = out_size ->
     json_get_string json key out out_size = Some out' ->
     exists v,
       has_string json key v /\
       let len := (length v `min` Z.to_nat (out_size - 1))%nat in
       out' = take len v ++ NUL :: drop (S len) out /\
       length out' = length out /\
       Z.of_nat len <= out_size - 1) /\
  (forall stack s json v,
     NUL ∉ json -> length stack = 64%nat -> turn_ok s ->
     has_string json (lit "type") (lit "turn-start") ->
     has_string json (lit "participantId") v ->
     cstr (current_turn_player (fst (process_message stack s json)))
       = take 63 v /\
     is_my_turn (fst (process_message stack s json))
       = bool_decide (take 63 v = cstr (Sess.participant_id (mp_session s))) /\
     snd (process_message stack s json)
       = call_slot (on_turn_start s)
           (fun cb => ECallTurnStart cb (take 63 v)
                        (json_get_int json (lit "timeLimit") 30))) /\
  (forall stack s json ty wm,
     NUL ∉ json ->
     has_string json (lit "type") (lit "remote-action") ->
     has_string json (lit "action") ty ->
     has_string json (lit "weaponMode") wm ->
     process_message stack s json
       = (s, call_slot (on_remote_action s)
               (fun cb => ECallRemoteAction cb (decode_remote_action json))) /\
     cstr (PA.type (decode_remote_action json)) = take 31 ty /\
     cstr (PA.weapon_mode (decode_remote_action json)) = take 15 wm).
Proof.
  split; [|split].
  - intros json key out n out' Hn Hout E.
    destruct (json_get_string_Some _ _ _ _ _ E) as (v & pre & rest & Hf & Hv).
    exists v. split; [by exists pre, rest|]. cbv zeta.
    rewrite (json_get_string_value _ _ _ _ _ _ _ Hf Hv Hn Hout) in E.
    injection E as <-. split; [done|]. split; [|lia].
    rewrite length_app, length_take. simpl. rewrite length_drop. lia.
  - intros stack s json v Hnul Hstack [Hl H63] Hty Hv.
    rewrite (process_message_turn_start _ _ _ v) by done. simpl.
    split; [|done]. apply strncpy_cstr; [|by apply not_elem_of_take,
      (has_string_sub json (lit "participantId"))|done..].
    rewrite length_take. lia.
  - intros stack s json ty wm Hnul Hty Hact Hwm.
    split; [by apply process_message_remote_action|]. simpl. split.
    + apply (get_string_into_value _ _ _ 32 ty); try done.
      by eapply has_string_sub.
    + apply (get_string_into_value _ _ _ 16 wm); try done.
      by eapply has_string_sub.
Qed.

Lemma string_fields_truncated_witness :
  cstr (PA.type (decode_remote_action
     (lit "{'type':'remote-action','action':'" ++ replicate 40 "m"%char
      ++ lit "','weaponMode':'" ++ replicate 20 "w"%char ++ lit "'}")))
  = take 31 (replicate 40 "m"%char) /\
  cstr (PA.weapon_mode (decode_remote_action
     (lit "{'type':'remote-action','action':'" ++ replicate 40 "m"%char
      ++ lit "','weaponMode':'" ++ replicate 20 "w"%char ++ lit "'}")))
  = take 15 (replicate 20 "w"%char).
Proof.
  refine (proj2 (proj2 (proj2 string_fields_truncated) stack0 active_p1
            (lit "{'type':'remote-action','action':'" ++ replicate 40 "m"%char
             ++ lit "','weaponMode':'" ++ replicate 20 "w"%char ++ lit "'}")
            (replicate 40 "m"%char) (replicate 20 "w"%char) _ _ _ _)).
  - by_decide.
  - apply (strstr_has_string _ _ _
             (lit ",'action':'" ++ replicate 40 "m"%char
              ++ lit "','weaponMode':'" ++ replicate 20 "w"%char ++ lit "'}"));
      [vm_compute; reflexivity|by_decide].
  - apply (strstr_has_string _ _ _
             (lit ",'weaponMode':'" ++ replicate 20 "w"%char ++ lit "'}"));
      [vm_compute; reflexivity|by_decide].
  - apply (strstr_has_string _ _ _ (lit "}"));
      [vm_compute; reflexivity|by_decide].
Defined.

(** ** Shutdown and the turn query (C8, C9) *)

Lemma mp_exit_inactive s : mp_active s = false -> mp_exit s = (s, []).
Proof. intros H. unfold mp_exit. by rewrite H. Qed.

Lemma mp_exit_clears_active s : mp_active (fst (mp_exit s)) = false.
Proof.
  unfold mp_exit. destruct (mp_active s) eqn:E; [|done].
  by destruct (disconnect_pipe s).
Qed.

(** C8: [mp_exit] is idempotent and safe when never connected: a second
    call returns the state of the first and performs no transport
    operation, and a call on an inactive session (none was ever
    established, or it was closed) returns the state it was given, active
    flag false, and performs no transport operation. *)
Theorem mp_exit_idempotent :
  (forall s, mp_exit (fst (mp_exit s)) = (fst (mp_exit s), [])) /\
  (forall s, mp_active s = false -> mp_exit s = (s, [])) /\
  mp_exit initial_state = (initial_state, []) /\
  (forall s, mp_active (fst (mp_exit s)) = false).
Proof.
  split; [|split; [|split]].
  - intros s. apply mp_exit_inactive, mp_exit_clears_active.
  - apply mp_exit_inactive.
  - reflexivity.
  - apply mp_exit_clears_active.
Qed.

Lemma mp_exit_idempotent_witness :
  mp_exit (fst (mp_exit active_p1)) = (fst (mp_exit active_p1), []) /\
  mp_exit initial_state = (initial_state, []).
Proof.
  split.
  - apply (proj1 mp_exit_idempotent).
  - apply (proj1 (proj2 mp_exit_idempotent)). reflexivity.
Defined.

(** C9: While the session is not active, [mp_is_my_turn] returns false
    even if the turn flag is set: [mp_exit] clears the active flag and
    keeps the turn flag, and the query is false before [mp_init] and after
    [mp_exit]. *)
Theorem inactive_session_never_my_turn :
  (forall s, mp_active s = false -> mp_is_my_turn s = false) /\
  (forall s, is_my_turn (fst (mp_exit s)) = is_my_turn s) /\
  (forall s, mp_is_my_turn (fst (mp_exit s)) = false) /\
  mp_is_my_turn initial_state = false.
Proof.
  split; [|split; [|split]].
  - intros s H. unfold mp_is_my_turn. by rewrite H.
  - intros s. unfold mp_exit, disconnect_pipe.
    destruct (mp_active s); [|done]. by destruct (negb _).
  - intros s. unfold mp_is_my_turn. by rewrite mp_exit_clears_active.
  - reflexivity.
Qed.

Lemma inactive_session_never_my_turn_witness :
  let s := fst (mp_exit (fst (process_message stack0 active_p1
             (lit "{'type':'turn-start','participantId':'p1'}")))) in
  is_my_turn s = true /\ mp_is_my_turn s = false.
Proof.
  split; [reflexivity|].
  apply (proj1 inactive_session_never_my_turn). reflexivity.
Defined.

(** ** The boolean lookup (C6) *)

Lemma strncmp_prefix p s :
  (strncmp s p (length p) =? 0) = is_prefix p s.
Proof.
  revert s; induction p as [|x p IH]; intros [|y s]; simpl; try done.
  rewrite (Ascii.eqb_sym x y). destruct (Ascii.eqb y x); simpl; [apply IH|].
  by destruct (N_of_ascii y <? N_of_ascii x)%N.
Qed.

Lemma skip_blanks_replicate k r :
  skip_blanks (replicate k space ++ r) = skip_blanks r.
Proof. induction k as [|k IH]; simpl; done. Qed.

Lemma skip_blanks_split s : exists k, s = replicate k space ++ skip_blanks s.
Proof.
  induction s as [|c s [k IH]]; [by exists 0%nat|]. simpl.
  destruct (Ascii.eqb c space) eqn:E.
  - apply Ascii.eqb_eq in E. subst c. exists (S k). simpl. by rewrite <- IH.
  - by exists 0%nat.
Qed.

(** C6 (amended): When the search text ["<key>":] does not occur in the
    frame, the boolean lookup returns the caller's default.  When it occurs,
    the lookup returns true exactly when the text after the first
    occurrence, spaces skipped, starts with the literal [true], and false
    otherwise, whatever the default.  (The search text is the whole
    ["<key>":] for keys of at most 60 characters.) *)
Theorem json_get_bool_lookup :
  (forall json key d,
     ~ occurs (value_search key) json -> json_get_bool json key d = d) /\
  (forall json key d pre k tail,
     first_at (value_search key) json pre
       (replicate k space ++ lit "true" ++ tail) ->
     json_get_bool json key d = true) /\
  (forall json key d pre rest,
     first_at (value_search key) json pre rest ->
     (forall k tail, rest <> replicate k space ++ lit "true" ++ tail) ->
     json_get_bool json key d = false) /\
  (forall key, (length key <= 60)%nat ->
     value_search key = quote :: key ++ [quote; ":"%char]).
Proof.
  split; [|split; [|split]].
  - intros json key d H. rewrite json_get_bool_unfold.
    by rewrite (strstr_absent _ _ H).
  - intros json key d pre k tail H. rewrite json_get_bool_unfold.
    rewrite (strstr_first _ _ _ _ H), drop_app_length.
    rewrite skip_blanks_replicate.
    change (skip_blanks (lit "true" ++ tail)) with (lit "true" ++ tail).
    change 4%nat with (length (lit "true")).
    by rewrite strncmp_prefix, is_prefix_app.
  - intros json key d pre rest H Hrest. rewrite json_get_bool_unfold.
    rewrite (strstr_first _ _ _ _ H), drop_app_length.
    change 4%nat with (length (lit "true")). rewrite strncmp_prefix.
    destruct (is_prefix (lit "true") (skip_blanks rest)) eqn:E; [|done].
    apply is_prefix_true in E as [tail E].
    destruct (skip_blanks_split rest) as [k Hk]. rewrite E in Hk.
    by destruct (Hrest k tail).
  - intros key Hlen. unfold value_search. apply take_ge.
    simpl. rewrite length_app. simpl. lia.
Qed.

Lemma json_get_bool_lookup_witness :
  json_get_bool (lit "{'isDead':  true}") (lit "isDead") false = true.
Proof.
  apply (proj1 (proj2 json_get_bool_lookup) _ _ _ (lit "{") 2%nat (lit "}")).
  apply strstr_first_at; vm_compute; reflexivity.
Defined.

(** C6 as stated fails for a default of true: with the key present and a
    value other than [true] the lookup returns false, not the default; and
    with the key absent it returns true. *)
Lemma json_get_bool_default_counterexample :
  json_get_bool (lit "{'isDead':false}") (lit "isDead") true = false /\
  json_get_bool (lit "{}") (lit "isDead") true = true.
Proof. split; vm_compute; reflexivity. Qed.

(** ** Sending (C7) *)

Lemma send_message_events w w' s json :
  snd (send_message w s json) = snd (send_message w' s json).
Proof.
  unfold send_message. by destruct (pipe_handle s =? INVALID_HANDLE_VALUE).
Qed.

(** C7 (amended): While the session is not active, [mp_send_state] and
    [mp_send_action] write nothing and change no state.  Both return
    [void]: what the caller gets back (the state, which is never changed)
    is the same whether the write succeeded or failed.  The internal
    [send_message] returns false without writing when the pipe handle is
    invalid, and false after its single write when the write fails or is
    short; nothing is retried or queued. *)
Theorem send_inactive_and_failures :
  (forall w s state, mp_active s = false -> mp_send_state w s state = (s, []))
  /\
  (forall stack w s action, mp_active s = false ->
     mp_send_action stack w s action = (s, [])) /\
  (forall w s json, pipe_handle s = INVALID_HANDLE_VALUE ->
     send_message w s json = (false, [])) /\
  (forall w s json, pipe_handle s <> INVALID_HANDLE_VALUE ->
     write_ok w = false \/ written w <> strlen json + 1 ->
     exists bytes,
       send_message w s json = (false, [EWriteFile (pipe_handle s) bytes])) /\
  (forall w w' s state, mp_send_state w s state = mp_send_state w' s state) /\
  (forall stack w w' s action,
     mp_send_action stack w s action = mp_send_action stack w' s action) /\
  (forall w s state, fst (mp_send_state w s state) = s) /\
  (forall stack w s action, fst (mp_send_action stack w s action) = s).
Proof.
  split; [|split; [|split; [|split; [|split; [|split; [|split]]]]]].
  - intros w s [state|] H; unfold mp_send_state; by rewrite ?H.
  - intros stack w s [action|] H; unfold mp_send_action; by rewrite ?H.
  - intros w s json H. unfold send_message. by rewrite H.
  - intros w s json H Hw. unfold send_message.
    destruct (pipe_handle s =? INVALID_HANDLE_VALUE) eqn:E; [lia|].
    simpl. eexists. f_equal.
    destruct Hw as [->|Hw]; [done|]. apply andb_false_iff. right.
    apply Z.eqb_neq. unfold strlen in Hw. rewrite length_app. simpl. lia.
  - intros w w' s [state|]; unfold mp_send_state; [|done].
    destruct (negb (mp_active s)); [done|].
    by rewrite (send_message_events w w').
  - intros stack w w' s [action|]; unfold mp_send_action; [|done].
    destruct (negb (mp_active s)); [done|].
    by rewrite (send_message_events w w').
  - intros w s [state|]; unfold mp_send_state; [|done].
    by destruct (negb (mp_active s)).
  - intros stack w s [action|]; unfold mp_send_action; [|done].
    by destruct (negb (mp_active s)).
Qed.

Lemma send_inactive_and_failures_witness :
  mp_send_state (mk_write true 0) initial_state (Some sample_state)
  = (initial_state, []).
Proof. apply (proj1 send_inactive_and_failures). reflexivity. Defined.

(** C7 as stated fails: on an active session whose write fails,
    [send_message] yields false, but [mp_send_state] hands the caller
    exactly what it hands back after a successful write; no false reaches
    the caller. *)
Lemma send_failure_not_reported_counterexample :
  fst (send_message (mk_write false 0) active_p1 (state_message sample_state))
  = false /\
  fst (send_message (mk_write true 151) active_p1 (state_message sample_state))
  = true /\
  mp_send_state (mk_write false 0) active_p1 (Some sample_state)
  = mp_send_state (mk_write true 151) active_p1 (Some sample_state).
Proof. vm_compute. done. Qed.

(** ** Decimal conversion: [atoi] reads back what [%d] prints *)

Section Decimal.

Implicit Types (n m d : Z) (c : ascii) (r acc : list ascii).

Lemma digit_char_code d :
  0 <= d < 10 -> N_of_ascii (digit_char d) = (48 + Z.to_N d)%N.
Proof. intros H. unfold digit_char. apply N_ascii_embedding. lia. Qed.

Lemma is_digit_digit_char d : 0 <= d < 10 -> is_digit (digit_char d) = true.
Proof.
  intros H. unfold is_digit. rewrite digit_char_code by done.
  apply andb_true_iff. split; apply N.leb_le; lia.
Qed.

Lemma digit_val_digit_char d : 0 <= d < 10 -> digit_val (digit_char d) = d.
Proof.
  intros H. unfold digit_val. rewrite digit_char_code by done. lia.
Qed.

Lemma atoi_digits_utoa fuel m acc r :
  0 <= m < 10 ^ Z.of_nat fuel ->
  atoi_digits (utoa fuel m acc ++ r) 0 = atoi_digits (acc ++ r) m.
Proof.
  revert m acc; induction fuel as [|fuel IH]; intros m acc Hm.
  - simpl in *. by replace m with 0 by lia.
  - assert (Hd : 0 <= m mod 10 < 10) by (apply Z.mod_pos_bound; lia).
    cbn [utoa]. destruct (m <? 10) eqn:E.
    + cbn [app atoi_digits]. rewrite is_digit_digit_char by done.
      rewrite digit_val_digit_char by done.
      rewrite Z.mod_small by lia. done.
    + rewrite IH.
      * cbn [app atoi_digits]. rewrite is_digit_digit_char by done.
        rewrite digit_val_digit_char by done. f_equal.
        pose proof (Z.div_mod m 10). lia.
      * rewrite Nat2Z.inj_succ, Z.pow_succ_r in Hm by lia.
        split; [apply Z.div_pos; lia|]. apply Z.div_lt_upper_bound; lia.
Qed.

Lemma utoa_chars fuel m acc :
  0 <= m -> Forall is_num_char acc -> Forall is_num_char (utoa fuel m acc).
Proof.
  revert m acc; induction fuel as [|fuel IH]; intros m acc Hm Hacc; [done|].
  assert (Hd : 0 <= m mod 10 < 10) by (apply Z.mod_pos_bound; lia).
  assert (Hacc' : Forall is_num_char (digit_char (m mod 10) :: acc)).
  { constructor; [|done]. left. by apply is_digit_digit_char. }
  cbn [utoa]. destruct (m <? 10); [done|].
  apply IH; [|done]. apply Z.div_pos; lia.
Qed.

Lemma fmt_d_chars n : Forall is_num_char (fmt_d n).
Proof.
  unfold fmt_d. destruct (n <? 0) eqn:E.
  - constructor; [by right|]. apply utoa_chars; [lia|constructor].
  - apply utoa_chars; [lia|constructor].
Qed.

Lemma num_char_not c c' :
  is_digit c' = false -> c' <> "-"%char -> is_num_char c -> c <> c'.
Proof. intros Hd Hm [H|H] E; subst; congruence. Qed.

Lemma fmt_d_not_in n c :
  is_digit c = false -> c <> "-"%char -> c ∉ fmt_d n.
Proof.
  intros Hd Hm Hin. pose proof (fmt_d_chars n) as H.
  rewrite Forall_forall in H. apply H in Hin.
  by apply (num_char_not c c Hd Hm Hin).
Qed.

Lemma fmt_d_length n : (length (fmt_d n) <= 11)%nat.
Proof.
  assert (H : forall fuel m acc,
             (length (utoa fuel m acc) <= fuel + length acc)%nat).
  { induction fuel as [|fuel IH]; intros m acc; cbn [utoa]; [lia|].
    destruct (m <? 10); [simpl; lia|].
    etrans; [apply IH|]. simpl. lia. }
  unfold fmt_d. destruct (n <? 0).
  - specialize (H 10%nat (- n) []). cbn [length] in *. lia.
  - specialize (H 10%nat n []). cbn [length] in *. lia.
Qed.

(** The first character of a digit string is a digit. *)
Lemma utoa_head fuel m acc :
  0 <= m ->
  exists d tail, 0 <= d < 10 /\ utoa (S fuel) m acc = digit_char d :: tail.
Proof.
  revert m acc; induction fuel as [|fuel IH]; intros m acc Hm.
  - exists (m mod 10), acc. split; [apply Z.mod_pos_bound; lia|].
    cbn [utoa]. by destruct (m <? 10).
  - change (utoa (S (S fuel)) m acc)
      with (if m <? 10 then digit_char (m mod 10) :: acc
            else utoa (S fuel) (m / 10) (digit_char (m mod 10) :: acc)).
    destruct (m <? 10).
    + exists (m mod 10), acc. split; [apply Z.mod_pos_bound; lia|done].
    + apply IH. apply Z.div_pos; lia.
Qed.

Lemma atoi_unsigned d tail :
  0 <= d < 10 ->
  atoi (digit_char d :: tail)
  = Z.max INT_MIN (Z.min INT_MAX (atoi_digits (digit_char d :: tail) 0)).
Proof.
  intros Hd. unfold atoi. pose proof (digit_char_code d Hd) as Hc.
  assert (Hs : is_space (digit_char d) = false).
  { unfold is_space. rewrite Hc. apply orb_false_iff.
    split; [apply N.eqb_neq; lia|]. apply andb_false_iff. right.
    apply N.leb_gt. lia. }
  cbn [skip_space]. rewrite Hs.
  assert (Hne : forall c, (N_of_ascii c < 48)%N ->
                          Ascii.eqb (digit_char d) c = false).
  { intros c Hlt. apply Ascii.eqb_neq. intros E. rewrite E in Hc. lia. }
  rewrite !Hne by (vm_compute; done). done.
Qed.

(** [atoi] reads back the [int] that [%d] printed, whatever non-digit
    follows. *)
Lemma atoi_fmt_d n c r :
  int_range n -> is_digit c = false -> atoi (fmt_d n ++ c :: r) = n.
Proof.
  intros [Hlo Hhi] Hc. unfold INT_MIN, INT_MAX in *.
  assert (Hrun : forall m, 0 <= m < 10 ^ 10 ->
                 atoi_digits (utoa 10 m [] ++ c :: r) 0 = m).
  { intros m Hm. rewrite atoi_digits_utoa by (simpl; lia).
    cbn [app atoi_digits]. by rewrite Hc. }
  unfold fmt_d. destruct (n <? 0) eqn:E.
  - unfold atoi. cbn [app skip_space].
    change (is_space "-") with false. cbv iota.
    change (Ascii.eqb "-" "-") with true. cbv iota.
    rewrite Hrun by lia. unfold INT_MIN, INT_MAX. lia.
  - destruct (utoa_head 9 n [] ltac:(lia)) as (d & tail & Hd & Ht).
    rewrite Ht. cbn [app]. rewrite atoi_unsigned by done.
    change (digit_char d :: tail ++ c :: r)
      with ((digit_char d :: tail) ++ c :: r).
    rewrite <- Ht, Hrun by lia. unfold INT_MIN, INT_MAX. lia.
Qed.

End Decimal.

(** ** Searching a formatted frame *)

Section Search.

Implicit Types (v s p r : list ascii) (a b c : ascii).

Lemma strstr_skip v s c p :
  c ∉ v -> strstr (v ++ s) (c :: p) = strstr s (c :: p).
Proof.
  induction v as [|x v IH]; intros Hv; [done|].
  apply not_elem_of_cons in Hv as [Hx Hv].
  change (strstr ((x :: v) ++ s) (c :: p))
    with (if Ascii.eqb c x && is_prefix p (v ++ s)
          then Some (x :: v ++ s) else strstr (v ++ s) (c :: p)).
  apply Ascii.eqb_neq in Hx. rewrite Hx. cbn [andb]. by apply IH.
Qed.

(** A search text whose first quote is followed by [a] does not start at
    the beginning of a quote-free value that is followed by a quote and a
    character other than [a]. *)
Lemma is_prefix_value p v a b r :
  quote ∉ v -> quote_then p = Some a -> a <> b ->
  is_prefix p (v ++ quote :: b :: r) = false.
Proof.
  revert v; induction p as [|x p IH]; intros v Hv Hq Hab; [done|].
  simpl in Hq. destruct (Ascii.eqb x quote) eqn:E.
  - apply Ascii.eqb_eq in E. subst x. destruct p as [|a' p]; [done|].
    injection Hq as ->. destruct v as [|c v]; cbn [is_prefix app].
    + apply Ascii.eqb_neq in Hab. rewrite Hab. apply andb_false_r.
    + apply not_elem_of_cons in Hv as [Hc _].
      apply Ascii.eqb_neq in Hc. by rewrite Hc.
  - destruct v as [|c v]; cbn [is_prefix app].
    + by rewrite E.
    + apply not_elem_of_cons in Hv as [_ Hv].
      rewrite (IH v Hv Hq Hab). apply andb_false_r.
Qed.

Lemma strstr_skip_string v b r p a :
  quote ∉ v -> quote_then p = Some a -> a <> b ->
  strstr (quote :: v ++ quote :: b :: r) (quote :: p)
  = strstr (quote :: b :: r) (quote :: p).
Proof.
  intros Hv Hq Hab.
  change (strstr (quote :: v ++ quote :: b :: r) (quote :: p))
    with (if Ascii.eqb quote quote && is_prefix p (v ++ quote :: b :: r)
          then Some (quote :: v ++ quote :: b :: r)
          else strstr (v ++ quote :: b :: r) (quote :: p)).
  rewrite (is_prefix_value p v a b r Hv Hq Hab), andb_false_r.
  by apply strstr_skip.
Qed.

Lemma strstr_cons_false c s p :
  is_prefix p (c :: s) = false -> strstr (c :: s) p = strstr s p.
Proof. intros H. simpl. by rewrite H. Qed.

Lemma strstr_found s p : is_prefix p s = true -> strstr s p = Some s.
Proof. intros H. destruct s; simpl; by rewrite H. Qed.

End Search.

(** One step of a search through a frame made of literal text and
    quote-free values. *)
Ltac strstr_step :=
  first
    [ rewrite strstr_found by reflexivity
    | rewrite strstr_cons_false by reflexivity
    | rewrite (strstr_skip_string _ _ _ _ ":"%char)
        by (first [assumption | reflexivity | discriminate])
    | rewrite strstr_skip by assumption ].

Ltac strstr_run := strstr_norm; repeat strstr_step.

(** A string field of a formatted frame. *)
Ltac find_string :=
  eapply strstr_has_string; [strstr_run; reflexivity | assumption].

(** An integer field of a formatted frame. *)
Ltac find_int :=
  rewrite json_get_int_unfold; strstr_run; drop_norm; reflexivity.

(** ** Outbound frames read back (C2) *)

Section RoundTrip.

Implicit Types (pid t e r ch mh ca ma dead v : list ascii).

Lemma dropped_by_type stack s json ty :
  NUL ∉ json -> has_string json (lit "type") ty -> ty ∉ recognised ->
  process_message stack s json = (s, []).
Proof.
  intros Hnul Hty Hout. apply process_message_unknown; [done|].
  intros v Hv. by rewrite (has_string_inj _ _ _ _ Hv Hty).
Qed.

Lemma fmt_d_no_quote n : quote ∉ fmt_d n.
Proof. by apply fmt_d_not_in. Qed.

Lemma fmt_d_no_NUL n : NUL ∉ fmt_d n.
Proof. by apply fmt_d_not_in. Qed.

Lemma state_format_length pid t e r ch mh ca ma dead :
  length (state_format pid t e r ch mh ca ma dead)
  = (134 + length pid + length t + length e + length r + length ch
     + length mh + length ca + length ma + length dead)%nat.
Proof. unfold state_format. rewrite !length_app. simpl. lia. Qed.

(** What the lookups find in a state-update frame whose argument texts
    hold no quote. *)
Lemma state_format_lookup pid t e r ch mh ca ma dead :
  quote ∉ pid -> quote ∉ t -> quote ∉ e -> quote ∉ r -> quote ∉ ch ->
  quote ∉ mh -> quote ∉ ca -> quote ∉ ma -> quote ∉ dead ->
  let json := state_format pid t e r ch mh ca ma dead in
  has_string json (lit "participantId") pid /\
  (exists x, json_get_int json (lit "tileIndex") 0 = atoi (t ++ ","%char :: x))
  /\
  (exists x, json_get_int json (lit "elevation") 0 = atoi (e ++ ","%char :: x))
  /\
  (exists x, json_get_int json (lit "rotation") 0 = atoi (r ++ ","%char :: x))
  /\
  (exists x, json_get_int json (lit "currentHp") 0
             = atoi (ch ++ ","%char :: x)) /\
  (exists x, json_get_int json (lit "maxHp") 0 = atoi (mh ++ ","%char :: x))
  /\
  (exists x, json_get_int json (lit "currentAp") 0
             = atoi (ca ++ ","%char :: x)) /\
  (exists x, json_get_int json (lit "maxAp") 0 = atoi (ma ++ ","%char :: x))
  /\
  json_get_bool json (lit "isDead") false
  = (strncmp (skip_blanks (dead ++ lit "}")) (lit "true") 4 =? 0).
Proof.
  intros. unfold json, state_format.
  split; [find_string|].
  repeat (split; [eexists; find_int|]).
  rewrite json_get_bool_unfold. strstr_run. drop_norm. reflexivity.
Qed.

Lemma state_message_format (st : PlayerState) :
  fits 64 (PS.participant_id st) ->
  state_message st
  = state_format (cstr (PS.participant_id st))
      (fmt_d (PS.tile_index st)) (fmt_d (PS.elevation st))
      (fmt_d (PS.rotation st)) (fmt_d (PS.current_hp st))
      (fmt_d (PS.max_hp st)) (fmt_d (PS.current_ap st))
      (fmt_d (PS.max_ap st))
      (if PS.is_dead st then lit "true" else lit "false").
Proof.
  intros Hfit. unfold state_message, snprintf. cbn [fst]. apply take_ge.
  rewrite state_format_length. unfold fits in Hfit.
  pose proof (fmt_d_length (PS.tile_index st)).
  pose proof (fmt_d_length (PS.elevation st)).
  pose proof (fmt_d_length (PS.rotation st)).
  pose proof (fmt_d_length (PS.current_hp st)).
  pose proof (fmt_d_length (PS.max_hp st)).
  pose proof (fmt_d_length (PS.current_ap st)).
  pose proof (fmt_d_length (PS.max_ap st)).
  assert (length (if PS.is_dead st then lit "true" else lit "false") <= 5)%nat
    by (destruct (PS.is_dead st); simpl; lia).
  lia.
Qed.

(** A string argument that fits its array comes back whole from a
    destination of the same size. *)
Lemma string_back json key v n :
  has_string json key v -> NUL ∉ v -> (length v < n)%nat -> (0 < n)%nat ->
  cstr (get_string_into json key (zeros n) (Z.of_nat n)) = v.
Proof.
  intros Hv Hnul Hlen Hn.
  rewrite (get_string_into_value _ _ _ _ v); try done.
  - apply take_ge. lia.
  - lia.
  - unfold zeros. by rewrite length_replicate.
Qed.

Lemma state_round_trip (st : PlayerState) :
  fits 64 (PS.participant_id st) -> quote ∉ cstr (PS.participant_id st) ->
  int_range (PS.tile_index st) -> int_range (PS.elevation st) ->
  int_range (PS.rotation st) -> int_range (PS.current_hp st) ->
  int_range (PS.max_hp st) -> int_range (PS.current_ap st) ->
  int_range (PS.max_ap st) ->
  let d := decode_player_state (state_message st) in
  cstr (PS.participant_id d) = cstr (PS.participant_id st) /\
  PS.tile_index d = PS.tile_index st /\
  PS.elevation d = PS.elevation st /\
  PS.rotation d = PS.rotation st /\
  PS.current_hp d = PS.current_hp st /\
  PS.max_hp d = PS.max_hp st /\
  PS.current_ap d = PS.current_ap st /\
  PS.max_ap d = PS.max_ap st /\
  PS.is_dead d = PS.is_dead st.
Proof.
  intros Hfit Hq H1 H2 H3 H4 H5 H6 H7. cbv zeta.
  rewrite (state_message_format st Hfit).
  assert (Hdead : quote ∉ (if PS.is_dead st then lit "true" else lit "false"))
    by (destruct (PS.is_dead st); by_decide).
  destruct (state_format_lookup _ _ _ _ _ _ _ _ _ Hq
              (fmt_d_no_quote (PS.tile_index st))
              (fmt_d_no_quote (PS.elevation st))
              (fmt_d_no_quote (PS.rotation st))
              (fmt_d_no_quote (PS.current_hp st))
              (fmt_d_no_quote (PS.max_hp st))
              (fmt_d_no_quote (PS.current_ap st))
              (fmt_d_no_quote (PS.max_ap st)) Hdead)
    as (Hp & [x1 E1] & [x2 E2] & [x3 E3] & [x4 E4] & [x5 E5] & [x6 E6]
        & [x7 E7] & E8).
  unfold decode_player_state.
  cbn [PS.participant_id PS.tile_index PS.elevation PS.rotation PS.current_hp
       PS.max_hp PS.current_ap PS.max_ap PS.is_dead].
  split; [apply (string_back _ _ _ 64); [done|apply cstr_no_NUL|done|lia]|].
  rewrite E1, E2, E3, E4, E5, E6, E7, E8.
  rewrite !atoi_fmt_d by done.
  repeat (split; [done|]). by destruct (PS.is_dead st).
Qed.

Lemma ready_round_trip s :
  fits 64 (Sess.participant_id (mp_session s)) ->
  quote ∉ cstr (Sess.participant_id (mp_session s)) ->
  cstr (get_string_into (ready_message s) (lit "participantId") (zeros 64) 64)
  = cstr (Sess.participant_id (mp_session s)).
Proof.
  intros Hfit Hq. unfold ready_message, snprintf. cbn [fst].
  unfold fits in Hfit.
  set (pid := cstr (Sess.participant_id (mp_session s))) in *.
  rewrite take_ge
    by (unfold ready_format; rewrite !length_app; simpl; lia).
  apply (string_back _ _ _ 64); [|apply cstr_no_NUL|done|lia].
  unfold ready_format. find_string.
Qed.

Lemma move_round_trip stack (a : PlayerAction) :
  cstr (PA.type a) = lit "move" -> int_range (PA.target_tile a) ->
  let d := decode_remote_action (action_message stack a) in
  cstr (PA.type d) = lit "move" /\ PA.target_tile d = PA.target_tile a.
Proof.
  intros Hty Hn. cbv zeta. unfold action_message. rewrite Hty.
  change (strcmp (lit "move") (lit "move") =? 0) with true. cbv iota.
  unfold snprintf. cbn [fst]. pose proof (fmt_d_length (PA.target_tile a)).
  pose proof (fmt_d_no_quote (PA.target_tile a)) as Hq.
  rewrite take_ge
    by (unfold move_format; rewrite !length_app; simpl; lia).
  unfold decode_remote_action. cbn [PA.type PA.target_tile]. split.
  - apply (string_back _ _ _ 32); [|by_decide|simpl; lia|lia].
    unfold move_format.
    eapply strstr_has_string; [strstr_run; reflexivity|by_decide].
  - unfold move_format. rewrite json_get_int_unfold. strstr_run. drop_norm.
    by apply atoi_fmt_d.
Qed.

Lemma attack_round_trip stack (a : PlayerAction) :
  cstr (PA.type a) = lit "attack" ->
  fits 64 (PA.target_id a) -> quote ∉ cstr (PA.target_id a) ->
  fits 16 (PA.weapon_mode a) -> quote ∉ cstr (PA.weapon_mode a) ->
  fits 16 (PA.aimed_location a) -> quote ∉ cstr (PA.aimed_location a) ->
  let d := decode_remote_action (action_message stack a) in
  cstr (PA.type d) = lit "attack" /\
  cstr (PA.target_id d) = cstr (PA.target_id a) /\
  cstr (PA.weapon_mode d) = cstr (PA.weapon_mode a) /\
  cstr (PA.aimed_location d) = cstr (PA.aimed_location a).
Proof.
  intros Hty Hf1 Hq1 Hf2 Hq2 Hf3 Hq3. cbv zeta.
  unfold action_message. rewrite Hty.
  change (strcmp (lit "attack") (lit "move") =? 0) with false.
  change (strcmp (lit "attack") (lit "attack") =? 0) with true. cbv iota.
  unfold snprintf. cbn [fst]. unfold fits in *.
  pose proof (cstr_no_NUL (PA.target_id a)).
  pose proof (cstr_no_NUL (PA.weapon_mode a)).
  pose proof (cstr_no_NUL (PA.aimed_location a)).
  set (tid := cstr (PA.target_id a)) in *.
  set (wm := cstr (PA.weapon_mode a)) in *.
  set (al := cstr (PA.aimed_location a)) in *.
  rewrite take_ge
    by (unfold attack_format; rewrite !length_app; simpl; lia).
  unfold decode_remote_action.
  cbn [PA.type PA.target_id PA.weapon_mode PA.aimed_location].
  unfold attack_format. split; [|split; [|split]].
  - apply (string_back _ _ _ 32); [|by_decide|simpl; lia|lia].
    eapply strstr_has_string; [strstr_run; reflexivity|by_decide].
  - apply (string_back _ _ _ 64); [find_string|done|done|lia].
  - apply (string_back _ _ _ 16); [find_string|done|done|lia].
  - apply (string_back _ _ _ 16); [find_string|done|done|lia].
Qed.

Lemma use_item_round_trip stack (a : PlayerAction) :
  cstr (PA.type a) = lit "use-item" ->
  fits 32 (PA.item_id a) -> quote ∉ cstr (PA.item_id a) ->
  fits 64 (PA.target_id a) -> quote ∉ cstr (PA.target_id a) ->
  let d := decode_remote_action (action_message stack a) in
  cstr (PA.type d) = lit "use-item" /\
  cstr (PA.item_id d) = cstr (PA.item_id a) /\
  cstr (PA.target_id d) = cstr (PA.target_id a).
Proof.
  intros Hty Hf1 Hq1 Hf2 Hq2. cbv zeta.
  unfold action_message. rewrite Hty.
  change (strcmp (lit "use-item") (lit "move") =? 0) with false.
  change (strcmp (lit "use-item") (lit "attack") =? 0) with false.
  change (strcmp (lit "use-item") (lit "use-item") =? 0) with true. cbv iota.
  unfold snprintf. cbn [fst]. unfold fits in *.
  pose proof (cstr_no_NUL (PA.item_id a)).
  pose proof (cstr_no_NUL (PA.target_id a)).
  set (iid := cstr (PA.item_id a)) in *.
  set (tid := cstr (PA.target_id a)) in *.
  rewrite take_ge
    by (unfold use_item_format; rewrite !length_app; simpl; lia).
  unfold decode_remote_action. cbn [PA.type PA.target_id PA.item_id].
  unfold use_item_format. split; [|split].
  - apply (string_back _ _ _ 32); [|by_decide|simpl; lia|lia].
    eapply strstr_has_string; [strstr_run; reflexivity|by_decide].
  - apply (string_back _ _ _ 32); [find_string|done|done|lia].
  - apply (string_back _ _ _ 64); [find_string|done|done|lia].
Qed.

Lemma end_turn_round_trip stack (a : PlayerAction) :
  cstr (PA.type a) = lit "end-turn" ->
  cstr (PA.type (decode_remote_action (action_message stack a)))
  = lit "end-turn".
Proof.
  intros Hty. unfold action_message. rewrite Hty. vm_compute. reflexivity.
Qed.

(** Outbound frames carry types the inbound dispatch does not know. *)
Lemma state_message_dropped stack s (st : PlayerState) :
  process_message stack s (state_message st) = (s, []).
Proof.
  apply (dropped_by_type _ _ _ (lit "state-update")); [| |by_decide].
  - unfold state_message, snprintf. cbn [fst]. apply not_elem_of_take.
    unfold state_format.
    repeat (apply not_elem_of_app; split);
      try apply cstr_no_NUL; try apply fmt_d_no_NUL; try by_decide.
    destruct (PS.is_dead st); by_decide.
  - unfold state_message, snprintf, state_format. cbn [fst].
    eapply strstr_has_string; [strstr_run; reflexivity|by_decide].
Qed.

Lemma ready_message_dropped stack s s' :
  process_message stack s (ready_message s') = (s, []).
Proof.
  apply (dropped_by_type _ _ _ (lit "ready")); [| |by_decide].
  - unfold ready_message, snprintf. cbn [fst]. apply not_elem_of_take.
    unfold ready_format.
    repeat (apply not_elem_of_app; split);
      try apply cstr_no_NUL; by_decide.
  - unfold ready_message, snprintf, ready_format. cbn [fst].
    eapply strstr_has_string; [strstr_run; reflexivity|by_decide].
Qed.

Lemma action_message_dropped stack stack' s (a : PlayerAction) :
  cstr (PA.type a) ∈ action_types ->
  process_message stack s (action_message stack' a) = (s, []).
Proof.
  intros Hty. unfold action_types in Hty. rewrite !elem_of_cons in Hty.
  apply (dropped_by_type _ _ _ (lit "action")); [| |by_decide];
    unfold action_message;
    destruct Hty as [->|[->|[->|[->|Hty]]]];
    try (by apply elem_of_nil in Hty).
  - change (strcmp (lit "move") (lit "move") =? 0) with true. cbv iota.
    unfold snprintf. cbn [fst]. apply not_elem_of_take. unfold move_format.
    repeat (apply not_elem_of_app; split); try apply fmt_d_no_NUL; by_decide.
  - change (strcmp (lit "attack") (lit "move") =? 0) with false.
    change (strcmp (lit "attack") (lit "attack") =? 0) with true. cbv iota.
    unfold snprintf. cbn [fst]. apply not_elem_of_take. unfold attack_format.
    repeat (apply not_elem_of_app; split); try apply cstr_no_NUL; by_decide.
  - change (strcmp (lit "use-item") (lit "move") =? 0) with false.
    change (strcmp (lit "use-item") (lit "attack") =? 0) with false.
    change (strcmp (lit "use-item") (lit "use-item") =? 0) with true.
    cbv iota. unfold snprintf. cbn [fst]. apply not_elem_of_take.
    unfold use_item_format.
    repeat (apply not_elem_of_app; split); try apply cstr_no_NUL; by_decide.
  - by_decide.
  - change (strcmp (lit "move") (lit "move") =? 0) with true. cbv iota.
    unfold snprintf, move_format. cbn [fst].
    eapply strstr_has_string; [strstr_run; reflexivity|by_decide].
  - change (strcmp (lit "attack") (lit "move") =? 0) with false.
    change (strcmp (lit "attack") (lit "attack") =? 0) with true. cbv iota.
    unfold snprintf, attack_format. cbn [fst].
    eapply strstr_has_string; [strstr_run; reflexivity|by_decide].
  - change (strcmp (lit "use-item") (lit "move") =? 0) with false.
    change (strcmp (lit "use-item") (lit "attack") =? 0) with false.
    change (strcmp (lit "use-item") (lit "use-item") =? 0) with true.
    cbv iota. unfold snprintf, use_item_format. cbn [fst].
    eapply strstr_has_string; [strstr_run; reflexivity|by_decide].
  - apply (strstr_has_string _ _ _ (lit ",'action':'end-turn'}"));
      [vm_compute; reflexivity|by_decide].
Qed.

End RoundTrip.

(** C2 (amended): For every outbound message kind, the field lookups of
    the inbound decoders ([decode_player_state], [decode_remote_action] and
    the participant-id lookup), applied to the encoded frame, recover every
    field the message carries, empty strings, zero and negative integers
    included, provided the string fields hold no double quote.
    [process_message] itself does not decode a frame of an outbound kind:
    the types ready, state-update and action are not inbound types, and
    such a frame received back is dropped. *)
Theorem outbound_fields_read_back :
  (forall s,
     fits 64 (Sess.participant_id (mp_session s)) ->
     quote ∉ cstr (Sess.participant_id (mp_session s)) ->
     cstr (get_string_into (ready_message s) (lit "participantId")
             (zeros 64) 64)
     = cstr (Sess.participant_id (mp_session s))) /\
  (forall st : PlayerState,
     fits 64 (PS.participant_id st) -> quote ∉ cstr (PS.participant_id st) ->
     int_range (PS.tile_index st) -> int_range (PS.elevation st) ->
     int_range (PS.rotation st) -> int_range (PS.current_hp st) ->
     int_range (PS.max_hp st) -> int_range (PS.current_ap st) ->
     int_range (PS.max_ap st) ->
     let d := decode_player_state (state_message st) in
     cstr (PS.participant_id d) = cstr (PS.participant_id st) /\
     PS.tile_index d = PS.tile_index st /\
     PS.elevation d = PS.elevation st /\
     PS.rotation d = PS.rotation st /\
     PS.current_hp d = PS.current_hp st /\
     PS.max_hp d = PS.max_hp st /\
     PS.current_ap d = PS.current_ap st /\
     PS.max_ap d = PS.max_ap st /\
     PS.is_dead d = PS.is_dead st) /\
  (forall stack (a : PlayerAction),
     cstr (PA.type a) = lit "move" -> int_range (PA.target_tile a) ->
     let d := decode_remote_action (action_message stack a) in
     cstr (PA.type d) = lit "move" /\ PA.target_tile d = PA.target_tile a) /\
  (forall stack (a : PlayerAction),
     cstr (PA.type a) = lit "attack" ->
     fits 64 (PA.target_id a) -> quote ∉ cstr (PA.target_id a) ->
     fits 16 (PA.weapon_mode a) -> quote ∉ cstr (PA.weapon_mode a) ->
     fits 16 (PA.aimed_location a) -> quote ∉ cstr (PA.aimed_location a) ->
     let d := decode_remote_action (action_message stack a) in
     cstr (PA.type d) = lit "attack" /\
     cstr (PA.target_id d) = cstr (PA.target_id a) /\
     cstr (PA.weapon_mode d) = cstr (PA.weapon_mode a) /\
     cstr (PA.aimed_location d) = cstr (PA.aimed_location a)) /\
  (forall stack (a : PlayerAction),
     cstr (PA.type a) = lit "use-item" ->
     fits 32 (PA.item_id a) -> quote ∉ cstr (PA.item_id a) ->
     fits 64 (PA.target_id a) -> quote ∉ cstr (PA.target_id a) ->
     let d := decode_remote_action (action_message stack a) in
     cstr (PA.type d) = lit "use-item" /\
     cstr (PA.item_id d) = cstr (PA.item_id a) /\
     cstr (PA.target_id d) = cstr (PA.target_id a)) /\
  (forall stack (a : PlayerAction),
     cstr (PA.type a) = lit "end-turn" ->
     cstr (PA.type (decode_remote_action (action_message stack a)))
     = lit "end-turn") /\
  (forall stack s (st : PlayerState),
     process_message stack s (state_message st) = (s, [])) /\
  (forall stack s s',
     process_message stack s (ready_message s') = (s, [])) /\
  (forall stack stack' s (a : PlayerAction),
     cstr (PA.type a) ∈ action_types ->
     process_message stack s (action_message stack' a) = (s, [])).
Proof.
  split; [exact ready_round_trip|].
  split; [exact state_round_trip|].
  split; [exact move_round_trip|].
  split; [exact attack_round_trip|].
  split; [exact use_item_round_trip|].
  split; [exact end_turn_round_trip|].
  split; [exact state_message_dropped|].
  split; [exact ready_message_dropped|exact action_message_dropped].
Qed.

Lemma outbound_fields_read_back_witness :
  let d := decode_player_state (state_message boundary_state) in
  cstr (PS.participant_id d) = cstr (PS.participant_id boundary_state) /\
  PS.tile_index d = PS.tile_index boundary_state /\
  PS.elevation d = PS.elevation boundary_state /\
  PS.rotation d = PS.rotation boundary_state /\
  PS.current_hp d = PS.current_hp boundary_state /\
  PS.max_hp d = PS.max_hp boundary_state /\
  PS.current_ap d = PS.current_ap boundary_state /\
  PS.max_ap d = PS.max_ap boundary_state /\
  PS.is_dead d = PS.is_dead boundary_state.
Proof.
  apply (proj1 (proj2 outbound_fields_read_back) boundary_state).
  - vm_compute. lia.
  - by_decide.
  - vm_compute. split; discriminate.
  - vm_compute. split; discriminate.
  - vm_compute. split; discriminate.
  - vm_compute. split; discriminate.
  - vm_compute. split; discriminate.
  - vm_compute. split; discriminate.
  - vm_compute. split; discriminate.
Defined.

(** The attack of the running examples comes back field by field. *)
Example attack_read_back :
  let d := decode_remote_action (action_message stack0 sample_attack) in
  cstr (PA.type d) = lit "attack" /\
  cstr (PA.target_id d) = lit "p2" /\
  cstr (PA.weapon_mode d) = lit "burst" /\
  cstr (PA.aimed_location d) = [].
Proof. vm_compute. done. Qed.

(** C2 as stated fails: a state-update frame handed to [process_message]
    is dropped, the registered player-state handler is not called and no
    field is recovered; and a participant id that holds a double quote is
    read back cut at the quote. *)
Lemma outbound_round_trip_counterexample :
  process_message stack0
    (mp_set_player_state_callback (Some 1%nat) active_p1)
    (state_message sample_state)
  = (mp_set_player_state_callback (Some 1%nat) active_p1, []) /\
  cstr (PS.participant_id quoted_state) = [ "a"%char; quote; "b"%char ] /\
  cstr (PS.participant_id (decode_player_state (state_message quoted_state)))
  = [ "a"%char ].
Proof. vm_compute. done. Qed.

(** * Further properties of the interface *)

(** ** Initialisation *)

Section Init.

Implicit Types (argv : list (list ascii)) (a : init_args) (s : mp_state).

Lemma pairs_ind (P : list (list ascii) -> Prop) :
  P [] -> (forall x, P [x]) ->
  (forall x y l, P l -> P (y :: l) -> P (x :: y :: l)) ->
  forall l, P l.
Proof.
  intros H0 H1 H2.
  assert (H : forall l, P l /\ forall x, P (x :: l)).
  { induction l as [|y l [IH1 IH2]]; [by split|].
    split; [apply IH2|]. intros x. apply H2; [done|apply IH2]. }
  intros l. apply H.
Qed.

Lemma strcmp_ne x y : x <> y -> (strcmp x y =? 0) = false.
Proof. intros H. rewrite strcmp_eqb. by apply bool_decide_eq_false. Qed.

Lemma parse_args_step x y l a :
  parse_args (x :: y :: l) a =
  if strcmp x (lit "-multiplayer") =? 0 then
    parse_args (y :: l)
      (mk_args true (arg_pipe_name a) (arg_session_id a)
         (arg_participant_id a))
  else if strcmp x (lit "-pipe") =? 0 then
    parse_args l
      (mk_args (has_multiplayer_flag a) (Some y) (arg_session_id a)
         (arg_participant_id a))
  else if strcmp x (lit "-session") =? 0 then
    parse_args l
      (mk_args (has_multiplayer_flag a) (arg_pipe_name a) (Some y)
         (arg_participant_id a))
  else if strcmp x (lit "-player") =? 0 then
    parse_args l
      (mk_args (has_multiplayer_flag a) (arg_pipe_name a)
         (arg_session_id a) (Some y))
  else parse_args (y :: l) a.
Proof. done. Qed.

(** An option that never appears among the arguments is never set. *)
Lemma parse_args_no_flag argv a :
  lit "-multiplayer" ∉ argv ->
  has_multiplayer_flag (parse_args argv a) = has_multiplayer_flag a.
Proof.
  revert a. induction argv as [|x|x y l IH1 IH2] using pairs_ind;
    intros a Hno; [done|..].
  - apply not_elem_of_cons in Hno as [Hx _]. simpl.
    by rewrite (strcmp_ne x) by done.
  - apply not_elem_of_cons in Hno as [Hx Hno].
    pose proof Hno as Hl. apply not_elem_of_cons in Hl as [_ Hl].
    rewrite parse_args_step. rewrite (strcmp_ne x) by done.
    repeat (destruct (strcmp x _ =? 0); [by rewrite IH1|]).
    by apply IH2.
Qed.

Lemma parse_args_no_pipe argv a :
  lit "-pipe" ∉ argv -> arg_pipe_name (parse_args argv a) = arg_pipe_name a.
Proof.
  revert a. induction argv as [|x|x y l IH1 IH2] using pairs_ind;
    intros a Hno; [done|..].
  - simpl. by destruct (strcmp x _ =? 0).
  - apply not_elem_of_cons in Hno as [Hx Hno].
    pose proof Hno as Hl. apply not_elem_of_cons in Hl as [_ Hl].
    rewrite parse_args_step. destruct (strcmp x (lit "-multiplayer") =? 0);
      [by rewrite IH2|].
    rewrite (strcmp_ne x (lit "-pipe")) by done.
    repeat (destruct (strcmp x _ =? 0); [by rewrite IH1|]).
    by apply IH2.
Qed.

Lemma parse_args_no_session argv a :
  lit "-session" ∉ argv ->
  arg_session_id (parse_args argv a) = arg_session_id a.
Proof.
  revert a. induction argv as [|x|x y l IH1 IH2] using pairs_ind;
    intros a Hno; [done|..].
  - simpl. by destruct (strcmp x _ =? 0).
  - apply not_elem_of_cons in Hno as [Hx Hno].
    pose proof Hno as Hl. apply not_elem_of_cons in Hl as [_ Hl].
    rewrite parse_args_step. destruct (strcmp x (lit "-multiplayer") =? 0);
      [by rewrite IH2|].
    rewrite (strcmp_ne x (lit "-session")) by done.
    repeat (destruct (strcmp x _ =? 0); [by rewrite IH1|]).
    by apply IH2.
Qed.

Lemma parse_args_no_player argv a :
  lit "-player" ∉ argv ->
  arg_participant_id (parse_args argv a) = arg_participant_id a.
Proof.
  revert a. induction argv as [|x|x y l IH1 IH2] using pairs_ind;
    intros a Hno; [done|..].
  - simpl. by destruct (strcmp x _ =? 0).
  - apply not_elem_of_cons in Hno as [Hx Hno].
    pose proof Hno as Hl. apply not_elem_of_cons in Hl as [_ Hl].
    rewrite parse_args_step. destruct (strcmp x (lit "-multiplayer") =? 0);
      [by rewrite IH2|].
    rewrite (strcmp_ne x (lit "-player")) by done.
    repeat (destruct (strcmp x _ =? 0); [by rewrite IH1|]).
    by apply IH2.
Qed.

(** X1: Without the [-multiplayer] argument, or without one of [-pipe],
    [-session] and [-player], [mp_init] returns false, leaves the whole
    state as it was and touches no pipe: its only effect is one debug
    line. *)
Theorem mp_init_refuses :
  (forall argv wait_ok opened w s,
     lit "-multiplayer" ∉ tail argv ->
     mp_init argv wait_ok opened w s
     = (false, s,
        [EDebug (lit "Multiplayer: Not running in multiplayer mode"
                 ++ [newline])])) /\
  (forall argv wait_ok opened w s,
     lit "-pipe" ∉ tail argv \/ lit "-session" ∉ tail argv
     \/ lit "-player" ∉ tail argv ->
     exists msg, mp_init argv wait_ok opened w s = (false, s, [EDebug msg])).
Proof.
  split.
  - intros argv wait_ok opened w s Hno. unfold mp_init.
    by rewrite (parse_args_no_flag _ _ Hno).
  - intros argv wait_ok opened w s Hno. unfold mp_init.
    set (a := parse_args (tail argv) (mk_args false None None None)).
    destruct (negb (has_multiplayer_flag a)); [by eexists|].
    assert (Hnone : arg_pipe_name a = None \/ arg_session_id a = None
                    \/ arg_participant_id a = None).
    { destruct Hno as [H|[H|H]].
      - left. unfold a. by rewrite (parse_args_no_pipe _ _ H).
      - right; left. unfold a. by rewrite (parse_args_no_session _ _ H).
      - right; right. unfold a. by rewrite (parse_args_no_player _ _ H). }
    destruct (arg_pipe_name a), (arg_session_id a), (arg_participant_id a);
      try (by eexists); by destruct Hnone as [?|[?|?]].
Qed.

Lemma mp_init_refuses_witness :
  exists msg,
    mp_init [lit "game"; lit "-multiplayer"; lit "-pipe"; lit "p";
             lit "-player"; lit "p1"]
      true 7 (mk_write true 0) initial_state
    = (false, initial_state, [EDebug msg]).
Proof.
  apply (proj2 mp_init_refuses). right; left. by_decide.
Defined.

End Init.

Section Connect.

Implicit Types (s : mp_state) (pipe session player dst src : list ascii).

Lemma strncpy_shape dst src n :
  length dst = S n -> dst !! n = Some NUL ->
  length (strncpy dst src n) = S n /\ strncpy dst src n !! n = Some NUL.
Proof.
  intros Hl Hn. unfold strncpy.
  assert (Hk : length (take n src ++ replicate (n - length src) NUL) = n).
  { rewrite length_app, length_take, length_replicate. lia. }
  rewrite app_assoc. split.
  - rewrite length_app, Hk, length_drop. lia.
  - rewrite lookup_app_r by lia. rewrite Hk, Nat.sub_diag, lookup_drop.
    by rewrite Nat.add_0_r.
Qed.

Lemma strncpy_cstr_take dst src n :
  NUL ∉ src -> length dst = S n -> dst !! n = Some NUL ->
  cstr (strncpy dst src n) = take n src.
Proof.
  intros Hnul Hl Hn. unfold strncpy. rewrite (drop_S _ _ _ Hn).
  destruct (n - length src)%nat; simpl;
    by apply cstr_app, not_elem_of_take.
Qed.

(** A text that fits the 4096-character buffer is written whole, followed
    by the delimiter, in one write; the result is true exactly when the
    write succeeded and took every byte. *)
Lemma send_message_writes w s json :
  pipe_handle s <> INVALID_HANDLE_VALUE -> (length json < 4095)%nat ->
  send_message w s json
  = (write_ok w && (written w =? strlen json + 1),
     [EWriteFile (pipe_handle s) (json ++ [newline])]).
Proof.
  intros Hh Hlen. unfold send_message.
  destruct (pipe_handle s =? INVALID_HANDLE_VALUE) eqn:E; [lia|].
  unfold snprintf, strlen.
  assert (Hl : length (json ++ [newline]) = S (length json))
    by (rewrite length_app; simpl; lia).
  rewrite Hl, Nat2Z.id.
  rewrite (take_ge (json ++ [newline])) by (unfold MSG_BUFFER_SIZE; lia).
  rewrite take_app_le by lia. rewrite take_ge by lia.
  do 3 f_equal. lia.
Qed.

Lemma parse_launcher_argv pipe session player :
  parse_args (tail (launcher_argv pipe session player))
    (mk_args false None None None)
  = mk_args true (Some pipe) (Some session) (Some player).
Proof. done. Qed.

Lemma ready_message_text s :
  fits 64 (Sess.participant_id (mp_session s)) ->
  ready_message s = ready_format (cstr (Sess.participant_id (mp_session s))).
Proof.
  intros Hfit. unfold ready_message, snprintf. cbn [fst]. apply take_ge.
  unfold ready_format. rewrite !length_app. unfold fits in Hfit. simpl. lia.
Qed.

(** X2: Started with [-multiplayer -pipe P -session S -player ID], a
    successful wait and a valid handle, [mp_init] returns true whatever the
    write of the handshake returns: the session is active on the opened
    handle, the three identifiers are stored cut to their arrays (63, 63 and
    255 characters), and the pipe sees the wait, the open, the mode switch
    and one write of the ready frame for the stored participant id followed
    by a newline. *)
Theorem mp_init_connects :
  forall pipe session player opened w s,
    session_ok s -> NUL ∉ pipe -> NUL ∉ session -> NUL ∉ player ->
    opened <> INVALID_HANDLE_VALUE ->
    exists s',
      mp_init (launcher_argv pipe session player) true opened w s
      = (true, s',
         [EWaitNamedPipe pipe 5000; ECreateFile pipe; ESetPipeMode opened;
          EWriteFile opened (ready_format (take 63 player) ++ [newline]);
          EDebug (lit "Multiplayer: Initialized successfully" ++ [newline])])
      /\ mp_active s' = true /\ pipe_handle s' = opened
      /\ cstr (Sess.session_id (mp_session s')) = take 63 session
      /\ cstr (Sess.participant_id (mp_session s')) = take 63 player
      /\ cstr (Sess.pipe_name (mp_session s')) = take 255 pipe
      /\ session_ok s'
      /\ is_my_turn s' = is_my_turn s
      /\ current_turn_player s' = current_turn_player s
      /\ msg_buffer s' = msg_buffer s /\ msg_buffer_pos s' = msg_buffer_pos s.
Proof.
  intros pipe session player opened w s
    ((Hs1 & Hs2) & (Hp1 & Hp2) & (Hn1 & Hn2)) Hpipe Hses Hpl Hop.
  unfold mp_init. rewrite parse_launcher_argv. cbn [has_multiplayer_flag
    arg_pipe_name arg_session_id arg_participant_id negb].
  unfold connect_to_pipe. cbn [negb pipe_handle set_handle set_session].
  assert (E : (opened =? INVALID_HANDLE_VALUE) = false) by lia.
  rewrite E. cbn [negb].
  set (ses := Sess.mk _ _ _ _).
  set (s3 := set_active true _).
  assert (Hpid : cstr (Sess.participant_id (mp_session s3)) = take 63 player)
    by (by apply strncpy_cstr_take).
  assert (Hfit : fits 64 (Sess.participant_id (mp_session s3))).
  { unfold fits. rewrite Hpid, length_take. lia. }
  rewrite send_message_writes; [|done|].
  - rewrite (ready_message_text s3 Hfit), Hpid.
    exists s3. split; [done|]. split; [done|]. split; [done|].
    split; [by apply strncpy_cstr_take|]. split; [done|].
    split; [by apply strncpy_cstr_take|].
    split; [|done].
    repeat split; by apply strncpy_shape.
  - rewrite (ready_message_text s3 Hfit), Hpid. unfold ready_format.
    assert (Hv : (length (take 63 player) <= 63)%nat)
      by (rewrite length_take; lia).
    revert Hv. generalize (take 63 player). intros v Hv.
    rewrite !length_app. simpl. lia.
Qed.

Lemma session_ok_initial : session_ok initial_state.
Proof. repeat split. Qed.

Lemma mp_init_connects_witness :
  exists s',
    mp_init (launcher_argv (lit "pipe0") (lit "s1") (lit "p1")) true 7
      (mk_write false 0) initial_state
    = (true, s',
       [EWaitNamedPipe (lit "pipe0") 5000; ECreateFile (lit "pipe0");
        ESetPipeMode 7;
        EWriteFile 7 (ready_format (take 63 (lit "p1")) ++ [newline]);
        EDebug (lit "Multiplayer: Initialized successfully" ++ [newline])])
    /\ mp_active s' = true /\ pipe_handle s' = 7
    /\ cstr (Sess.session_id (mp_session s')) = take 63 (lit "s1")
    /\ cstr (Sess.participant_id (mp_session s')) = take 63 (lit "p1")
    /\ cstr (Sess.pipe_name (mp_session s')) = take 255 (lit "pipe0")
    /\ session_ok s'
    /\ is_my_turn s' = is_my_turn initial_state
    /\ current_turn_player s' = current_turn_player initial_state
    /\ msg_buffer s' = msg_buffer initial_state
    /\ msg_buffer_pos s' = msg_buffer_pos initial_state.
Proof.
  apply mp_init_connects.
  - exact session_ok_initial.
  - by_decide.
  - by_decide.
  - by_decide.
  - discriminate.
Defined.



End Connect.

(** ** Invariants of every reachable state *)

Section Reachable.

Implicit Types (s : mp_state) (stack bytes : list ascii).








End Reachable.

(** ** Polling *)

Section Poll.

Implicit Types (s : mp_state) (stack json v f : list ascii) (r : read_result).

(** X5: [mp_poll_message] returns true exactly when the session is
    active, the handle is valid, the peek succeeds with a count other than
    zero and the read succeeds.  When it returns false the state is the one
    it was given and nothing is read into the buffer; when it returns true
    the first 1023 characters read went through the receive loop, and this
    is so even when no complete frame was among them. *)
Theorem mp_poll_message_result :
  forall stack r s,
    let ready :=
      mp_active s && negb (pipe_handle s =? INVALID_HANDLE_VALUE)
      && peek_ok r && negb (available r =? 0) && read_ok r in
    fst (fst (mp_poll_message stack r s)) = ready /\
    (ready = false ->
     snd (fst (mp_poll_message stack r s)) = s /\
     frames_of (snd (mp_poll_message stack r s)) = []) /\
    (ready = true ->
     snd (fst (mp_poll_message stack r s))
       = fst (receive_bytes stack s (take 1023 (read_bytes r))) /\
     snd (mp_poll_message stack r s)
       = [EPeek (pipe_handle s); EReadFile (pipe_handle s) 1023]
         ++ snd (receive_bytes stack s (take 1023 (read_bytes r)))) /\
    (ready = true -> buffer_ok s -> newline ∉ read_bytes r ->
     frames_of (snd (mp_poll_message stack r s)) = []).
Proof.
  intros stack r s ready. unfold ready, mp_poll_message, receive_messages.
  destruct (mp_active s); cbn [negb andb]; [|by repeat split].
  destruct (pipe_handle s =? INVALID_HANDLE_VALUE); cbn [negb andb];
    [by repeat split|].
  destruct (peek_ok r); cbn [negb andb orb]; [|by repeat split].
  destruct (available r =? 0); cbn [negb andb orb]; [by repeat split|].
  destruct (read_ok r); cbn [negb andb orb]; [|by repeat split].
  destruct (receive_bytes stack s (take 1023 (read_bytes r))) as [s' evs] eqn:E.
  cbn [fst snd]. split; [done|]. split; [done|]. split; [done|].
  intros _ Hok Hnl.
  destruct (receive_bytes_no_newline stack (take 1023 (read_bytes r)) s)
    as (b & p & E' & _); [by apply not_elem_of_take|done|].
  rewrite E' in E. by injection E as <- <-.
Qed.

Lemma mp_poll_message_result_witness :
  frames_of (snd (mp_poll_message stack0
                    (mk_read true 5 true (lit "{'typ")) active_p1)) = [].
Proof.
  apply (proj2 (proj2 (proj2 (mp_poll_message_result stack0
           (mk_read true 5 true (lit "{'typ")) active_p1)))).
  - reflexivity.
  - split; [reflexivity|]. vm_compute. split; discriminate.
  - by_decide.
Defined.

(** X6: On an empty frame buffer, a line is handed to [process_message]
    as the characters before its first NUL among its first 4095
    characters, an empty line is not handed over, and the buffer is
    empty again afterwards. *)
Theorem receive_line_cut :
  forall stack s f,
    buffer_ok s -> msg_buffer_pos s = 0 -> newline ∉ f ->
    frames_of (snd (receive_bytes stack s (f ++ [newline])))
      = (if decide (f = []) then [] else [cstr (take 4095 f)]) /\
    msg_buffer_pos (fst (receive_bytes stack s (f ++ [newline]))) = 0.
Proof.
  intros stack s f Hok Hpos Hnl.
  destruct (receive_line stack s f Hnl Hok) as (b & Hb & ->). cbv zeta.
  assert (Hpend : pending s = []) by (unfold pending; by rewrite Hpos).
  rewrite Hpend. cbn [app].
  destruct (decide (f = [])); [done|]. cbn [fst snd app].
  split; [|done].
  by rewrite frames_of_cons_frame, frames_of_process_message.
Qed.

Lemma receive_line_cut_witness :
  frames_of (snd (receive_bytes stack0 initial_state
                    ((lit "ab" ++ NUL :: lit "cd") ++ [newline])))
  = (if decide (lit "ab" ++ NUL :: lit "cd" = []) then []
     else [cstr (take 4095 (lit "ab" ++ NUL :: lit "cd"))]) /\
  msg_buffer_pos (fst (receive_bytes stack0 initial_state
                         ((lit "ab" ++ NUL :: lit "cd") ++ [newline]))) = 0.
Proof.
  apply receive_line_cut.
  - split; [reflexivity|]. vm_compute. split; discriminate.
  - reflexivity.
  - by_decide.
Defined.

(** X7: One poll that reads a whole turn-start line on an empty buffer
    returns true, hands the line to [process_message] once, calls the
    registered turn-start handler (if any) with the participant id cut to
    63 characters and the time limit, and leaves [mp_is_my_turn] true
    exactly when that id is the session's participant id. *)
Theorem poll_turn_start :
  forall stack r s json v,
    mp_active s = true -> pipe_handle s <> INVALID_HANDLE_VALUE ->
    peek_ok r = true -> available r <> 0 -> read_ok r = true ->
    read_bytes r = json ++ [newline] -> (length json < 1023)%nat ->
    newline ∉ json -> NUL ∉ json ->
    buffer_ok s -> msg_buffer_pos s = 0 -> turn_ok s ->
    length stack = 64%nat ->
    has_string json (lit "type") (lit "turn-start") ->
    has_string json (lit "participantId") v ->
    let res := mp_poll_message stack r s in
    fst (fst res) = true /\
    snd res
      = [EPeek (pipe_handle s); EReadFile (pipe_handle s) 1023;
         EProcessMessage json]
        ++ call_slot (on_turn_start s)
             (fun cb => ECallTurnStart cb (take 63 v)
                          (json_get_int json (lit "timeLimit") 30)) /\
    mp_is_my_turn (snd (fst res))
      = bool_decide (take 63 v = cstr (Sess.participant_id (mp_session s))) /\
    mp_get_current_turn_player (snd (fst res))
      = (if decide (take 63 v = []) then None else Some (take 63 v)) /\
    msg_buffer_pos (snd (fst res)) = 0.
Proof.
  intros stack r s json v Hact Hh Hpeek Hav Hread Hbytes Hlen Hnl Hnul
    Hok Hpos [Htl Htn] Hstack Hty Hv res.
  assert (Hne : json <> []).
  { intros ->. destruct Hty as (pre & rest & [E _] & _).
    by destruct pre. }
  unfold res, mp_poll_message, receive_messages.
  rewrite Hact, Hpeek, Hread. cbn [negb orb].
  destruct (pipe_handle s =? INVALID_HANDLE_VALUE) eqn:E; [lia|].
  destruct (available r =? 0) eqn:E'; [lia|].
  rewrite Hbytes, take_ge by (rewrite length_app; simpl; lia).
  destruct (receive_line stack s json Hnl Hok) as (b & Hb & ->). cbv zeta.
  assert (Hpend : pending s = []) by (unfold pending; by rewrite Hpos).
  rewrite Hpend. cbn [app]. rewrite decide_False by done.
  rewrite take_ge by lia. rewrite cstr_id by done.
  rewrite (process_message_turn_start _ _ _ v) by done.
  cbn [fst snd app]. split; [done|]. split; [done|].
  assert (Hvn : NUL ∉ take 63 v)
    by (by apply not_elem_of_take, (has_string_sub json (lit "participantId"))).
  assert (Hc : cstr (strncpy (current_turn_player s) (take 63 v) 63)
               = take 63 v).
  { apply strncpy_cstr; [rewrite length_take; lia|done..]. }
  split; [|split; [|done]].
  - unfold mp_is_my_turn. simpl. by rewrite Hact.
  - rewrite mp_get_current_turn_player_cstr. simpl. rewrite Hc.
    by destruct (take 63 v).
Qed.

Lemma poll_turn_start_witness :
  let json := lit "{'type':'turn-start','participantId':'p1','timeLimit':45}" in
  let res :=
    mp_poll_message stack0 (mk_read true 58 true (json ++ [newline]))
      (mp_set_turn_start_callback (Some 3%nat) active_p1) in
  fst (fst res) = true /\
  snd res
    = [EPeek 7; EReadFile 7 1023; EProcessMessage json]
      ++ call_slot (Some 3%nat)
           (fun cb => ECallTurnStart cb (take 63 (lit "p1"))
                        (json_get_int json (lit "timeLimit") 30)) /\
  mp_is_my_turn (snd (fst res))
    = bool_decide (take 63 (lit "p1") = cstr (Sess.participant_id
        (mp_session (mp_set_turn_start_callback (Some 3%nat) active_p1)))) /\
  mp_get_current_turn_player (snd (fst res))
    = (if decide (take 63 (lit "p1") = []) then None
       else Some (take 63 (lit "p1"))) /\
  msg_buffer_pos (snd (fst res)) = 0.
Proof.
  apply (poll_turn_start stack0
           (mk_read true 58 true
              (lit "{'type':'turn-start','participantId':'p1','timeLimit':45}"
               ++ [newline]))
           (mp_set_turn_start_callback (Some 3%nat) active_p1)
           (lit "{'type':'turn-start','participantId':'p1','timeLimit':45}")
           (lit "p1")).
  - reflexivity.
  - discriminate.
  - reflexivity.
  - discriminate.
  - reflexivity.
  - reflexivity.
  - vm_compute. lia.
  - by_decide.
  - by_decide.
  - split; [reflexivity|]. vm_compute. split; discriminate.
  - reflexivity.
  - split; reflexivity.
  - reflexivity.
  - apply (strstr_has_string _ _ _ (lit ",'participantId':'p1','timeLimit':45}"));
      [vm_compute; reflexivity|by_decide].
  - apply (strstr_has_string _ _ _ (lit ",'timeLimit':45}"));
      [vm_compute; reflexivity|by_decide].
Defined.

End Poll.

(** ** The lookups on missing and malformed fields *)

Section Defaults.

Implicit Types (json key rest out v : list ascii) (c : ascii).

Lemma occurs_app_l p q json : occurs (p ++ q) json -> occurs p json.
Proof.
  intros (pre & rest & ->). exists pre, (q ++ rest). by rewrite <- app_assoc.
Qed.

Lemma string_search_value_search key :
  (length key <= 59)%nat -> string_search key = value_search key ++ [quote].
Proof.
  intros Hlen. unfold string_search, value_search.
  rewrite !take_ge by (simpl; rewrite length_app; simpl; lia).
  simpl. by rewrite <- app_assoc.
Qed.

Lemma get_string_into_absent json key out n :
  (length key <= 59)%nat -> ~ occurs (value_search key) json ->
  get_string_into json key out n = out.
Proof.
  intros Hlen Hno. unfold get_string_into.
  rewrite json_get_string_absent; [done|].
  rewrite string_search_value_search by done.
  intros H. by apply Hno, (occurs_app_l _ [quote]).
Qed.

Lemma json_get_int_absent json key d :
  ~ occurs (value_search key) json -> json_get_int json key d = d.
Proof.
  intros H. rewrite json_get_int_unfold. by rewrite (strstr_absent _ _ H).
Qed.

Lemma json_get_int_value json key d rest :
  has_value json key rest -> json_get_int json key d = atoi rest.
Proof.
  intros [pre H]. rewrite json_get_int_unfold.
  by rewrite (strstr_first _ _ _ _ H), drop_app_length.
Qed.

(** X8: The integer lookup returns the caller's default when the search
    text ["<key>":] does not occur; when an [int] printed by [%d] follows
    its first occurrence, with a non-digit next, the lookup returns that
    [int]; and when the text after it starts with a character that is no
    digit, sign or white space, the lookup returns 0, not the default. *)
Theorem json_get_int_lookup :
  (forall json key d,
     ~ occurs (value_search key) json -> json_get_int json key d = d) /\
  (forall json key d n c rest,
     has_value json key (fmt_d n ++ c :: rest) ->
     int_range n -> is_digit c = false ->
     json_get_int json key d = n) /\
  (forall json key d c rest,
     has_value json key (c :: rest) ->
     is_digit c = false -> is_space c = false ->
     c <> "-"%char -> c <> "+"%char ->
     json_get_int json key d = 0).
Proof.
  split; [exact json_get_int_absent|]. split.
  - intros json key d n c rest Hv Hn Hc.
    rewrite (json_get_int_value _ _ _ _ Hv). by apply atoi_fmt_d.
  - intros json key d c rest Hv Hd Hs Hm Hp.
    rewrite (json_get_int_value _ _ _ _ Hv). unfold atoi.
    cbn [skip_space]. rewrite Hs.
    apply Ascii.eqb_neq in Hm, Hp. rewrite Hm, Hp.
    cbn [atoi_digits]. by rewrite Hd.
Qed.

Lemma json_get_int_lookup_witness :
  json_get_int (lit "{'timeLimit':-45,'x':1}") (lit "timeLimit") 30 = -45.
Proof.
  apply (proj1 (proj2 json_get_int_lookup) _ _ _ (-45) ","%char
           (lit "'x':1}")).
  - exists (lit "{"). apply strstr_first_at; vm_compute; reflexivity.
  - vm_compute. split; discriminate.
  - reflexivity.
Defined.

(** X9: A player-state frame that holds none of the nine keys decodes to
    the zero-filled state (empty id, all integers 0, not dead), and a
    remote-action frame that holds none of the six keys decodes to the
    zero-filled action: missing fields fall back to their defaults. *)
Theorem decode_missing_fields :
  (forall json,
     (forall key, key ∈ player_state_keys ->
                  ~ occurs (value_search key) json) ->
     decode_player_state json = PS.mk (zeros 64) 0 0 0 0 0 0 0 false) /\
  (forall json,
     (forall key, key ∈ remote_action_keys ->
                  ~ occurs (value_search key) json) ->
     decode_remote_action json
     = PA.mk (zeros 32) 0 (zeros 64) (zeros 16) (zeros 16) (zeros 32)).
Proof.
  split.
  - intros json H. unfold decode_player_state.
    rewrite get_string_into_absent;
      [|vm_compute; lia|apply H; unfold player_state_keys; in_list].
    rewrite !json_get_int_absent
      by (apply H; unfold player_state_keys; in_list).
    rewrite json_get_bool_unfold, strstr_absent; [done|].
    apply H. unfold player_state_keys. in_list.
  - intros json H. unfold decode_remote_action.
    rewrite !get_string_into_absent;
      try (vm_compute; lia);
      try (apply H; unfold remote_action_keys; in_list).
    rewrite json_get_int_absent; [done|].
    apply H. unfold remote_action_keys. in_list.
Qed.

Lemma decode_missing_fields_witness :
  decode_player_state (lit "{'type':'player-state'}")
  = PS.mk (zeros 64) 0 0 0 0 0 0 0 false.
Proof.
  apply (proj1 decode_missing_fields). intros key Hkey.
  apply strstr_None. unfold player_state_keys in Hkey.
  rewrite !elem_of_cons in Hkey.
  destruct Hkey as [->|[->|[->|[->|[->|[->|[->|[->|[->|Hkey]]]]]]]]];
    [vm_compute; reflexivity..|].
  by apply elem_of_nil in Hkey.
Defined.

(** X10: The string lookup returns a pointer exactly when the frame
    carries a value for the key, that is, when the first occurrence of
    the search text (the quoted key, a colon, an opening quote) is
    followed somewhere by a closing quote; a key that is absent or whose
    value is not closed yields the null pointer. *)
Theorem json_get_string_found_iff :
  forall json key out out_size,
    (exists out', json_get_string json key out out_size = Some out') <->
    (exists v, has_string json key v).
Proof.
  intros json key out n. split.
  - intros [out' E]. by eapply json_get_string_Some.
  - intros (v & pre & rest & Hfirst & Hv). rewrite json_get_string_unfold.
    rewrite (strstr_first _ _ _ _ Hfirst). cbv zeta.
    rewrite drop_app_length, (strchr_app _ _ _ Hv). by eexists.
Qed.

End Defaults.

(** ** Sending *)

Section Wire.

Implicit Types (s : mp_state) (stack : list ascii) (w : write_result).

Lemma snprintf_length n (x : list ascii) :
  (length (fst (snprintf n x)) <= n - 1)%nat.
Proof. unfold snprintf. cbn [fst]. rewrite length_take. lia. Qed.

Lemma action_message_length stack (a : PlayerAction) :
  cstr (PA.type a) ∈ action_types ->
  (length (action_message stack a) <= 511)%nat.
Proof.
  intros Hty. unfold action_types in Hty. rewrite !elem_of_cons in Hty.
  unfold action_message.
  destruct Hty as [->|[->|[->|[->|Hty]]]];
    [apply (snprintf_length 512)..|by apply elem_of_nil in Hty].
Qed.

Lemma move_message_text stack (a : PlayerAction) :
  cstr (PA.type a) = lit "move" ->
  action_message stack a = move_format (fmt_d (PA.target_tile a)).
Proof.
  intros Hty. unfold action_message. rewrite Hty.
  change (strcmp (lit "move") (lit "move") =? 0) with true. cbv iota.
  unfold snprintf. cbn [fst]. pose proof (fmt_d_length (PA.target_tile a)).
  apply take_ge. unfold move_format. rewrite !length_app. simpl. lia.
Qed.

Lemma attack_message_text stack (a : PlayerAction) :
  cstr (PA.type a) = lit "attack" ->
  fits 64 (PA.target_id a) -> fits 16 (PA.weapon_mode a) ->
  fits 16 (PA.aimed_location a) ->
  action_message stack a
  = attack_format (cstr (PA.target_id a)) (cstr (PA.weapon_mode a))
      (cstr (PA.aimed_location a)).
Proof.
  intros Hty H1 H2 H3. unfold action_message. rewrite Hty.
  change (strcmp (lit "attack") (lit "move") =? 0) with false.
  change (strcmp (lit "attack") (lit "attack") =? 0) with true. cbv iota.
  unfold snprintf. cbn [fst]. unfold fits in *.
  apply take_ge. unfold attack_format. rewrite !length_app. simpl. lia.
Qed.

Lemma use_item_message_text stack (a : PlayerAction) :
  cstr (PA.type a) = lit "use-item" ->
  fits 32 (PA.item_id a) -> fits 64 (PA.target_id a) ->
  action_message stack a
  = use_item_format (cstr (PA.item_id a)) (cstr (PA.target_id a)).
Proof.
  intros Hty H1 H2. unfold action_message. rewrite Hty.
  change (strcmp (lit "use-item") (lit "move") =? 0) with false.
  change (strcmp (lit "use-item") (lit "attack") =? 0) with false.
  change (strcmp (lit "use-item") (lit "use-item") =? 0) with true.
  cbv iota. unfold snprintf. cbn [fst]. unfold fits in *.
  apply take_ge. unfold use_item_format. rewrite !length_app. simpl. lia.
Qed.

Lemma mp_send_state_writes w s (st : PlayerState) :
  mp_active s = true -> pipe_handle s <> INVALID_HANDLE_VALUE ->
  mp_send_state w s (Some st)
  = (s, [EWriteFile (pipe_handle s) (state_message st ++ [newline])]).
Proof.
  intros Hact Hh. unfold mp_send_state. rewrite Hact. cbn [negb].
  rewrite send_message_writes; [done..|].
  pose proof (snprintf_length 512 (state_format
    (cstr (PS.participant_id st)) (fmt_d (PS.tile_index st))
    (fmt_d (PS.elevation st)) (fmt_d (PS.rotation st))
    (fmt_d (PS.current_hp st)) (fmt_d (PS.max_hp st))
    (fmt_d (PS.current_ap st)) (fmt_d (PS.max_ap st))
    (if PS.is_dead st then lit "true" else lit "false"))) as H.
  unfold state_message. lia.
Qed.

Lemma mp_send_action_writes stack w s (a : PlayerAction) :
  mp_active s = true -> pipe_handle s <> INVALID_HANDLE_VALUE ->
  cstr (PA.type a) ∈ action_types ->
  mp_send_action stack w s (Some a)
  = (s, [EWriteFile (pipe_handle s) (action_message stack a ++ [newline])]).
Proof.
  intros Hact Hh Hty. unfold mp_send_action. rewrite Hact. cbn [negb].
  rewrite send_message_writes; [done..|].
  pose proof (action_message_length stack a Hty). lia.
Qed.

(** X11: On an active session with a valid handle every send is one
    write of one line: the formatted text, never cut by the 512-character
    array when the string fields are terminated strings within their
    arrays, followed by a single newline; the state is not changed. *)
Theorem outbound_wire_format :
  (forall w s (st : PlayerState),
     mp_active s = true -> pipe_handle s <> INVALID_HANDLE_VALUE ->
     fits 64 (PS.participant_id st) ->
     mp_send_state w s (Some st)
     = (s, [EWriteFile (pipe_handle s)
              (state_format (cstr (PS.participant_id st))
                 (fmt_d (PS.tile_index st)) (fmt_d (PS.elevation st))
                 (fmt_d (PS.rotation st)) (fmt_d (PS.current_hp st))
                 (fmt_d (PS.max_hp st)) (fmt_d (PS.current_ap st))
                 (fmt_d (PS.max_ap st))
                 (if PS.is_dead st then lit "true" else lit "false")
               ++ [newline])])) /\
  (forall stack w s (a : PlayerAction),
     mp_active s = true -> pipe_handle s <> INVALID_HANDLE_VALUE ->
     cstr (PA.type a) = lit "move" ->
     mp_send_action stack w s (Some a)
     = (s, [EWriteFile (pipe_handle s)
              (move_format (fmt_d (PA.target_tile a)) ++ [newline])])) /\
  (forall stack w s (a : PlayerAction),
     mp_active s = true -> pipe_handle s <> INVALID_HANDLE_VALUE ->
     cstr (PA.type a) = lit "attack" ->
     fits 64 (PA.target_id a) -> fits 16 (PA.weapon_mode a) ->
     fits 16 (PA.aimed_location a) ->
     mp_send_action stack w s (Some a)
     = (s, [EWriteFile (pipe_handle s)
              (attack_format (cstr (PA.target_id a))
                 (cstr (PA.weapon_mode a)) (cstr (PA.aimed_location a))
               ++ [newline])])) /\
  (forall stack w s (a : PlayerAction),
     mp_active s = true -> pipe_handle s <> INVALID_HANDLE_VALUE ->
     cstr (PA.type a) = lit "use-item" ->
     fits 32 (PA.item_id a) -> fits 64 (PA.target_id a) ->
     mp_send_action stack w s (Some a)
     = (s, [EWriteFile (pipe_handle s)
              (use_item_format (cstr (PA.item_id a))
                 (cstr (PA.target_id a)) ++ [newline])])) /\
  (forall stack w s (a : PlayerAction),
     mp_active s = true -> pipe_handle s <> INVALID_HANDLE_VALUE ->
     cstr (PA.type a) = lit "end-turn" ->
     mp_send_action stack w s (Some a)
     = (s, [EWriteFile (pipe_handle s) (end_turn_format ++ [newline])])).
Proof.
  split; [|split; [|split; [|split]]].
  - intros w s st Hact Hh Hfit.
    by rewrite mp_send_state_writes, state_message_format.
  - intros stack w s a Hact Hh Hty.
    rewrite mp_send_action_writes, move_message_text; try done.
    rewrite Hty. unfold action_types. in_list.
  - intros stack w s a Hact Hh Hty H1 H2 H3.
    rewrite mp_send_action_writes, attack_message_text; try done.
    rewrite Hty. unfold action_types. in_list.
  - intros stack w s a Hact Hh Hty H1 H2.
    rewrite mp_send_action_writes, use_item_message_text; try done.
    rewrite Hty. unfold action_types. in_list.
  - intros stack w s a Hact Hh Hty.
    rewrite mp_send_action_writes; try done.
    + unfold action_message. by rewrite Hty.
    + rewrite Hty. unfold action_types. in_list.
Qed.

Lemma outbound_wire_format_witness :
  mp_send_action stack0 (mk_write true 0) active_p1 (Some sample_attack)
  = (active_p1,
     [EWriteFile (pipe_handle active_p1)
        (attack_format (cstr (PA.target_id sample_attack))
           (cstr (PA.weapon_mode sample_attack))
           (cstr (PA.aimed_location sample_attack)) ++ [newline])]).
Proof.
  apply (proj1 (proj2 (proj2 outbound_wire_format))).
  - reflexivity.
  - discriminate.
  - reflexivity.
  - vm_compute. lia.
  - vm_compute. lia.
  - vm_compute. lia.
Defined.

Lemma written_bytes_single h (bytes : list ascii) :
  written_bytes [EWriteFile h bytes] = bytes.
Proof. unfold written_bytes. simpl. apply app_nil_r. Qed.

Lemma fmt_d_no_newline n : newline ∉ fmt_d n.
Proof. by apply fmt_d_not_in. Qed.

(** X12: What [mp_send_state] writes for a state whose id is a terminated
    string without a newline is one line for the receive loop: fed to a
    peer whose frame buffer is empty, the written bytes are handed to its
    [process_message] as exactly one frame, the formatted message. *)
Theorem sent_state_is_one_frame :
  forall stack w s peer (st : PlayerState),
    mp_active s = true -> pipe_handle s <> INVALID_HANDLE_VALUE ->
    fits 64 (PS.participant_id st) -> newline ∉ cstr (PS.participant_id st) ->
    buffer_ok peer -> msg_buffer_pos peer = 0 ->
    frames_of (snd (receive_bytes stack peer
                      (written_bytes (snd (mp_send_state w s (Some st))))))
    = [state_message st].
Proof.
  intros stack w s peer st Hact Hh Hfit Hnl Hok Hpos.
  rewrite mp_send_state_writes by done. cbn [snd].
  rewrite written_bytes_single.
  assert (Hlen : (length (state_message st) <= 511)%nat).
  { unfold state_message. apply (snprintf_length 512). }
  assert (Hne : state_message st <> []).
  { rewrite (state_message_format st Hfit). unfold state_format. simpl.
    discriminate. }
  destruct (receive_frame stack peer (state_message st))
    as (s' & _ & _ & _ & ->); try done.
  - rewrite (state_message_format st Hfit). unfold state_format.
    repeat (apply not_elem_of_app; split);
      try apply fmt_d_no_newline; try done; try by_decide.
    destruct (PS.is_dead st); by_decide.
  - rewrite (state_message_format st Hfit). unfold state_format.
    repeat (apply not_elem_of_app; split);
      try apply fmt_d_no_NUL; try apply cstr_no_NUL; try by_decide.
    destruct (PS.is_dead st); by_decide.
  - rewrite decide_False by done. by rewrite take_ge by lia.
Qed.

Lemma sent_state_is_one_frame_witness :
  frames_of (snd (receive_bytes stack0 initial_state
                    (written_bytes
                       (snd (mp_send_state (mk_write true 151) active_p1
                               (Some boundary_state))))))
  = [state_message boundary_state].
Proof.
  apply sent_state_is_one_frame.
  - reflexivity.
  - discriminate.
  - vm_compute. lia.
  - by_decide.
  - split; [reflexivity|]. vm_compute. split; discriminate.
  - reflexivity.
Defined.

End Wire.

(** ** What dispatch and shutdown touch *)

Section Scope.

Implicit Types (s : mp_state) (stack json : list ascii).

(** X13: [process_message] never changes the active flag, the session,
    the pipe handle, the callback slots or the frame buffer, and it calls
    at most one handler; unless the type read from the frame is turn-start
    it returns the very state it was given. *)
Theorem process_message_scope :
  forall stack s json,
    let s' := fst (process_message stack s json) in
    mp_active s' = mp_active s /\ mp_session s' = mp_session s /\
    pipe_handle s' = pipe_handle s /\
    on_turn_start s' = on_turn_start s /\
    on_remote_action s' = on_remote_action s /\
    on_player_state s' = on_player_state s /\
    msg_buffer s' = msg_buffer s /\ msg_buffer_pos s' = msg_buffer_pos s /\
    (length (snd (process_message stack s json)) <= 1)%nat /\
    (cstr (message_type json) <> lit "turn-start" -> s' = s).
Proof.
  intros stack s json s'. unfold s'.
  destruct (process_message_frame stack s json) as (p & m & E & _).
  rewrite E. repeat (split; [done|]). rewrite <- E. clear E.
  unfold process_message. rewrite !strcmp_eqb. split.
  - repeat case_bool_decide; cbn [snd]; unfold call_slot;
      try (destruct (on_turn_start s)); try (destruct (on_remote_action s));
      try (destruct (on_player_state s)); simpl; lia.
  - intros Hty. rewrite bool_decide_eq_false_2 by done.
    by repeat case_bool_decide.
Qed.

Lemma process_message_scope_witness :
  fst (process_message stack0 active_p1
         (lit "{'type':'remote-action','action':'move','targetTile':12}"))
  = active_p1.
Proof.
  apply (process_message_scope stack0 active_p1
           (lit "{'type':'remote-action','action':'move','targetTile':12}")).
  vm_compute. discriminate.
Defined.

(** X14: On an active session [mp_exit] closes the pipe handle once (if
    it is valid) and clears the active flag; afterwards the session
    accessor returns the null pointer, and every send and every poll does
    nothing and leaves the state alone.  The turn flag, the turn
    participant and the characters of a frame in progress are kept. *)
Theorem mp_exit_shuts_down :
  forall s,
    mp_active s = true ->
    let s' := fst (mp_exit s) in
    snd (mp_exit s)
      = (if pipe_handle s =? INVALID_HANDLE_VALUE then []
         else [ECloseHandle (pipe_handle s)]) /\
    pipe_handle s' = INVALID_HANDLE_VALUE /\
    mp_is_active s' = false /\ mp_get_session s' = None /\
    (forall w st, mp_send_state w s' st = (s', [])) /\
    (forall stack w a, mp_send_action stack w s' a = (s', [])) /\
    (forall stack r, mp_poll_message stack r s' = (false, s', [])) /\
    is_my_turn s' = is_my_turn s /\
    current_turn_player s' = current_turn_player s /\
    msg_buffer s' = msg_buffer s /\ msg_buffer_pos s' = msg_buffer_pos s.
Proof.
  intros s Hact s'. unfold s', mp_exit, disconnect_pipe. rewrite Hact.
  destruct (pipe_handle s =? INVALID_HANDLE_VALUE) eqn:E; cbn [negb fst snd].
  - split; [done|]. split; [simpl; lia|]. split; [done|]. split; [done|].
    split; [by intros w [st|]|]. split; [by intros stack w [a|]|]. done.
  - split; [done|]. split; [done|]. split; [done|]. split; [done|].
    split; [by intros w [st|]|]. split; [by intros stack w [a|]|]. done.
Qed.

Lemma mp_exit_shuts_down_witness :
  snd (mp_exit active_p1) = [ECloseHandle 7] /\
  mp_poll_message stack0 (mk_read true 3 true (lit "abc"))
    (fst (mp_exit active_p1))
  = (false, fst (mp_exit active_p1), []).
Proof.
  destruct (mp_exit_shuts_down active_p1 eq_refl)
    as (H1 & _ & _ & _ & _ & _ & H7 & _).
  split; [exact H1|apply H7].
Defined.

End Scope.

(** ** The mask helper of svga.c *)

Section Ffs.

Implicit Types (k e j mask bits shift : Z).

Lemma testbit_to_int x j :
  0 <= j < 32 -> Z.testbit (to_int x) j = Z.testbit x j.
Proof.
  intros Hj. rewrite <- (Z.mod_pow2_bits_low (to_int x) 32 j) by lia.
  rewrite <- (Z.mod_pow2_bits_low x 32 j) by lia. f_equal.
  unfold to_int. rewrite Zminus_mod_idemp_l. f_equal. lia.
Qed.

Lemma below_32 (P : Z -> Prop) :
  (forall n : nat, (n < 32)%nat -> P (Z.of_nat n)) ->
  forall j, 0 <= j < 32 -> P j.
Proof.
  intros H j Hj. rewrite <- (Z2Nat.id j) by lia. apply H. lia.
Qed.

Ltac level_mask_tac :=
  split; [lia|]; split;
  [ apply below_32; intros n Hn;
    do 32 (destruct n as [|n]; [reflexivity|]); lia
  | intros j Hj; apply Z.bits_above_log2; [lia|];
    match goal with |- Z.log2 ?m < _ =>
      let v := eval vm_compute in (Z.log2 m) in
      change (Z.log2 m) with v end; lia ].

Lemma level_mask_4 : level_mask 4 0xFFFF0000.
Proof. level_mask_tac. Qed.

Lemma level_mask_3 : level_mask 3 0xFF00FF00.
Proof. level_mask_tac. Qed.

Lemma level_mask_2 : level_mask 2 0xF0F0F0F0.
Proof. level_mask_tac. Qed.

Lemma level_mask_1 : level_mask 1 0xCCCCCCCC.
Proof. level_mask_tac. Qed.

Lemma level_mask_0 : level_mask 0 0xAAAAAAAA.
Proof. level_mask_tac. Qed.

Lemma land_nonzero_bit bits mask :
  0 <= mask -> Z.land bits mask <> 0 ->
  exists j, 0 <= j /\ Z.testbit bits j = true /\ Z.testbit mask j = true.
Proof.
  intros Hm Hne.
  assert (Hpos : 0 < Z.land bits mask).
  { assert (0 <= Z.land bits mask) by (apply Z.land_nonneg; by right). lia. }
  exists (Z.log2 (Z.land bits mask)). split; [apply Z.log2_nonneg|].
  apply andb_true_iff. rewrite <- Z.land_spec. by apply Z.bit_log2.
Qed.

Lemma land_zero_bit bits mask j :
  Z.land bits mask = 0 -> Z.testbit bits j = true -> Z.testbit mask j = false.
Proof.
  intros H0 Hb. pose proof (Z.land_spec bits mask j) as H.
  rewrite H0, Z.bits_0, Hb in H. done.
Qed.

Lemma lor_level h e :
  0 <= e -> Z.lor (h * 2 ^ (e + 1)) (2 ^ e) = (2 * h + 1) * 2 ^ e.
Proof.
  intros He.
  assert (Hland : Z.land (h * 2 ^ (e + 1)) (2 ^ e) = 0).
  { apply Z.bits_inj'. intros n Hn. rewrite Z.land_spec, Z.bits_0.
    destruct (Z.eq_dec n e) as [->|Hne].
    - rewrite Z.mul_pow2_bits_low by lia. done.
    - rewrite Z.pow2_bits_eqb by lia.
      replace (e =? n) with false by (symmetry; apply Z.eqb_neq; lia).
      apply andb_false_r. }
  rewrite <- Z.lxor_lor, <- Z.add_nocarry_lxor by done.
  rewrite Z.pow_add_r by lia. lia.
Qed.

Lemma level_bit j e :
  0 <= j -> 0 <= e ->
  j / 2 ^ e = 2 * (j / 2 ^ (e + 1)) + (if Z.testbit j e then 1 else 0).
Proof.
  intros Hj He. rewrite Z.pow_add_r by lia. change (2 ^ 1) with 2.
  rewrite <- Z.div_div by lia.
  pose proof (Z.div_mod (j / 2 ^ e) 2 ltac:(lia)) as Hdm.
  destruct (Z.testbit j e) eqn:E.
  - apply Z.testbit_true in E; lia.
  - apply Z.testbit_false in E; lia.
Qed.

(** One round keeps the invariant, one level down. *)
Lemma ffs_round_inv k e mask st :
  0 <= k < 32 -> 0 <= e -> level_mask e mask ->
  ffs_inv k (e + 1) st -> ffs_inv k e (ffs_round (2 ^ e) mask st).
Proof.
  intros Hk He (Hm & Hlow & Hhigh) Hinv. destruct st as [shift bits].
  destruct Hinv as (Hkb & Hall & Hs). unfold ffs_round.
  pose proof (level_bit k e ltac:(lia) He) as Hke.
  destruct (Z.land bits mask =? 0) eqn:E; cbn [negb].
  - apply Z.eqb_eq in E.
    assert (Hbit : forall j, 0 <= j < 32 -> Z.testbit bits j = true ->
                             Z.testbit j e = false).
    { intros j Hj Hb. rewrite <- Hlow by done. by apply (land_zero_bit bits). }
    rewrite (Hbit k Hk Hkb) in Hke.
    split; [done|]. split.
    + intros j Hj Hb. destruct (Hall j Hj Hb) as [Hle Heq].
      split; [done|]. pose proof (level_bit j e ltac:(lia) He) as Hje.
      rewrite (Hbit j Hj Hb) in Hje. lia.
    + rewrite Hs, Hke. rewrite Z.pow_add_r by lia. lia.
  - apply Z.eqb_neq in E.
    destruct (land_nonzero_bit bits mask Hm E) as (j0 & Hj0 & Hb0 & Hm0).
    assert (Hj32 : j0 < 32).
    { destruct (Z.lt_ge_cases j0 32) as [?|Hge]; [done|].
      rewrite (Hhigh j0 Hge) in Hm0. done. }
    destruct (Hall j0 ltac:(lia) Hb0) as [Hle0 Heq0].
    pose proof (level_bit j0 e Hj0 He) as Hj0e.
    rewrite <- Hlow, Hm0 in Hj0e by lia.
    pose proof (Z.div_le_mono j0 k (2 ^ e) ltac:(lia) Hle0) as Hmono.
    assert (Hkbit : Z.testbit k e = true).
    { destruct (Z.testbit k e); [done|lia]. }
    rewrite Hkbit in Hke.
    split; [|split].
    + rewrite testbit_to_int, Z.land_spec, Hkb, Hlow, Hkbit by done. done.
    + intros j Hj Hb. rewrite testbit_to_int, Z.land_spec in Hb by done.
      apply andb_true_iff in Hb as [Hb Hmj].
      destruct (Hall j Hj Hb) as [Hle Heq]. split; [done|].
      pose proof (level_bit j e ltac:(lia) He) as Hje.
      rewrite <- Hlow, Hmj in Hje by done. lia.
    + rewrite Hs, lor_level, Hke by done. done.
Qed.

Lemma ffs_rounds bits :
  ffs bits
  = fst (ffs_round 1 0xAAAAAAAA (ffs_round 2 0xCCCCCCCC
           (ffs_round 4 0xF0F0F0F0 (ffs_round 8 0xFF00FF00
              (ffs_round 16 0xFFFF0000 (0, bits)))))).
Proof.
  unfold ffs, ffs_round.
  repeat match goal with
         | |- context [negb (Z.land ?b ?m =? 0)] =>
             destruct (negb (Z.land b m =? 0))
         end; reflexivity.
Qed.

Lemma land_pattern_zero bits mask :
  pattern bits = 0 -> (forall j, 32 <= j -> Z.testbit mask j = false) ->
  Z.land bits mask = 0.
Proof.
  intros Hp Hhigh. apply Z.bits_inj'. intros n Hn.
  rewrite Z.land_spec, Z.bits_0.
  destruct (Z.lt_ge_cases n 32) as [Hlt|Hge].
  - rewrite <- (Z.mod_pow2_bits_low bits 32 n) by lia.
    unfold pattern in Hp. by rewrite Hp, Z.bits_0.
  - rewrite (Hhigh n Hge). apply andb_false_r.
Qed.

(** X15: [ffs] returns the position of the highest set bit of the 32-bit
    pattern of its argument (so for a positive [int] it is the integer
    binary logarithm: 2^ffs <= bits < 2^(ffs+1)), and 0 when no bit is
    set. *)
Theorem ffs_highest_bit :
  (forall bits, pattern bits <> 0 -> ffs bits = Z.log2 (pattern bits)) /\
  (forall bits, pattern bits = 0 -> ffs bits = 0) /\
  (forall bits, 0 < bits < 2 ^ 31 ->
     2 ^ ffs bits <= bits < 2 ^ (ffs bits + 1)).
Proof.
  assert (Hmain : forall bits, pattern bits <> 0 ->
                               ffs bits = Z.log2 (pattern bits)).
  { intros bits Hne. unfold pattern in *.
    pose proof (Z.mod_pos_bound bits (2 ^ 32) ltac:(lia)) as Hrange.
    set (u := bits mod 2 ^ 32) in *. set (k := Z.log2 u).
    assert (Hk : 0 <= k < 32).
    { split; [apply Z.log2_nonneg|]. apply Z.log2_lt_pow2; lia. }
    assert (H5 : ffs_inv k (4 + 1) (0, bits)).
    { split; [|split].
      - rewrite <- (Z.mod_pow2_bits_low bits 32 k) by lia.
        apply Z.bit_log2. fold u. lia.
      - intros j Hj Hb.
        rewrite <- (Z.mod_pow2_bits_low bits 32 j) in Hb by lia. fold u in Hb.
        assert (j <= k).
        { destruct (Z.le_gt_cases j k) as [?|Hgt]; [done|].
          rewrite (Z.bits_above_log2 u j) in Hb by (fold k; lia). done. }
        split; [done|]. change (2 ^ (4 + 1)) with 32.
        rewrite !Z.div_small by lia. done.
      - change (2 ^ (4 + 1)) with 32. rewrite Z.div_small by lia. done. }
    apply (ffs_round_inv k 4 _ _ Hk ltac:(lia) level_mask_4) in H5.
    apply (ffs_round_inv k 3 _ _ Hk ltac:(lia) level_mask_3) in H5.
    apply (ffs_round_inv k 2 _ _ Hk ltac:(lia) level_mask_2) in H5.
    apply (ffs_round_inv k 1 _ _ Hk ltac:(lia) level_mask_1) in H5.
    apply (ffs_round_inv k 0 _ _ Hk ltac:(lia) level_mask_0) in H5.
    rewrite ffs_rounds.
    change (2 ^ 4) with 16 in H5. change (2 ^ 3) with 8 in H5.
    change (2 ^ 2) with 4 in H5. change (2 ^ 1) with 2 in H5.
    change (2 ^ 0) with 1 in H5.
    destruct (ffs_round 1 _ _) as [shift b]. destruct H5 as (_ & _ & Hs).
    cbn [fst]. rewrite Hs, Z.div_1_r. lia. }
  split; [exact Hmain|]. split.
  - intros bits Hp. rewrite ffs_rounds. unfold ffs_round.
    rewrite (land_pattern_zero bits) by (done || apply level_mask_4).
    cbn [Z.eqb negb].
    rewrite (land_pattern_zero bits) by (done || apply level_mask_3).
    cbn [Z.eqb negb].
    rewrite (land_pattern_zero bits) by (done || apply level_mask_2).
    cbn [Z.eqb negb].
    rewrite (land_pattern_zero bits) by (done || apply level_mask_1).
    cbn [Z.eqb negb].
    rewrite (land_pattern_zero bits) by (done || apply level_mask_0).
    done.
  - intros bits Hb.
    assert (Hp : pattern bits = bits)
      by (unfold pattern; apply Z.mod_small; lia).
    rewrite Hmain by lia. rewrite Hp.
    pose proof (Z.log2_spec bits ltac:(lia)) as H.
    rewrite <- Z.add_1_r in H. exact H.
Qed.

Lemma ffs_highest_bit_witness : ffs 0xF800 = Z.log2 (pattern 0xF800).
Proof. apply (proj1 ffs_highest_bit). vm_compute. discriminate. Defined.

End Ffs.

(** ** The palette of svga.c *)

Section Palette.

Import Svga.

Lemma upto_S (c : nat) :
  upto (Z.of_nat (S c)) = upto (Z.of_nat c) ++ [Z.of_nat c].
Proof.
  unfold upto. rewrite !Nat2Z.id. rewrite seq_S, map_app. done.
Qed.

Lemma wr_length {A} (a : list A) i f : length (wr a i f) = length a.
Proof. unfold wr. destruct (_ && _); [apply length_alter|done]. Qed.

Lemma wr_lookup {A} (a : list A) i f (n : nat) :
  0 <= i < Z.of_nat (length a) ->
  wr a i f !! n = if decide (Z.of_nat n = i) then f <$> a !! n else a !! n.
Proof.
  intros Hi. unfold wr.
  replace ((0 <=? i) && (i <? Z.of_nat (length a))) with true
    by (symmetry; apply andb_true_iff; split; lia).
  rewrite list_lookup_alter.
  destruct (decide (Z.of_nat n = i)) as [E|E].
  - subst i. rewrite Nat2Z.id. by rewrite decide_True.
  - rewrite decide_False by lia. done.
Qed.

Lemma fold_wr_length {A} (f : Z -> A -> A) (start : Z) ks (a : list A) :
  length (fold_left (fun l k => wr l (start + k) (f k)) ks a) = length a.
Proof.
  revert a. induction ks as [|k ks IH]; intros a; [done|]. cbn [fold_left].
  by rewrite IH, wr_length.
Qed.

(** A loop that rewrites the entries [start .. start + count - 1] one by
    one: each of them is rewritten once, the others are kept. *)
Lemma fold_wr {A} (f : Z -> A -> A) (start : Z) (c : nat) (a : list A) n :
  0 <= start -> start + Z.of_nat c <= Z.of_nat (length a) ->
  fold_left (fun l k => wr l (start + k) (f k)) (upto (Z.of_nat c)) a !! n
  = if decide (start <= Z.of_nat n < start + Z.of_nat c)
    then f (Z.of_nat n - start) <$> a !! n else a !! n.
Proof.
  intros Hs. induction c as [|c IH]; intros Hc.
  - simpl. rewrite decide_False by lia. done.
  - rewrite upto_S, fold_left_app. cbn [fold_left].
    rewrite wr_lookup by (rewrite fold_wr_length; lia). rewrite IH by lia.
    destruct (decide (Z.of_nat n = start + Z.of_nat c)) as [E|E].
    + rewrite decide_False by lia. rewrite decide_True by lia.
      by replace (Z.of_nat n - start) with (Z.of_nat c) by lia.
    + destruct (decide (start <= Z.of_nat n < start + Z.of_nat c)).
      * by rewrite decide_True by lia.
      * by rewrite decide_False by lia.
Qed.

Lemma shl2_shr2 x : 0 <= x -> Z.shiftr (u8 (Z.shiftl x 2)) 2 = x mod 64.
Proof.
  intros Hx. unfold u8. rewrite Z.shiftl_mul_pow2, Z.shiftr_div_pow2 by lia.
  change (2 ^ 2) with 4. change 256 with (64 * 4).
  rewrite Z.mul_mod_distr_r by lia. apply Z.div_mul. lia.
Qed.

(** X16: In windowed mode, [GNW95_SetPaletteEntries palette start count]
    rewrites the red, green and blue of the colour-table entries
    [start .. start + count - 1] with the palette components shifted left by
    two (as bytes) and keeps their reserved byte; every other entry, the
    16-bit table and the static array of [GNW95_GetPalette] are kept;
    nothing but the palette-update hook is called. *)
Theorem windowed_set_entries :
  forall palette start count s colors (n : nat),
    GNW95_WindowBMI s = Some colors ->
    0 <= start -> 0 <= count -> start + count <= Z.of_nat (length colors) ->
    let res := GNW95_SetPaletteEntries palette start count s in
    snd res = notify s /\
    GNW95_Pal16 (fst res) = GNW95_Pal16 s /\ cmap (fst res) = cmap s /\
    exists colors',
      GNW95_WindowBMI (fst res) = Some colors' /\
      length colors' = length colors /\
      colors' !! n
      = if decide (start <= Z.of_nat n < start + count)
        then set_rgb
               (u8 (Z.shiftl (rd palette ((Z.of_nat n - start) * 3)) 2))
               (u8 (Z.shiftl (rd palette ((Z.of_nat n - start) * 3 + 1)) 2))
               (u8 (Z.shiftl (rd palette ((Z.of_nat n - start) * 3 + 2)) 2))
             <$> colors !! n
        else colors !! n.
Proof.
  intros palette start count s colors n Hbmi Hs Hc Hlen res.
  unfold res, GNW95_SetPaletteEntries. rewrite Hbmi. cbn [fst snd app].
  split; [done|]. split; [done|]. split; [done|].
  eexists. split; [reflexivity|].
  rewrite <- (Z2Nat.id count) by lia. split.
  - apply (fold_wr_length
      (fun k => set_rgb (u8 (Z.shiftl (rd palette (k * 3)) 2))
                  (u8 (Z.shiftl (rd palette (k * 3 + 1)) 2))
                  (u8 (Z.shiftl (rd palette (k * 3 + 2)) 2)))).
  - rewrite (fold_wr
      (fun k => set_rgb (u8 (Z.shiftl (rd palette (k * 3)) 2))
                  (u8 (Z.shiftl (rd palette (k * 3 + 1)) 2))
                  (u8 (Z.shiftl (rd palette (k * 3 + 2)) 2)))) by lia.
    done.
Qed.

Lemma windowed_set_entries_witness :
  exists colors',
    GNW95_WindowBMI (fst (GNW95_SetPaletteEntries [1; 2; 3; 4; 5; 6] 10 2
                            windowed)) = Some colors' /\
    colors' !! 11%nat = Some (mk_rgb 24 20 16 0).
Proof.
  destruct (windowed_set_entries [1; 2; 3; 4; 5; 6] 10 2 windowed
              window_colors 11 eq_refl ltac:(lia) ltac:(lia)
              ltac:(by_decide))
    as (_ & _ & _ & colors' & Hbmi & _ & Hn).
  exists colors'. split; [exact Hbmi|]. rewrite Hn. vm_compute. reflexivity.
Defined.

Lemma store3_length cm i r g b : length (store3 cm i r g b) = length cm.
Proof. unfold store3. by rewrite !wr_length. Qed.

Lemma fold_store3_length (R G B : Z -> Z) ks cm :
  length (fold_left (fun cm k => store3 cm k (R k) (G k) (B k)) ks cm)
  = length cm.
Proof.
  revert cm. induction ks as [|k ks IH]; intros cm; [done|]. cbn [fold_left].
  by rewrite IH, store3_length.
Qed.

Lemma store3_lookup cm i r g b (n : nat) :
  0 <= i -> i * 3 + 2 < Z.of_nat (length cm) ->
  store3 cm i r g b !! n
  = if decide (Z.of_nat n = i * 3 + 2) then (fun _ => u8 b) <$> cm !! n
    else if decide (Z.of_nat n = i * 3 + 1) then (fun _ => u8 g) <$> cm !! n
    else if decide (Z.of_nat n = i * 3) then (fun _ => u8 r) <$> cm !! n
    else cm !! n.
Proof.
  intros Hi Hlen. unfold store3.
  rewrite !wr_lookup by (rewrite ?wr_length; lia).
  repeat case_decide; try lia; done.
Qed.

(** The loops of [GNW95_GetPalette] fill the first [3 * c] bytes. *)
Lemma fold_store3 (R G B : Z -> Z) (c : nat) cm (n : nat) :
  3 * Z.of_nat c <= Z.of_nat (length cm) ->
  fold_left (fun cm k => store3 cm k (R k) (G k) (B k)) (upto (Z.of_nat c)) cm
    !! n
  = if decide (Z.of_nat n < 3 * Z.of_nat c)
    then (fun _ => u8 (component R G B (Z.of_nat n))) <$> cm !! n
    else cm !! n.
Proof.
  induction c as [|c IH]; intros Hc.
  - simpl. by rewrite decide_False by lia.
  - rewrite upto_S, fold_left_app. cbn [fold_left].
    rewrite store3_lookup by (rewrite ?fold_store3_length; lia).
    rewrite IH by lia. unfold component.
    destruct (decide (Z.of_nat n = Z.of_nat c * 3 + 2)) as [E2|E2];
      [|destruct (decide (Z.of_nat n = Z.of_nat c * 3 + 1)) as [E1|E1];
        [|destruct (decide (Z.of_nat n = Z.of_nat c * 3)) as [E0|E0]]].
    + rewrite decide_False by lia. rewrite decide_True by lia.
      replace (Z.of_nat n mod 3) with 2
        by (rewrite E2, Z.add_comm, Z.mod_add by lia; done).
      replace (Z.of_nat n / 3) with (Z.of_nat c)
        by (rewrite E2, Z.add_comm, Z.div_add by lia; done).
      by destruct (cm !! n).
    + rewrite decide_False by lia. rewrite decide_True by lia.
      replace (Z.of_nat n mod 3) with 1
        by (rewrite E1, Z.add_comm, Z.mod_add by lia; done).
      replace (Z.of_nat n / 3) with (Z.of_nat c)
        by (rewrite E1, Z.add_comm, Z.div_add by lia; done).
      by destruct (cm !! n).
    + rewrite decide_False by lia. rewrite decide_True by lia.
      replace (Z.of_nat n mod 3) with 0
        by (rewrite E0, Z.mod_mul by lia; done).
      replace (Z.of_nat n / 3) with (Z.of_nat c)
        by (rewrite E0, Z.div_mul by lia; done).
      by destruct (cm !! n).
    + destruct (decide (Z.of_nat n < 3 * Z.of_nat c)).
      * by rewrite decide_True by lia.
      * by rewrite decide_False by lia.
Qed.

Lemma rd_lookup (a : list Z) (n : nat) x : a !! n = Some x -> rd a (Z.of_nat n) = x.
Proof.
  intros H. unfold rd. rewrite Nat2Z.id, nth_lookup. by rewrite H.
Qed.

(** X17: In windowed mode, reading the palette back with
    [GNW95_GetPalette] after [GNW95_SetPalette palette] gives the 768
    components of [palette] reduced modulo 64: a palette of 6-bit components
    is read back unchanged, the two high bits of a larger component are
    lost. *)
Theorem windowed_palette_round_trip :
  forall palette s colors got,
    GNW95_WindowBMI s = Some colors ->
    length colors = 256%nat -> length (cmap s) = 768%nat ->
    length palette = 768%nat -> Forall (fun x => 0 <= x < 256) palette ->
    let s1 := fst (GNW95_SetPalette palette s) in
    fst (fst (GNW95_GetPalette got s1))
    = Some (map (fun x => x mod 64) palette) /\
    (Forall (fun x => 0 <= x < 64) palette ->
     fst (fst (GNW95_GetPalette got s1)) = Some palette).
Proof.
  intros palette s colors got Hbmi Hcol Hcm Hpal Hbytes s1.
  assert (Hget : fst (fst (GNW95_GetPalette got s1))
                 = Some (map (fun x => x mod 64) palette)).
  { unfold s1, GNW95_SetPalette. rewrite Hbmi. cbn [fst snd].
    unfold GNW95_GetPalette. cbn [GNW95_WindowBMI set_bmi cmap fst].
    f_equal. apply list_eq. intros n.
    set (colors' := fold_left _ (upto 256) colors).
    refine (eq_trans (fold_store3
      (fun k => Z.shiftr (rgbRed (nth (Z.to_nat k) colors' (mk_rgb 0 0 0 0))) 2)
      (fun k => Z.shiftr (rgbGreen (nth (Z.to_nat k) colors' (mk_rgb 0 0 0 0))) 2)
      (fun k => Z.shiftr (rgbBlue (nth (Z.to_nat k) colors' (mk_rgb 0 0 0 0))) 2)
      256 (cmap s) n ltac:(lia)) _).
    rewrite list_lookup_fmap.
    destruct (decide (Z.of_nat n < 3 * Z.of_nat 256)) as [Hn|Hn].
    2:{ rewrite !lookup_ge_None_2 by lia. done. }
    destruct (lookup_lt_is_Some_2 (cmap s) n) as [c0 Hc0]; [lia|].
    destruct (lookup_lt_is_Some_2 palette n) as [x Hx]; [lia|].
    rewrite Hc0, Hx. cbn [fmap option_fmap option_map]. f_equal.
    assert (Hx256 : 0 <= x < 256).
    { rewrite Forall_forall in Hbytes. apply Hbytes.
      by apply list_elem_of_lookup_2 in Hx. }
    assert (Hq : 0 <= Z.of_nat n / 3 < 256)
      by (split; [apply Z.div_pos; lia | apply Z.div_lt_upper_bound; lia]).
    destruct (lookup_lt_is_Some_2 colors (Z.to_nat (Z.of_nat n / 3)))
      as [q Hq0]; [lia|].
    assert (Hnth : nth (Z.to_nat (Z.of_nat n / 3)) colors' (mk_rgb 0 0 0 0)
      = set_rgb
          (u8 (Z.shiftl (rd palette (Z.of_nat n / 3 * 3)) 2))
          (u8 (Z.shiftl (rd palette (Z.of_nat n / 3 * 3 + 1)) 2))
          (u8 (Z.shiftl (rd palette (Z.of_nat n / 3 * 3 + 2)) 2)) q).
    { rewrite nth_lookup. unfold colors'.
      pose proof (fold_wr
        (fun k => set_rgb (u8 (Z.shiftl (rd palette (k * 3)) 2))
                    (u8 (Z.shiftl (rd palette (k * 3 + 1)) 2))
                    (u8 (Z.shiftl (rd palette (k * 3 + 2)) 2)))
        0 256 colors (Z.to_nat (Z.of_nat n / 3)) ltac:(lia) ltac:(lia))
        as Hfold.
      rewrite decide_True in Hfold by lia. rewrite Hq0 in Hfold.
      refine (eq_trans (f_equal (default _) Hfold) _).
      cbn [fmap option_fmap option_map default].
      by rewrite Z.sub_0_r, Z2Nat.id by lia. }
    pose proof (Z.div_mod (Z.of_nat n) 3 ltac:(lia)) as Hdm.
    pose proof (Z.mod_pos_bound (Z.of_nat n) 3 ltac:(lia)) as Hm.
    pose proof (Z.mod_pos_bound x 64 ltac:(lia)) as Hx64.
    apply rd_lookup in Hx.
    unfold component. rewrite Hnth. cbn [set_rgb rgbRed rgbGreen rgbBlue].
    destruct (Z.eqb_spec (Z.of_nat n mod 3) 0) as [E0|E0];
      [|destruct (Z.eqb_spec (Z.of_nat n mod 3) 1) as [E1|E1]].
    - replace (Z.of_nat n / 3 * 3) with (Z.of_nat n) by lia.
      rewrite Hx, shl2_shr2 by lia. unfold u8. apply Z.mod_small. lia.
    - replace (Z.of_nat n / 3 * 3 + 1) with (Z.of_nat n) by lia.
      rewrite Hx, shl2_shr2 by lia. unfold u8. apply Z.mod_small. lia.
    - replace (Z.of_nat n / 3 * 3 + 2) with (Z.of_nat n) by lia.
      rewrite Hx, shl2_shr2 by lia. unfold u8. apply Z.mod_small. lia. }
  split; [exact Hget|]. intros H64. rewrite Hget. f_equal.
  clear -H64. induction H64 as [|x l Hx _ IH]; [done|].
  cbn [map]. rewrite IH, Z.mod_small by lia. done.
Qed.

Lemma windowed_palette_round_trip_witness :
  fst (fst (GNW95_GetPalette None (fst (GNW95_SetPalette ramp windowed))))
  = Some ramp.
Proof.
  refine (proj2 (windowed_palette_round_trip ramp windowed window_colors None
                   eq_refl eq_refl eq_refl eq_refl _) _); by_decide.
Defined.

Lemma elem_of_upto x n : 0 <= x < n -> In x (upto n).
Proof.
  intros Hx. unfold upto. apply in_map_iff. exists (Z.to_nat x).
  split; [lia|]. apply in_seq. lia.
Qed.

Lemma quarters_565 : quarters 0xF800 0x07E0 0x001F = true.
Proof. vm_compute. reflexivity. Qed.

Lemma quarters_555 : quarters 0x7C00 0x03E0 0x001F = true.
Proof. vm_compute. reflexivity. Qed.

Lemma quarters_spec rm gm bm s0 r g b :
  quarters rm gm bm = true ->
  0 <= r < 64 -> 0 <= g < 64 -> 0 <= b < 64 ->
  unpack16 (set_pixel_format rm gm bm s0)
    (pack16 (set_pixel_format rm gm bm s0) r g b)
  = (r / 4, g / 4, b / 4).
Proof.
  intros Hq Hr Hg Hb. unfold quarters in Hq. cbv zeta in Hq.
  rewrite forallb_forall in Hq. specialize (Hq r (elem_of_upto _ _ Hr)).
  rewrite forallb_forall in Hq. specialize (Hq g (elem_of_upto _ _ Hg)).
  rewrite forallb_forall in Hq. specialize (Hq b (elem_of_upto _ _ Hb)).
  change (unpack16 (set_pixel_format rm gm bm s0)
            (pack16 (set_pixel_format rm gm bm s0) r g b))
    with (unpack16 (set_pixel_format rm gm bm bare)
            (pack16 (set_pixel_format rm gm bm bare) r g b)).
  destruct (unpack16 _ _) as [[r' g'] b'].
  apply andb_true_iff in Hq as [Hq Hq3]. apply andb_true_iff in Hq as [Hq1 Hq2].
  apply Z.eqb_eq in Hq1, Hq2, Hq3. by subst.
Qed.

(** X18: In 16-bit mode with the shifts that [GNW95_init_DirectDraw] derives
    from the masks of an RGB565 or RGB555 surface, [GNW95_GetPalette] after
    [GNW95_SetPalette palette] gives every 6-bit component of [palette]
    divided by four: the palette is not read back, its two low bits are
    lost. *)
Theorem hicolor_palette_read_back :
  forall rm gm bm palette s0 got,
    GNW95_WindowBMI s0 = None -> GNW95_DDPrimaryPalette s0 = None ->
    (rm, gm, bm) = (0xF800, 0x07E0, 0x001F) \/
    (rm, gm, bm) = (0x7C00, 0x03E0, 0x001F) ->
    length (GNW95_Pal16 s0) = 256%nat -> length (cmap s0) = 768%nat ->
    length palette = 768%nat -> Forall (fun x => 0 <= x < 64) palette ->
    let s := set_pixel_format rm gm bm s0 in
    fst (fst (GNW95_GetPalette got (fst (GNW95_SetPalette palette s))))
    = Some (map (fun x => x / 4) palette).
Proof.
  intros rm gm bm palette s0 got Hbmi Hdd Hfmt Hp16 Hcm Hpal H64 s.
  assert (Hq : quarters rm gm bm = true).
  { destruct Hfmt as [E|E]; injection E as -> -> ->;
      [apply quarters_565 | apply quarters_555]. }
  unfold GNW95_SetPalette.
  replace (GNW95_WindowBMI s) with (@None (list RGBQUAD)) by done.
  replace (GNW95_DDPrimaryPalette s) with (@None Z) by done.
  cbn [fst snd]. unfold GNW95_GetPalette.
  cbn [GNW95_WindowBMI GNW95_DDPrimaryPalette set_pal16 cmap fst
       w95rmask w95gmask w95bmask w95rshift w95gshift w95bshift GNW95_Pal16].
  replace (GNW95_WindowBMI s) with (@None (list RGBQUAD)) by done.
  replace (GNW95_DDPrimaryPalette s) with (@None Z) by done.
  cbv zeta. cbn [fst]. f_equal. apply list_eq. intros n.
  set (pal16 := fold_left _ (upto 256) (GNW95_Pal16 s)).
  refine (eq_trans (fold_store3
    (fun k => fst (fst (unpack16 s (rd pal16 k))))
    (fun k => snd (fst (unpack16 s (rd pal16 k))))
    (fun k => snd (unpack16 s (rd pal16 k)))
    256 (cmap s) n ltac:(change (cmap s) with (cmap s0); lia)) _).
  change (cmap s) with (cmap s0). rewrite list_lookup_fmap.
  destruct (decide (Z.of_nat n < 3 * Z.of_nat 256)) as [Hn|Hn].
  2:{ rewrite !lookup_ge_None_2 by lia. done. }
  destruct (lookup_lt_is_Some_2 (cmap s0) n) as [c0 Hc0]; [lia|].
  destruct (lookup_lt_is_Some_2 palette n) as [x Hx]; [lia|].
  rewrite Hc0, Hx. cbn [fmap option_fmap option_map]. f_equal.
  rewrite Forall_forall in H64.
  assert (Hx64 : 0 <= x < 64)
    by (apply H64; by apply list_elem_of_lookup_2 in Hx).
  assert (Hk : 0 <= Z.of_nat n / 3 < 256)
    by (split; [apply Z.div_pos; lia | apply Z.div_lt_upper_bound; lia]).
  pose proof (Z.div_mod (Z.of_nat n) 3 ltac:(lia)) as Hdm.
  pose proof (Z.mod_pos_bound (Z.of_nat n) 3 ltac:(lia)) as Hm.
  set (k := Z.of_nat n / 3) in *.
  assert (Hcomp : forall j, 0 <= j < 3 -> 0 <= rd palette (k * 3 + j) < 64).
  { intros j Hj.
    destruct (lookup_lt_is_Some_2 palette (Z.to_nat (k * 3 + j)))
      as [y Hy]; [lia|].
    unfold rd. rewrite nth_lookup, Hy. cbn [default]. apply H64.
    by apply list_elem_of_lookup_2 in Hy. }
  destruct (lookup_lt_is_Some_2 (GNW95_Pal16 s0) (Z.to_nat k)) as [v Hv];
    [lia|].
  assert (Hrd : rd pal16 k
    = pack16 s (rd palette (k * 3)) (rd palette (k * 3 + 1))
        (rd palette (k * 3 + 2))).
  { unfold rd at 1. rewrite nth_lookup. unfold pal16.
    pose proof (fold_wr
      (fun k _ => pack16 s (rd palette (k * 3)) (rd palette (k * 3 + 1))
                    (rd palette (k * 3 + 2)))
      0 256 (GNW95_Pal16 s0) (Z.to_nat k) ltac:(lia) ltac:(lia)) as Hfold.
    rewrite decide_True in Hfold by lia. rewrite Hv in Hfold.
    refine (eq_trans (f_equal (default _) Hfold) _).
    cbn [fmap option_fmap option_map default].
    by rewrite Z.sub_0_r, Z2Nat.id by lia. }
  pose proof (Hcomp 0 ltac:(lia)) as H0. rewrite Z.add_0_r in H0.
  pose proof (quarters_spec rm gm bm s0 _ _ _ Hq H0
                (Hcomp 1 ltac:(lia)) (Hcomp 2 ltac:(lia))) as Hun.
  fold s in Hun. rewrite <- Hrd in Hun.
  apply rd_lookup in Hx.
  assert (Hx4 : 0 <= x / 4 < 256)
    by (split; [apply Z.div_pos; lia | apply Z.div_lt_upper_bound; lia]).
  unfold component. cbv beta. fold k. rewrite Hun. cbn [fst snd].
  destruct (Z.eqb_spec (Z.of_nat n mod 3) 0) as [E0|E0];
    [|destruct (Z.eqb_spec (Z.of_nat n mod 3) 1) as [E1|E1]].
  - replace (k * 3) with (Z.of_nat n) by lia.
    rewrite Hx. unfold u8. apply Z.mod_small. lia.
  - replace (k * 3 + 1) with (Z.of_nat n) by lia.
    rewrite Hx. unfold u8. apply Z.mod_small. lia.
  - replace (k * 3 + 2) with (Z.of_nat n) by lia.
    rewrite Hx. unfold u8. apply Z.mod_small. lia.
Qed.

Lemma hicolor_palette_read_back_witness :
  fst (fst (GNW95_GetPalette None
              (fst (GNW95_SetPalette ramp
                      (set_pixel_format 0xF800 0x07E0 0x001F hicolor)))))
  = Some (map (fun x => x / 4) ramp).
Proof.
  apply (hicolor_palette_read_back 0xF800 0x07E0 0x001F ramp hicolor None);
    [reflexivity | reflexivity | left; reflexivity | reflexivity
    | reflexivity | reflexivity | by_decide].
Defined.

(** X19: With a window colour table or a DirectDraw palette,
    [GNW95_SetPaletteEntry entry r g b] does what
    [GNW95_SetPaletteEntries] does for the one triple [r], [g], [b] at
    [entry]: the same state and the same calls. *)
Theorem set_palette_entry_single :
  forall entry r g b s,
    GNW95_WindowBMI s <> None \/ GNW95_DDPrimaryPalette s <> None ->
    GNW95_SetPaletteEntry entry r g b s
    = GNW95_SetPaletteEntries [r; g; b] entry 1 s.
Proof.
  intros entry r g b s Hmode.
  unfold GNW95_SetPaletteEntry, GNW95_SetPaletteEntries.
  change (upto 1) with [0].
  destruct (GNW95_WindowBMI s) as [colors|] eqn:Hbmi.
  - cbn [fold_left app]. rewrite Z.add_0_r. reflexivity.
  - destruct (GNW95_DDPrimaryPalette s) as [pal|] eqn:Hdd; [done|].
    by destruct Hmode.
Qed.

Lemma set_palette_entry_single_witness :
  GNW95_SetPaletteEntry 7 1 2 3 windowed
  = GNW95_SetPaletteEntries [1; 2; 3] 7 1 windowed.
Proof.
  apply (set_palette_entry_single 7 1 2 3 windowed). left. discriminate.
Defined.

End Palette.
